(** * Employee management service (server.js, mcp-server.mjs)

    A shallow embedding of the record store, the validation rules and the
    record operations of the Node.js employee service, with the properties
    of its specification stated and proved over that embedding.

    Modelling conventions.
    - A JavaScript string is the list of its UTF-16 code units ([jsstring]).
    - A JavaScript number is modelled by an integer ([Z]).  The integers
      from -2^53 to 2^53 are doubles and stand for themselves, [Infinity]
      and its opposite stand for the two infinities; this is where ids, the
      digit strings and the defaults of this program live.  Other doubles
      are not followed: a number literal that denotes none of these (one
      with a fraction, one that is rounded) is read as [beyond], which is
      no double, and the statements about numbers ask them to be exact.
    - A request body, a stored field and the persisted document are JSON
      values ([json]); a property that is absent reads as [None], which is
      JavaScript's [undefined].
    - The backing document holds text ([file]); writing it encodes the text
      as UTF-8, reading it decodes what was written.
    - A handler is modelled from the point where [loadEmployees()] has
      returned the collection; its outcome is the response it sends and the
      collection it passes to [saveEmployees], if any.  The path parameter
      [Number(req.params.id)] is an integer: a path segment that is not one
      equals no id, like an integer that no record has. *)

From Stdlib Require Import ZArith NArith List Bool Lia String Ascii.
From Stdlib Require Import Permutation.
From Stdlib Require Decimal DecimalFacts DecimalN DecimalPos.
Import ListNotations.

(** ** JavaScript strings and values *)

Module JS.

Definition jsstring := list N.

(** A source literal, as the list of its code units. *)
Definition lit (s : string) : jsstring :=
  map N_of_ascii (list_ascii_of_string s).

Fixpoint str_eqb (a b : jsstring) : bool :=
  match a, b with
  | [], [] => true
  | x :: a', y :: b' => N.eqb x y && str_eqb a' b'
  | _, _ => false
  end.

(** [\d] of a regular expression without the [u] flag: the ten ASCII digits. *)
Definition is_digit (c : N) : bool := (N.leb 48 c && N.leb c 57)%N.

(** WhiteSpace and LineTerminator code points, the set [String.prototype.trim]
    removes. *)
Definition is_white_space (c : N) : bool :=
  (N.leb 9 c && N.leb c 13)
  || N.eqb c 32 || N.eqb c 160 || N.eqb c 5760
  || (N.leb 8192 c && N.leb c 8202)
  || N.eqb c 8232 || N.eqb c 8233 || N.eqb c 8239 || N.eqb c 8287
  || N.eqb c 12288 || N.eqb c 65279.

Fixpoint trimStart (s : jsstring) : jsstring :=
  match s with
  | [] => []
  | c :: s' => if is_white_space c then trimStart s' else s
  end.

Definition trimEnd (s : jsstring) : jsstring := rev (trimStart (rev s)).

(** [s.trim()] *)
Definition trim (s : jsstring) : jsstring := trimEnd (trimStart s).

(** [s.replace(/\D/g, "")] *)
Definition replace_non_digits (s : jsstring) : jsstring := filter is_digit s.

(** [a.join(sep)] on an array of strings. *)
Fixpoint join (sep : jsstring) (l : list jsstring) : jsstring :=
  match l with
  | [] => []
  | [x] => x
  | x :: l' => x ++ sep ++ join sep l'
  end.

Unset Elimination Schemes.
Inductive json : Type :=
| JNull
| JBool (b : bool)
| JNum (n : Z)
| JStr (s : jsstring)
| JArr (l : list json)
| JObj (m : list (jsstring * json)).
Set Elimination Schemes.

(** Induction over a value with the hypothesis for every element of an
    array and every property value of an object. *)
Fixpoint json_ind (P : json -> Prop)
    (HNull : P JNull) (HBool : forall b, P (JBool b))
    (HNum : forall n, P (JNum n)) (HStr : forall s, P (JStr s))
    (HArr : forall l, Forall P l -> P (JArr l))
    (HObj : forall m, Forall (fun kv => P (snd kv)) m -> P (JObj m))
    (v : json) {struct v} : P v :=
  let rec := json_ind P HNull HBool HNum HStr HArr HObj in
  match v with
  | JNull => HNull
  | JBool b => HBool b
  | JNum n => HNum n
  | JStr s => HStr s
  | JArr l =>
      HArr l ((fix all (l : list json) : Forall P l :=
                 match l with
                 | [] => Forall_nil P
                 | x :: l' => Forall_cons x (rec x) (all l')
                 end) l)
  | JObj m =>
      HObj m ((fix all (m : list (jsstring * json))
                 : Forall (fun kv => P (snd kv)) m :=
                 match m with
                 | [] => Forall_nil _
                 | kv :: m' => Forall_cons kv (rec (snd kv)) (all m')
                 end) m)
  end.

(** A plain object: its own properties in insertion order, keys distinct. *)
Definition object := list (jsstring * json).

(** [o[k]]; [None] is [undefined]. *)
Fixpoint get (o : object) (k : jsstring) : option json :=
  match o with
  | [] => None
  | (k', v) :: o' => if str_eqb k k' then Some v else get o' k
  end.

(** An array index: the canonical decimal text of an integer from 0 to
    2^32 - 2.  An object lists its keys of this form first, in ascending
    order, and its other keys after them, in the order they were added. *)
Definition index_of (k : jsstring) : N :=
  fold_left (fun a d => (a * 10 + (d - 48))%N) k 0%N.

Definition array_index (k : jsstring) : bool :=
  match k with
  | [] => false
  | c :: k' =>
      forallb is_digit k
      && (negb (N.eqb c 48) || match k' with [] => true | _ => false end)
      && Nat.leb (List.length k) 10
      && N.ltb (index_of k) 4294967295
  end.

(** [o[k] = v] for a key that is no array index: an existing property
    keeps its place, a new one comes last. *)
Fixpoint set_named (o : object) (k : jsstring) (v : json) : object :=
  match o with
  | [] => [(k, v)]
  | (k', v') :: o' =>
      if str_eqb k k' then (k', v) :: o' else (k', v') :: set_named o' k v
  end.

(** [o[k] = v] for an array index: a new one comes after the smaller
    indices. *)
Fixpoint set_index (o : object) (k : jsstring) (v : json) : object :=
  match o with
  | [] => [(k, v)]
  | (k', v') :: o' =>
      if str_eqb k k' then (k', v) :: o'
      else if array_index k' && N.ltb (index_of k') (index_of k)
      then (k', v') :: set_index o' k v
      else (k, v) :: o
  end.

(** [o[k] = v] on a plain object. *)
Definition set (o : object) (k : jsstring) (v : json) : object :=
  if array_index k then set_index o k v else set_named o k v.

(** ToBoolean: [undefined], [null], [false], [0] and [""] are falsy. *)
Definition truthy (v : option json) : bool :=
  match v with
  | None => false
  | Some JNull => false
  | Some (JBool b) => b
  | Some (JNum n) => negb (Z.eqb n 0)
  | Some (JStr s) => negb (str_eqb s [])
  | Some (JArr _) => true
  | Some (JObj _) => true
  end.

(** [a || d] where [d] is a defined value. *)
Definition or_else (v : option json) (d : json) : json :=
  match v with
  | Some x => if truthy v then x else d
  | None => d
  end.

(** [a ?? d]: only [undefined] and [null] give way to [d]. *)
Definition nullish_or (v : option json) (d : json) : json :=
  match v with
  | None => d
  | Some JNull => d
  | Some x => x
  end.

Definition digit_code (d : DecimalFacts.digits) : N :=
  match d with
  | DecimalFacts.d0 => 48 | DecimalFacts.d1 => 49 | DecimalFacts.d2 => 50
  | DecimalFacts.d3 => 51 | DecimalFacts.d4 => 52 | DecimalFacts.d5 => 53
  | DecimalFacts.d6 => 54 | DecimalFacts.d7 => 55 | DecimalFacts.d8 => 56
  | DecimalFacts.d9 => 57
  end%N.

Definition digits_of_N (n : N) : jsstring :=
  map digit_code (DecimalFacts.to_list (N.to_uint n)).

(** A JavaScript number is a double.  The model follows the integers from
    -2^53 to 2^53, each of which is a double and stands for itself
    ([exact]), and the two infinities, for which [Infinity] and its
    opposite stand.  Any other integer stands for no number the model
    follows; [beyond] is the one the parser gives where it reads a number
    it does not follow. *)
Definition exact (n : Z) : bool := Z.leb (Z.abs n) (2 ^ 53).

(** [Number.isSafeInteger] on an integer: adding one to it is exact. *)
Definition safe (n : Z) : bool := Z.ltb (Z.abs n) (2 ^ 53).

Definition Infinity : Z := (2 ^ 1024)%Z.

Definition beyond : Z := (2 ^ 53 + 1)%Z.

(** The double nearest to an integer, ties going to the even significand
    of 53 bits: what the addition of two doubles returns when their sum is
    this integer. *)
Definition nearest_double (z : Z) : Z :=
  let a := Z.abs z in
  let e := (Z.log2 a - 52)%Z in
  if Z.leb e 0 then z
  else
    let q := Z.shiftr a e in
    let r := (a - Z.shiftl q e)%Z in
    let half := Z.shiftl 1 (e - 1) in
    let q' := if Z.ltb half r || (Z.eqb half r && Z.odd q)
              then (q + 1)%Z else q in
    (Z.sgn z * Z.shiftl q' e)%Z.

(** Number::toString for an exact number: its decimal digits. *)
Definition Number_toString (z : Z) : jsstring :=
  match z with
  | Z0 => digits_of_N 0
  | Zpos p => digits_of_N (Npos p)
  | Zneg p => 45%N :: digits_of_N (Npos p)
  end.

(** The strings of a list, unless computing one of them threw. *)
Fixpoint all_strings (l : list (option jsstring)) : option (list jsstring) :=
  match l with
  | [] => Some []
  | Some x :: l' =>
      match all_strings l' with
      | Some xs => Some (x :: xs)
      | None => None
      end
  | None :: _ => None
  end.

(** [String(v)] for a defined value; [None] when it throws a TypeError.
    An array joins its elements with a comma, [null] elements contributing
    the empty string.  An object parsed from JSON answers with
    [Object.prototype.toString] unless it has a property of its own named
    [toString]: that one is no function, [valueOf] gives no primitive
    either, and the conversion throws. *)
Fixpoint ToString (v : json) : option jsstring :=
  match v with
  | JNull => Some (lit "null")
  | JBool true => Some (lit "true")
  | JBool false => Some (lit "false")
  | JNum n =>
      Some (if Z.eqb n Infinity then lit "Infinity"
            else if Z.eqb n (- Infinity) then lit "-Infinity"
            else Number_toString n)
  | JStr s => Some s
  | JArr l =>
      match
        all_strings
          (map (fun x => match x with JNull => Some [] | _ => ToString x end)
               l)
      with
      | Some texts => Some (join (lit ",") texts)
      | None => None
      end
  | JObj m =>
      match get m (lit "toString") with
      | Some _ => None
      | None => Some (lit "[object Object]")
      end
  end.

End JS.

Import JS.

(** ** JSON text: [JSON.stringify(v, null, 2)] and [JSON.parse]

    A number that is not finite is written as [null]. *)

Module JSON.

Local Open Scope N_scope.

Definition hex_digit (n : N) : N := if n <? 10 then 48 + n else 87 + n.

(** [\uXXXX] with lowercase hexadecimal digits. *)
Definition unicode_escape (c : N) : jsstring :=
  [92; 117; hex_digit (c / 4096); hex_digit ((c / 256) mod 16);
   hex_digit ((c / 16) mod 16); hex_digit (c mod 16)].

Definition is_high_surrogate (c : N) : bool := (55296 <=? c) && (c <=? 56319).
Definition is_low_surrogate (c : N) : bool := (56320 <=? c) && (c <=? 57343).

Definition escape_unit (c : N) : jsstring :=
  if c =? 8 then [92; 98]
  else if c =? 9 then [92; 116]
  else if c =? 10 then [92; 110]
  else if c =? 12 then [92; 102]
  else if c =? 13 then [92; 114]
  else if c =? 34 then [92; 34]
  else if c =? 92 then [92; 92]
  else if c <? 32 then unicode_escape c
  else [c].

(** QuoteJSONString walks the code points: a surrogate pair is copied, a
    lone surrogate is escaped. *)
Fixpoint quote_units (s : jsstring) : jsstring :=
  match s with
  | [] => []
  | c :: s1 =>
      if is_high_surrogate c then
        match s1 with
        | d :: s2 =>
            if is_low_surrogate d then c :: d :: quote_units s2
            else unicode_escape c ++ quote_units s1
        | [] => unicode_escape c
        end
      else if is_low_surrogate c then unicode_escape c ++ quote_units s1
      else escape_unit c ++ quote_units s1
  end.

Definition QuoteJSONString (s : jsstring) : jsstring :=
  34 :: quote_units s ++ [34].

Definition spaces (n : nat) : jsstring := repeat 32 n.

(** The third argument of [JSON.stringify(employees, null, 2)]. *)
Definition gap : nat := 2%nat.

Fixpoint SerializeJSONProperty (indent : nat) (v : json) : jsstring :=
  match v with
  | JNull => lit "null"
  | JBool true => lit "true"
  | JBool false => lit "false"
  | JNum n =>
      if Z.eqb (Z.abs n) Infinity then lit "null" else Number_toString n
  | JStr s => QuoteJSONString s
  | JArr l =>
      match l with
      | [] => lit "[]"
      | _ =>
          let stepback := indent in
          let indent := (indent + gap)%nat in
          let separator := 44 :: 10 :: spaces indent in
          91 :: 10 :: spaces indent
          ++ join separator (map (SerializeJSONProperty indent) l)
          ++ 10 :: spaces stepback ++ [93]
      end
  | JObj m =>
      match m with
      | [] => lit "{}"
      | _ =>
          let stepback := indent in
          let indent := (indent + gap)%nat in
          let separator := 44 :: 10 :: spaces indent in
          123 :: 10 :: spaces indent
          ++ join separator
               (map (fun kv => QuoteJSONString (fst kv) ++ 58 :: 32
                               :: SerializeJSONProperty indent (snd kv)) m)
          ++ 10 :: spaces stepback ++ [125]
      end
  end.

Definition stringify (v : json) : jsstring := SerializeJSONProperty 0 v.

(** JSON whitespace: tab, line feed, carriage return, space. *)
Definition is_json_ws (c : N) : bool :=
  (c =? 9) || (c =? 10) || (c =? 13) || (c =? 32).

Fixpoint skip_ws (s : jsstring) : jsstring :=
  match s with
  | [] => []
  | c :: s' => if is_json_ws c then skip_ws s' else s
  end.

Definition unhex (c : N) : option N :=
  if (48 <=? c) && (c <=? 57) then Some (c - 48)
  else if (97 <=? c) && (c <=? 102) then Some (c - 87)
  else if (65 <=? c) && (c <=? 70) then Some (c - 55)
  else None.

Definition unhex4 (a b c d : N) : option N :=
  match unhex a, unhex b, unhex c, unhex d with
  | Some x, Some y, Some z, Some w => Some (x * 4096 + y * 256 + z * 16 + w)
  | _, _, _, _ => None
  end.

Definition unescape (e : N) : option N :=
  if e =? 34 then Some 34
  else if e =? 92 then Some 92
  else if e =? 47 then Some 47
  else if e =? 98 then Some 8
  else if e =? 102 then Some 12
  else if e =? 110 then Some 10
  else if e =? 114 then Some 13
  else if e =? 116 then Some 9
  else None.

Definition cons_unit (c : N) (r : option (jsstring * jsstring))
  : option (jsstring * jsstring) :=
  match r with
  | Some (s, rest) => Some (c :: s, rest)
  | None => None
  end.

(** The characters of a string literal, after its opening quote, up to and
    including the closing quote. *)
Fixpoint parse_units (s : jsstring) : option (jsstring * jsstring) :=
  match s with
  | [] => None
  | c :: s1 =>
      if c =? 34 then Some ([], s1)
      else if c =? 92 then
        match s1 with
        | [] => None
        | e :: s2 =>
            if e =? 117 then
              match s2 with
              | h1 :: h2 :: h3 :: h4 :: s3 =>
                  match unhex4 h1 h2 h3 h4 with
                  | Some u => cons_unit u (parse_units s3)
                  | None => None
                  end
              | _ => None
              end
            else
              match unescape e with
              | Some u => cons_unit u (parse_units s2)
              | None => None
              end
        end
      else if c <? 32 then None
      else cons_unit c (parse_units s1)
  end.

Definition code_digit (c : N) : option DecimalFacts.digits :=
  if c =? 48 then Some DecimalFacts.d0
  else if c =? 49 then Some DecimalFacts.d1
  else if c =? 50 then Some DecimalFacts.d2
  else if c =? 51 then Some DecimalFacts.d3
  else if c =? 52 then Some DecimalFacts.d4
  else if c =? 53 then Some DecimalFacts.d5
  else if c =? 54 then Some DecimalFacts.d6
  else if c =? 55 then Some DecimalFacts.d7
  else if c =? 56 then Some DecimalFacts.d8
  else if c =? 57 then Some DecimalFacts.d9
  else None.

Fixpoint take_digits (s : jsstring) : list DecimalFacts.digits * jsstring :=
  match s with
  | [] => ([], [])
  | c :: s' =>
      match code_digit c with
      | Some d => let (ds, rest) := take_digits s' in (d :: ds, rest)
      | None => ([], s)
      end
  end.

(** The integer part of a number: [0], or a non-zero digit and more digits. *)
Definition parse_int (s : jsstring) : option (N * jsstring) :=
  match s with
  | [] => None
  | c :: s' =>
      if c =? 48 then Some (0, s')
      else if is_digit c then
        let (ds, rest) := take_digits s in
        Some (N.of_uint (DecimalFacts.of_list ds), rest)
      else None
  end.

(** The fraction of a number: nothing, or a point and at least one digit.
    The result is its digits; [None] is a syntax error. *)
Definition parse_fraction (s : jsstring)
  : option (list DecimalFacts.digits * jsstring) :=
  match s with
  | [] => Some ([], [])
  | c :: s' =>
      if c =? 46 then
        match take_digits s' with
        | ([], _) => None
        | (d :: ds, rest) => Some (d :: ds, rest)
        end
      else Some ([], s)
  end.

(** The exponent of a number: nothing, or [e] or [E], a sign or none, and
    at least one digit. *)
Definition parse_exponent (s : jsstring) : option (option Z * jsstring) :=
  match s with
  | [] => Some (None, [])
  | c :: s' =>
      if (c =? 101) || (c =? 69) then
        let (negative, digits) :=
          match s' with
          | d :: t =>
              if d =? 45 then (true, t)
              else if d =? 43 then (false, t)
              else (false, s')
          | [] => (false, s')
          end in
        match take_digits digits with
        | ([], _) => None
        | (d :: ds, rest) =>
            let e := Z.of_N (N.of_uint (DecimalFacts.of_list (d :: ds))) in
            Some (Some (if negative then Z.opp e else e), rest)
        end
      else Some (None, s)
  end.

(** Halfway between the largest double and 2^1024: a literal of this
    magnitude or more is read as an infinity. *)
Definition overflow : Z := (2 ^ 1024 - 2 ^ 970)%Z.

(** The number a literal is read as: the integer it denotes when that is
    one from -2^53 to 2^53, an infinity when it is too large for a double,
    and [beyond] for the others (the numbers with a fraction, those that
    are rounded), which the model does not follow.  The literal denotes
    [num / den]. *)
Definition literal_value (negative : bool) (n : N)
           (fraction : list DecimalFacts.digits) (exponent : option Z) : Z :=
  let k := Z.of_nat (List.length fraction) in
  let m := (Z.of_N n * 10 ^ k
            + Z.of_N (N.of_uint (DecimalFacts.of_list fraction)))%Z in
  let e := (match exponent with Some x => x | None => 0 end - k)%Z in
  let num := (m * 10 ^ Z.max 0 e)%Z in
  let den := (10 ^ Z.max 0 (- e))%Z in
  let sign := fun z : Z => if negative then Z.opp z else z in
  if Z.eqb (num mod den) 0 && exact (num / den) then sign (num / den)%Z
  else if Z.leb (overflow * den) num then sign Infinity
  else beyond.

(** A number literal. *)
Definition parse_number (s : jsstring) : option (Z * jsstring) :=
  match s with
  | [] => None
  | c :: s' =>
      let negative := c =? 45 in
      match parse_int (if negative then s' else s) with
      | Some (n, s1) =>
          match parse_fraction s1 with
          | Some (fraction, s2) =>
              match parse_exponent s2 with
              | Some (exponent, rest) =>
                  Some (literal_value negative n fraction exponent, rest)
              | None => None
              end
          | None => None
          end
      | None => None
      end
  end.

Fixpoint strip_prefix (p s : jsstring) : option jsstring :=
  match p, s with
  | [], _ => Some s
  | x :: p', y :: s' => if x =? y then strip_prefix p' s' else None
  | _ :: _, [] => None
  end.

Definition parse_literal (p : string) (v : json) (s : jsstring)
  : option (json * jsstring) :=
  match strip_prefix (lit p) s with
  | Some rest => Some (v, rest)
  | None => None
  end.

(** Recursive descent over the JSON grammar; [fuel] bounds the number of
    values, elements and members visited. *)
Fixpoint parse_value (fuel : nat) (s : jsstring) {struct fuel}
  : option (json * jsstring) :=
  match fuel with
  | O => None
  | S fuel =>
      match skip_ws s with
      | [] => None
      | c :: s1 =>
          if c =? 91 then
            match skip_ws s1 with
            | d :: s2 =>
                if d =? 93 then Some (JArr [], s2)
                else parse_elements fuel s1 []
            | [] => None
            end
          else if c =? 123 then
            match skip_ws s1 with
            | d :: s2 =>
                if d =? 125 then Some (JObj [], s2)
                else parse_members fuel s1 []
            | [] => None
            end
          else if c =? 34 then
            match parse_units s1 with
            | Some (str, rest) => Some (JStr str, rest)
            | None => None
            end
          else if c =? 110 then parse_literal "null" JNull (c :: s1)
          else if c =? 116 then parse_literal "true" (JBool true) (c :: s1)
          else if c =? 102 then parse_literal "false" (JBool false) (c :: s1)
          else
            match parse_number (c :: s1) with
            | Some (n, rest) => Some (JNum n, rest)
            | None => None
            end
      end
  end

with parse_elements (fuel : nat) (s : jsstring) (acc : list json)
  {struct fuel} : option (json * jsstring) :=
  match fuel with
  | O => None
  | S fuel =>
      match parse_value fuel s with
      | Some (v, s1) =>
          match skip_ws s1 with
          | c :: s2 =>
              if c =? 44 then parse_elements fuel s2 (acc ++ [v])
              else if c =? 93 then Some (JArr (acc ++ [v]), s2)
              else None
          | [] => None
          end
      | None => None
      end
  end

with parse_members (fuel : nat) (s : jsstring) (acc : object)
  {struct fuel} : option (json * jsstring) :=
  match fuel with
  | O => None
  | S fuel =>
      match skip_ws s with
      | q :: s1 =>
          if q =? 34 then
            match parse_units s1 with
            | Some (k, s2) =>
                match skip_ws s2 with
                | c :: s3 =>
                    if c =? 58 then
                      match parse_value fuel s3 with
                      | Some (v, s4) =>
                          match skip_ws s4 with
                          | e :: s5 =>
                              if e =? 44
                              then parse_members fuel s5 (set acc k v)
                              else if e =? 125
                              then Some (JObj (set acc k v), s5)
                              else None
                          | [] => None
                          end
                      | None => None
                      end
                    else None
                | [] => None
                end
            | None => None
            end
          else None
      | [] => None
      end
  end.

(** The number of values, elements and members of a value: the fuel its
    text needs. *)
Fixpoint size (v : json) : nat :=
  match v with
  | JArr l => S (list_sum (map (fun x => S (size x)) l))
  | JObj m => S (list_sum (map (fun kv => S (size (snd kv))) m))
  | _ => 1%nat
  end.

(** What the serializer puts after a value: nothing, a comma or a line
    feed. *)
Definition follows (rest : jsstring) : bool :=
  match rest with
  | [] => true
  | c :: _ => (c =? 44) || (c =? 10)
  end.

(** The text of a value, whatever its indentation and whatever follows
    it, is read back as the value. *)
Definition reads_back (v : json) : Prop :=
  forall (d : nat) (rest : jsstring) (fuel : nat),
    follows rest = true -> (size v <= fuel)%nat ->
    parse_value fuel (SerializeJSONProperty d v ++ rest) = Some (v, rest).

(** [JSON.parse(text)]; [None] is a thrown SyntaxError.  The length of the
    text is fuel enough for whatever the text holds. *)
Definition parse (text : jsstring) : option json :=
  match parse_value (S (List.length text)) text with
  | Some (v, rest) =>
      match skip_ws rest with
      | [] => Some v
      | _ :: _ => None
      end
  | None => None
  end.

End JSON.

(** ** The employee record and the persisted document *)

(** A JavaScript value as a property read returns it: [None] is [undefined]. *)
Definition value := option json.

(** The Employee object: the nine properties of the data model.  The id is a
    number; the other properties hold whatever the request put there. *)
Record employee : Type := Employee {
  id : Z;
  name : value;
  email : value;
  phone : value;
  role : value;
  department : value;
  salary : value;
  date_of_joining : value;
  status : value
}.

Definition str (s : string) : value := Some (JStr (lit s)).

(** One property of an object literal; [JSON.stringify] leaves out a
    property whose value is [undefined]. *)
Definition property (k : string) (v : value) : object :=
  match v with
  | Some x => [(lit k, x)]
  | None => []
  end.

(** The record as the JSON object it is serialized to, the properties in
    the order of the object literals of the handlers. *)
Definition to_json (e : employee) : json :=
  JObj (property "id" (Some (JNum (id e)))
        ++ property "name" (name e)
        ++ property "email" (email e)
        ++ property "phone" (phone e)
        ++ property "role" (role e)
        ++ property "department" (department e)
        ++ property "salary" (salary e)
        ++ property "date_of_joining" (date_of_joining e)
        ++ property "status" (status e)).

(** The in-memory collection as the array handed to [JSON.stringify]. *)
Definition encode (employees : list employee) : json :=
  JArr (map to_json employees).

(** Reading a parsed object as an Employee: [e.id], [e.name], ... *)
Definition of_json (v : json) : option employee :=
  match v with
  | JObj o =>
      match get o (lit "id") with
      | Some (JNum n) =>
          Some (Employee n (get o (lit "name")) (get o (lit "email"))
                  (get o (lit "phone")) (get o (lit "role"))
                  (get o (lit "department")) (get o (lit "salary"))
                  (get o (lit "date_of_joining")) (get o (lit "status")))
      | _ => None
      end
  | _ => None
  end.

Fixpoint decode_all (l : list json) : option (list employee) :=
  match l with
  | [] => Some []
  | v :: l' =>
      match of_json v, decode_all l' with
      | Some e, Some es => Some (e :: es)
      | _, _ => None
      end
  end.

(** The loaded document read as a collection of Employee records; [None]
    when it is not an array of objects with a numeric id. *)
Definition decode (v : json) : option (list employee) :=
  match v with
  | JArr l => decode_all l
  | _ => None
  end.

(** The state of [employees.json]. *)
Inductive file : Type :=
| Missing                       (* [fs.existsSync] is false *)
| Unreadable                    (* it exists, [fs.readFileSync] throws *)
| Content (raw : jsstring).

(** The text a file holds after [fs.writeFileSync(path, text)]: the text is
    encoded as UTF-8, which has no code for a lone surrogate, so each one
    is stored as U+FFFD; [fs.readFileSync(path, "utf-8")] gives the stored
    text back. *)
Fixpoint toWellFormed (s : jsstring) : jsstring :=
  match s with
  | [] => []
  | c :: s1 =>
      if JSON.is_high_surrogate c then
        match s1 with
        | d :: s2 =>
            if JSON.is_low_surrogate d then c :: d :: toWellFormed s2
            else 65533%N :: toWellFormed s1
        | [] => [65533%N]
        end
      else if JSON.is_low_surrogate c then 65533%N :: toWellFormed s1
      else c :: toWellFormed s1
  end.

(** Neither half of a surrogate pair. *)
Definition plain (c : N) : bool :=
  negb (JSON.is_high_surrogate c) && negb (JSON.is_low_surrogate c).

(** A piece of text that is stored as it is, whatever comes after it. *)
Definition stored_verbatim (x : jsstring) : Prop :=
  forall t, toWellFormed (x ++ t) = x ++ toWellFormed t.

(** The values the model follows through the text: code units are 16-bit,
    the keys of an object are distinct and none is an array index, numbers
    are exact. *)
Fixpoint nodup_keys (ks : list jsstring) : bool :=
  match ks with
  | [] => true
  | k :: ks' => negb (existsb (str_eqb k) ks') && nodup_keys ks'
  end.

Definition is_code_unit (c : N) : bool := N.ltb c 65536.

(** A key that an object lists where the list of its properties has it. *)
Definition key (k : jsstring) : bool :=
  forallb is_code_unit k && negb (array_index k).

Fixpoint well_formed (v : json) : bool :=
  match v with
  | JNull | JBool _ => true
  | JNum n => exact n
  | JStr s => forallb is_code_unit s
  | JArr l => forallb well_formed l
  | JObj m =>
      nodup_keys (map fst m)
      && forallb (fun kv => key (fst kv) && well_formed (snd kv)) m
  end.

Definition well_formed_value (v : value) : bool :=
  match v with
  | Some x => well_formed x
  | None => true
  end.

Definition well_formed_employee (e : employee) : bool :=
  exact (id e)
  && well_formed_value (name e) && well_formed_value (email e)
  && well_formed_value (phone e) && well_formed_value (role e)
  && well_formed_value (department e) && well_formed_value (salary e)
  && well_formed_value (date_of_joining e) && well_formed_value (status e).

(** A record all of whose properties are there. *)
Definition complete (e : employee) : bool :=
  match name e, email e, phone e, role e, department e, salary e,
        date_of_joining e, status e with
  | Some _, Some _, Some _, Some _, Some _, Some _, Some _, Some _ => true
  | _, _, _, _, _, _, _, _ => false
  end.

(** A parsed object that has the nine properties of the data model, in
    the order of the object literals of the handlers, and no other: what
    the handlers write back for it is what [to_json] gives. *)
Definition record_of (v : json) : option employee :=
  match v with
  | JObj [(k0, JNum n); (k1, v1); (k2, v2); (k3, v3); (k4, v4); (k5, v5);
          (k6, v6); (k7, v7); (k8, v8)] =>
      if str_eqb k0 (lit "id") && str_eqb k1 (lit "name")
         && str_eqb k2 (lit "email") && str_eqb k3 (lit "phone")
         && str_eqb k4 (lit "role") && str_eqb k5 (lit "department")
         && str_eqb k6 (lit "salary") && str_eqb k7 (lit "date_of_joining")
         && str_eqb k8 (lit "status")
      then Some (Employee n (Some v1) (Some v2) (Some v3) (Some v4)
                   (Some v5) (Some v6) (Some v7) (Some v8))
      else None
  | _ => None
  end.

Fixpoint records_of (l : list json) : option (list employee) :=
  match l with
  | [] => Some []
  | v :: l' =>
      match record_of v, records_of l' with
      | Some e, Some es => Some (e :: es)
      | _, _ => None
      end
  end.

(** The loaded document as the collection the handlers are followed on:
    an array of such objects, all of it well formed.  [None] for any other
    document: an object with a further property, or with its properties in
    another order, is written back as it was loaded, which the records do
    not tell. *)
Definition collection (v : json) : option (list employee) :=
  match v with
  | JArr l => if well_formed v then records_of l else None
  | _ => None
  end.

(** The reply of a handler and the collection it passed to
    [saveEmployees], if it called it. *)
Inductive payload : Type :=
| Record_body (e : employee)
| Error_body (error : jsstring)
| Empty_body
| Error_page.      (* the page of Express's error handler: the handler threw,
                      or the body parser refused the request *)

Record response : Type := Response { code : Z; body : payload }.

Record outcome : Type := Outcome {
  sent : response;
  saved : option (list employee)
}.

(** Every id is a safe integer. *)
Definition safe_ids (employees : list employee) : bool :=
  forallb (fun e => safe (id e)) employees.

(** [(e) => e.id !== id], the test both delete paths filter with. *)
Definition other_id (id_ : Z) (e : employee) : bool := negb (Z.eqb (id e) id_).

(** The three invariants of the data model: ids are distinct, name and
    email are non-empty strings, the phone is ten digit characters. *)
Definition nonempty_string (v : value) : bool :=
  match v with
  | Some (JStr s) => negb (str_eqb s [])
  | _ => false
  end.

Definition ten_digits (v : value) : bool :=
  match v with
  | Some (JStr s) => Nat.eqb (List.length s) 10 && forallb is_digit s
  | _ => false
  end.

Definition valid_record (e : employee) : bool :=
  nonempty_string (name e) && nonempty_string (email e)
  && ten_digits (phone e).

Definition invariant (employees : list employee) : Prop :=
  NoDup (map id employees)
  /\ Forall (fun e => valid_record e = true) employees.

(** The properties an update merges with [??], with their readers. *)
Definition merged_fields : list (string * (employee -> value)) :=
  [("name", name); ("email", email); ("role", role);
   ("department", department); ("salary", salary);
   ("date_of_joining", date_of_joining); ("status", status)]%string.


(** ** server.js *)

Module Server.

Definition loadEmployees (f : file) : json :=
  match f with
  | Missing => JArr []
  | Unreadable => JArr []
  | Content raw =>
      if str_eqb (trim raw) [] then JArr []
      else match JSON.parse raw with
           | Some v => v
           | None => JArr []
           end
  end.

Definition saveEmployees (employees : json) : file :=
  Content (toWellFormed (JSON.stringify employees)).

(** [Math.max(x, ...xs)] *)
Definition Math_max (x : Z) (xs : list Z) : Z := fold_left Z.max xs x.

Definition getNextId (employees : list employee) : Z :=
  match map id employees with
  | [] => 1
  | x :: xs => nearest_double (Math_max x xs + 1)
  end%Z.

(** [String(v)]; [None] when it throws. *)
Definition String_ (v : value) : option jsstring :=
  match v with
  | Some x => ToString x
  | None => Some (lit "undefined")
  end.

Definition throws (v : value) : bool :=
  match String_ v with
  | Some _ => false
  | None => true
  end.

Definition required : list string := ["name"; "email"; "phone"]%string.

(** The loop does not get past a field with this value: the test
    [!v || String(v).trim() === ""] is true, or [String(v)] throws. *)
Definition blank (v : value) : bool :=
  negb (truthy v)
  || match String_ v with
     | Some text => str_eqb (trim text) []
     | None => true
     end.

(** The loop over [required]: the first field it does not get past. *)
Fixpoint first_missing (data : object) (fields : list string)
  : option string :=
  match fields with
  | [] => None
  | field :: rest =>
      if blank (get data (lit field)) then Some field
      else first_missing data rest
  end.

Definition is_required (field : string) : jsstring :=
  lit "'" ++ lit field ++ lit "' is required".

Definition phone_error : jsstring :=
  lit "Phone number must be exactly 10 digits".

Definition not_found : jsstring := lit "Employee not found".

(** Phone normalization, [x.trim().replace(/\D/g, "")]: what both
    handlers apply to the phone they are given. *)
Definition normalize (x : jsstring) : jsstring :=
  let rawPhone := trim x in
  replace_non_digits rawPhone.

(** [data.phone || ""] *)
Definition phone_given (data : object) : value :=
  Some (or_else (get data (lit "phone")) (JStr [])).

(** [String(data.phone || "").trim().replace(/\D/g, "")], where [String]
    returns; the handlers do not get here where it throws. *)
Definition phoneDigits (data : object) : jsstring :=
  match String_ (phone_given data) with
  | Some rawPhone => normalize rawPhone
  | None => []
  end.

(** POST /api/employees, from the point where [loadEmployees()] has
    returned [employees].  Where the handler throws, Express answers 500
    and nothing is saved. *)
Definition create (employees : list employee) (data : object) : outcome :=
  match first_missing data required with
  | Some field =>
      if throws (get data (lit field))
      then Outcome (Response 500 Error_page) None
      else Outcome (Response 400 (Error_body (is_required field))) None
  | None =>
      if negb (Nat.eqb (List.length (phoneDigits data)) 10)
      then Outcome (Response 400 (Error_body phone_error)) None
      else
        let newEmployee :=
          {| id := getNextId employees;
             name := get data (lit "name");
             email := get data (lit "email");
             phone := Some (JStr (phoneDigits data));
             role := Some (or_else (get data (lit "role")) (JStr []));
             department := Some (or_else (get data (lit "department")) (JStr []));
             salary := Some (or_else (get data (lit "salary")) (JNum 0));
             date_of_joining :=
               Some (or_else (get data (lit "date_of_joining")) (JStr []));
             status := Some (or_else (get data (lit "status")) (JStr (lit "Active")))
          |} in
        let employees := employees ++ [newEmployee] in
        Outcome (Response 201 (Record_body newEmployee)) (Some employees)
  end.

(** [employees.findIndex(p)]; [None] is [-1]. *)
Fixpoint findIndex (p : employee -> bool) (employees : list employee)
  : option nat :=
  match employees with
  | [] => None
  | e :: rest =>
      if p e then Some O
      else match findIndex p rest with
           | Some i => Some (S i)
           | None => None
           end
  end.

(** [employees[index] = e] for an index within the array. *)
Fixpoint assign (employees : list employee) (index : nat) (e : employee)
  : list employee :=
  match employees, index with
  | [], _ => []
  | _ :: rest, O => e :: rest
  | x :: rest, S i => x :: assign rest i e
  end.

(** [a ?? b] between two property reads. *)
Definition coalesce (a b : value) : value :=
  match a with
  | None => b
  | Some JNull => b
  | Some _ => a
  end.

(** The object literal assigned to [employees[index]]: the spread of [emp]
    keeps its id, the eight other properties are written over. *)
Definition merged (emp : employee) (data : object) (updatedPhone : value)
  : employee :=
  {| id := id emp;
     name := coalesce (get data (lit "name")) (name emp);
     email := coalesce (get data (lit "email")) (email emp);
     phone := updatedPhone;
     role := coalesce (get data (lit "role")) (role emp);
     department := coalesce (get data (lit "department")) (department emp);
     salary := coalesce (get data (lit "salary")) (salary emp);
     date_of_joining :=
       coalesce (get data (lit "date_of_joining")) (date_of_joining emp);
     status := coalesce (get data (lit "status")) (status emp) |}.

(** PUT /api/employees/:id.  Reading a property of [employees[index]] when
    that is [undefined] would throw, which Express answers with 500. *)
Definition update (employees : list employee) (id_ : Z) (data : object)
  : outcome :=
  match findIndex (fun e => Z.eqb (id e) id_) employees with
  | None => Outcome (Response 404 (Error_body not_found)) None
  | Some index =>
      match nth_error employees index with
      | None => Outcome (Response 500 Empty_body) None
      | Some emp =>
          let finish updatedPhone :=
            let employees :=
              assign employees index (merged emp data updatedPhone) in
            Outcome (Response 200 (Record_body (merged emp data updatedPhone)))
              (Some employees) in
          match get data (lit "phone") with
          | None => finish (phone emp)
          | Some _ =>
              if throws (phone_given data)
              then Outcome (Response 500 Error_page) None
              else if negb (Nat.eqb (List.length (phoneDigits data)) 10)
              then Outcome (Response 400 (Error_body phone_error)) None
              else finish (Some (JStr (phoneDigits data)))
          end
      end
  end.

(** DELETE /api/employees/:id *)
Definition delete (employees : list employee) (id_ : Z) : outcome :=
  let filtered := filter (other_id id_) employees in
  if Nat.eqb (List.length filtered) (List.length employees)
  then Outcome (Response 404 (Error_body not_found)) None
  else Outcome (Response 204 Empty_body) (Some filtered).

(** A request against the backing document: the handler runs on what
    [loadEmployees()] returns and the document changes only through
    [saveEmployees].  [None] when the document is not a [collection]. *)
Definition serve (handler : list employee -> outcome) (f : file)
  : option (response * file) :=
  match collection (loadEmployees f) with
  | Some employees =>
      let o := handler employees in
      Some (sent o,
            match saved o with
            | Some employees' => saveEmployees (encode employees')
            | None => f
            end)
  | None => None
  end.

End Server.

(** ** mcp-server.mjs *)

Module Mcp.

(** The helper functions are repeated in this file with the same text. *)
Definition loadEmployees (f : file) : json :=
  match f with
  | Missing => JArr []
  | Unreadable => JArr []
  | Content raw =>
      if str_eqb (trim raw) [] then JArr []
      else match JSON.parse raw with
           | Some v => v
           | None => JArr []
           end
  end.

Definition saveEmployees (employees : json) : file :=
  Content (toWellFormed (JSON.stringify employees)).

Definition getNextId (employees : list employee) : Z :=
  match map id employees with
  | [] => 1
  | x :: xs => nearest_double (fold_left Z.max xs x + 1)
  end%Z.

(** What a tool call gives back: the schema refused the arguments (the
    handler did not run), or the text block the handler returned. *)
Inductive tool_result : Type :=
| Invalid_arguments
| Text (text : jsstring).

Record reply : Type := Reply {
  result : tool_result;
  written : option (list employee)
}.

(** [/^\d{n}$/.test(s)] *)
Fixpoint digits_exactly (n : nat) (s : jsstring) : bool :=
  match n, s with
  | O, [] => true
  | S n', c :: s' => is_digit c && digits_exactly n' s'
  | _, _ => false
  end.

(** [z.string().min(1)] *)
Definition name_schema (v : value) : bool :=
  match v with
  | Some (JStr s) => Nat.leb 1 (List.length s)
  | _ => false
  end.

(** [z.string().regex(/^\d{10}$/, ...)] *)
Definition phone_schema (v : value) : bool :=
  match v with
  | Some (JStr s) => digits_exactly 10 s
  | _ => false
  end.

(** [z.string().optional()] *)
Definition optional_string (v : value) : bool :=
  match v with
  | None => true
  | Some (JStr _) => true
  | Some _ => false
  end.

(** [z.number().optional()] *)
Definition optional_number (v : value) : bool :=
  match v with
  | None => true
  | Some (JNum _) => true
  | Some _ => false
  end.

Section Tools.

(** The shape test of [z.string().email()], which belongs to the zod
    library, and the test [int()] adds to [z.number()]: every release of
    the library accepts the safe integers, and the releases differ on the
    numbers above them. *)
Variable zod_email : jsstring -> bool.
Variable zod_int : Z -> bool.

(** [z.number().int().positive()] *)
Definition id_schema (v : value) : bool :=
  match v with
  | Some (JNum n) => zod_int n && Z.ltb 0 n
  | _ => false
  end.

Definition email_schema (v : value) : bool :=
  match v with
  | Some (JStr s) => zod_email s
  | _ => false
  end.

(** The [inputSchema] of create_employee. *)
Definition create_schema (args : object) : bool :=
  name_schema (get args (lit "name"))
  && email_schema (get args (lit "email"))
  && phone_schema (get args (lit "phone"))
  && optional_string (get args (lit "role"))
  && optional_string (get args (lit "department"))
  && optional_number (get args (lit "salary"))
  && optional_string (get args (lit "date_of_joining"))
  && optional_string (get args (lit "status")).

(** The handler of create_employee, on arguments the schema accepted. *)
Definition create_handler (employees : list employee) (args : object)
  : reply :=
  let newEmployee :=
    {| id := getNextId employees;
       name := get args (lit "name");
       email := get args (lit "email");
       phone := get args (lit "phone");
       role := Some (or_else (get args (lit "role")) (JStr []));
       department := Some (or_else (get args (lit "department")) (JStr []));
       salary := Some (nullish_or (get args (lit "salary")) (JNum 0));
       date_of_joining :=
         Some (or_else (get args (lit "date_of_joining")) (JStr []));
       status := Some (or_else (get args (lit "status")) (JStr (lit "Active")))
    |} in
  let employees := employees ++ [newEmployee] in
  Reply (Text (lit "Employee created:" ++ [10%N]
               ++ JSON.stringify (to_json newEmployee)))
        (Some employees).

Definition create_employee (employees : list employee) (args : object)
  : reply :=
  if create_schema args then create_handler employees args
  else Reply Invalid_arguments None.

(** The handler of delete_employee. *)
Definition delete_handler (employees : list employee) (id_ : Z) : reply :=
  let beforeCount := List.length employees in
  let filtered := filter (other_id id_) employees in
  if Nat.eqb (List.length filtered) beforeCount
  then Reply (Text (lit "No employee found with id "
                    ++ Number_toString id_ ++ lit ".")) None
  else Reply (Text (lit "Employee with id " ++ Number_toString id_
                    ++ lit " deleted successfully.")) (Some filtered).

Definition delete_employee (employees : list employee) (args : object)
  : reply :=
  match get args (lit "id") with
  | Some (JNum n) =>
      if id_schema (Some (JNum n)) then delete_handler employees n
      else Reply Invalid_arguments None
  | _ => Reply Invalid_arguments None
  end.

End Tools.


End Mcp.

(** ** server.js: the reading routes *)

Module Routes.

(** [employees.find(p)]; [None] is [undefined]. *)
Fixpoint find (p : employee -> bool) (employees : list employee)
  : option employee :=
  match employees with
  | [] => None
  | e :: rest => if p e then Some e else find p rest
  end.

(** GET /api/employees/:id.  A record is an object, so [!emp] holds only
    when nothing was found. *)
Definition get_employee (employees : list employee) (id_ : Z) : response :=
  match find (fun e => Z.eqb (id e) id_) employees with
  | None => Response 404 (Error_body Server.not_found)
  | Some emp => Response 200 (Record_body emp)
  end.

(** GET /api/employees: [res.json(employees)], with the default status. *)
Definition get_employees (employees : list employee) : Z * list employee :=
  (200%Z, employees).

(** A reading request against the backing document; [None] when the
    document is not a [collection]. *)
Definition answer {A : Type} (handler : list employee -> A) (f : file)
  : option A :=
  match collection (Server.loadEmployees f) with
  | Some employees => Some (handler employees)
  | None => None
  end.

End Routes.

(** ** mcp-server.mjs: the list_employees tool *)

Module Listing.

Definition nothing : jsstring := lit "No employees found.".

(** The handler of list_employees on what [loadEmployees()] returned,
    whatever JSON value that is: [employees.length] is the length of an
    array or of a string, the [length] property of an object, [undefined]
    on a number or a boolean, and reading it from [null] throws ([None]). *)
Definition list_employees (employees : json) : option jsstring :=
  let text := JSON.stringify employees in
  match employees with
  | JNull => None
  | JArr l => Some (if Nat.eqb (List.length l) 0 then nothing else text)
  | JStr s => Some (if Nat.eqb (List.length s) 0 then nothing else text)
  | JObj o =>
      match get o (lit "length") with
      | Some (JNum 0) => Some nothing
      | _ => Some text
      end
  | JBool _ | JNum _ => Some text
  end.

(** The tool called against the backing document. *)
Definition list_tool (f : file) : option jsstring :=
  list_employees (Mcp.loadEmployees f).

End Listing.

(** ** public/script.js *)

Module Client.

(** [s.startsWith(p)] and [s.includes(text)] *)
Fixpoint startsWith (s p : jsstring) : bool :=
  match p, s with
  | [], _ => true
  | x :: p', y :: s' => N.eqb x y && startsWith s' p'
  | _ :: _, [] => false
  end.

Fixpoint includes (s text : jsstring) : bool :=
  startsWith s text
  || match s with
     | [] => false
     | _ :: s' => includes s' text
     end.

(** The values of the search box and of the three selects. *)
Record filters : Type := Filters {
  searchInput : jsstring;
  filterDepartment : jsstring;
  filterRole : jsstring;
  filterStatus : jsstring
}.

(** [v === s] for a string [s]. *)
Definition strict_eq (v : json) (s : jsstring) : bool :=
  match v with
  | JStr x => str_eqb x s
  | _ => false
  end.

Definition ALL : jsstring := lit "ALL".

(** The form fields as the DOM gives them, and the two variables the
    submit handler reads.  [employeeId] stands for the hidden field's text
    written into the path and read back by the route with [Number]: the
    id [startEdit] stored there. *)
Record form : Type := Form {
  name_value : jsstring;
  email_value : jsstring;
  phone_value : jsstring;
  role_value : jsstring;
  department_value : jsstring;
  salary_value : jsstring;
  date_of_joining_value : jsstring;
  status_value : jsstring;
  isEditing : bool;
  employeeId : Z
}.

(** What the submit handler does: an alert, or one request with the
    payload as its body. *)
Inductive action : Type :=
| Alert (message : jsstring)
| Post (payload : object)
| Put (id_ : Z) (payload : object).

Definition phone_alert : jsstring :=
  lit "Phone number must be exactly 10 digits.".

Definition required_alert : jsstring :=
  lit "Name, Email and Phone are required.".

(** What [applyFilters] leaves behind: the rows rendered and the id
    [startEdit] was called with, if it was. *)
Record view : Type := View {
  filteredEmployees : list employee;
  editing : option Z
}.

(** A value [(v || "").toLowerCase()] can be called on: a string, or a
    falsy value, which [|| ""] replaces by the empty string. *)
Definition readable (v : value) : bool :=
  match or_else v (JStr []) with
  | JStr _ => true
  | _ => false
  end.

(** Whether the callback kept a row. *)
Definition kept_by (callback : employee -> option bool) (emp : employee)
  : bool :=
  match callback emp with
  | Some keep => keep
  | None => false
  end.

(** [allEmployees.filter(callback)] with a callback that may throw. *)
Fixpoint filter_rows (callback : employee -> option bool)
         (rows : list employee) : option (list employee) :=
  match rows with
  | [] => Some []
  | emp :: rest =>
      match callback emp with
      | None => None
      | Some keep =>
          match filter_rows callback rest with
          | None => None
          | Some kept => Some (if keep then emp :: kept else kept)
          end
      end
  end.

(** [JSON.stringify(payload)], with no third argument: the text has no line
    feed and no space outside its strings. *)
Fixpoint stringify (v : json) : jsstring :=
  match v with
  | JNull => lit "null"
  | JBool true => lit "true"
  | JBool false => lit "false"
  | JNum n =>
      if Z.eqb (Z.abs n) Infinity then lit "null" else Number_toString n
  | JStr s => JSON.QuoteJSONString s
  | JArr l =>
      match l with
      | [] => lit "[]"
      | _ => 91%N :: join [44%N] (map stringify l) ++ [93%N]
      end
  | JObj m =>
      match m with
      | [] => lit "{}"
      | _ =>
          123%N
          :: join [44%N]
               (map (fun kv => JSON.QuoteJSONString (fst kv)
                               ++ 58%N :: stringify (snd kv)) m)
          ++ [125%N]
      end
  end.

(** What that text puts after a value: nothing, a comma or a closing
    bracket. *)
Definition closes (rest : jsstring) : bool :=
  match rest with
  | [] => true
  | c :: _ => N.eqb c 44 || N.eqb c 93 || N.eqb c 125
  end.

(** The text of a value, whatever closes it, is read back as the value. *)
Definition reads_back (v : json) : Prop :=
  forall (rest : jsstring) (fuel : nat),
    closes rest = true -> (JSON.size v <= fuel)%nat ->
    JSON.parse_value fuel (stringify v ++ rest) = Some (v, rest).

(** The bytes a text takes once encoded as UTF-8: a surrogate pair takes
    four. *)
Fixpoint utf8_length (text : jsstring) : N :=
  match text with
  | [] => 0
  | c :: rest =>
      (if N.ltb c 128 then 1
       else if N.ltb c 2048 then 2
       else if JSON.is_high_surrogate c || JSON.is_low_surrogate c then 2
       else 3)
      + utf8_length rest
  end%N.

(** The body of the request: the text [JSON.stringify(payload)] sent as
    UTF-8. *)
Definition body_of (payload : object) : jsstring :=
  toWellFormed (stringify (JObj payload)).

(** [express.json()] with its default limit of 100kb: a longer body is
    answered 413 and the handler does not run. *)
Definition too_large (payload : object) : bool :=
  N.ltb 102400 (utf8_length (body_of payload)).

(** The request body as the handler reads it, once [express.json()] has
    parsed it. *)
Definition received (payload : object) : option object :=
  match JSON.parse (body_of payload) with
  | Some (JObj data) => Some data
  | _ => None
  end.

Section Builtins.

(** [String.prototype.toLowerCase], with its Unicode case tables, and
    [Number] on the text of the salary field where it reads an exact
    integer (a text that is no number reads as NaN, which [|| 0] turns into
    0 like 0 itself); [None] for the other numbers, which the model does
    not follow. *)
Variable toLowerCase : jsstring -> jsstring.
Variable Number_ : jsstring -> option Z.

(** [(v || "").toLowerCase()]; a truthy value that is no string has no such
    method and the call throws ([None]). *)
Definition lowered (v : value) : option jsstring :=
  match or_else v (JStr []) with
  | JStr s => Some (toLowerCase s)
  | _ => None
  end.

(** The callback of [allEmployees.filter] for the current filters. *)
Definition matches (text dept role_ status_ : jsstring) (emp : employee)
  : option bool :=
  match lowered (name emp), lowered (email emp) with
  | Some name', Some email' =>
      let empDept := or_else (department emp) (JStr []) in
      let empRole := or_else (role emp) (JStr []) in
      let empStatus := or_else (status emp) (JStr []) in
      let matchesText :=
        str_eqb text [] || includes name' text || includes email' text in
      let matchesDept := str_eqb dept ALL || strict_eq empDept dept in
      let matchesRole := str_eqb role_ ALL || strict_eq empRole role_ in
      let matchesStatus :=
        str_eqb status_ ALL || strict_eq empStatus status_ in
      Some (matchesText && matchesDept && matchesRole && matchesStatus)
  | _, _ => None
  end.

(** [applyFilters(triggeredBySearch)] on the current filters and
    [allEmployees]; [None] when the callback threw. *)
Definition applyFilters (triggeredBySearch : bool) (fs : filters)
           (allEmployees : list employee) : option view :=
  let text := toLowerCase (trim (searchInput fs)) in
  let dept := filterDepartment fs in
  let role_ := filterRole fs in
  let status_ := filterStatus fs in
  match filter_rows (matches text dept role_ status_) allEmployees with
  | None => None
  | Some rows =>
      Some (View rows
              (if triggeredBySearch && Nat.eqb (List.length rows) 1
               then match rows with
                    | first :: _ => Some (id first)
                    | [] => None
                    end
               else None))
  end.

(** [resetFilters()] *)
Definition resetFilters : filters := Filters [] ALL ALL ALL.

(** The payload the submit handler builds, with the salary it read. *)
Definition payload_of (fm : form) (salary_ : Z) : object :=
  let rawPhone := trim (phone_value fm) in
  let phoneDigits := replace_non_digits rawPhone in
  [(lit "name", JStr (trim (name_value fm)));
   (lit "email", JStr (trim (email_value fm)));
   (lit "phone", JStr phoneDigits);
   (lit "role", JStr (trim (role_value fm)));
   (lit "department", JStr (trim (department_value fm)));
   (lit "salary", or_else (Some (JNum salary_)) (JNum 0));
   (lit "date_of_joining", JStr (date_of_joining_value fm));
   (lit "status", JStr (status_value fm))].

(** The submit handler of the form; [None] where the salary is a number
    the model does not follow. *)
Definition submit (fm : form) : option action :=
  let rawPhone := trim (phone_value fm) in
  let phoneDigits := replace_non_digits rawPhone in
  if negb (Nat.eqb (List.length phoneDigits) 10)
  then Some (Alert phone_alert)
  else
    match Number_ (salary_value fm) with
    | Some salary_ =>
        if exact salary_ then
          let payload := payload_of fm salary_ in
          if negb (truthy (get payload (lit "name")))
             || negb (truthy (get payload (lit "email")))
             || negb (truthy (get payload (lit "phone")))
          then Some (Alert required_alert)
          else if negb (isEditing fm) then Some (Post payload)
          else Some (Put (employeeId fm) payload)
        else None
    | None => None
    end.

End Builtins.

(** The server's answer to what the form did, on the collection it had
    loaded; [None] when the form only alerted or the body did not arrive as
    an object. *)
Definition handled (employees : list employee) (a : action) : option outcome :=
  match a with
  | Alert _ => None
  | Post payload =>
      if too_large payload then Some (Outcome (Response 413 Error_page) None)
      else
        match received payload with
        | Some data => Some (Server.create employees data)
        | None => None
        end
  | Put id_ payload =>
      if too_large payload then Some (Outcome (Response 413 Error_page) None)
      else
        match received payload with
        | Some data => Some (Server.update employees id_ data)
        | None => None
        end
  end.

(** Every code unit of every text field of the form is 16-bit. *)
Definition form_text (fm : form) : bool :=
  forallb is_code_unit (name_value fm)
  && forallb is_code_unit (email_value fm)
  && forallb is_code_unit (phone_value fm)
  && forallb is_code_unit (role_value fm)
  && forallb is_code_unit (department_value fm)
  && forallb is_code_unit (date_of_joining_value fm)
  && forallb is_code_unit (status_value fm).

End Client.

(** ** Sample requests and records *)

Module Sample.

(** [{name:"Ann", email:"a@x.com", phone:"555-123-4567"}] *)
Definition ann : object :=
  [(lit "name", JStr (lit "Ann")); (lit "email", JStr (lit "a@x.com"));
   (lit "phone", JStr (lit "555-123-4567"))].

(** The record the scenario of the specification expects for [ann]. *)
Definition ann_record : employee :=
  {| id := 1; name := str "Ann"; email := str "a@x.com";
     phone := str "5551234567"; role := str ""; department := str "";
     salary := Some (JNum 0); date_of_joining := str "";
     status := str "Active" |}.


(** A record with the given id and otherwise the fields of [ann_record]. *)
Definition numbered (n : Z) : employee :=
  {| id := n; name := str "Ann"; email := str "a@x.com";
     phone := str "5551234567"; role := str ""; department := str "";
     salary := Some (JNum 0); date_of_joining := str "";
     status := str "Active" |}.

(** [numbered 1] after its status was set to Inactive. *)
Definition inactive : employee :=
  {| id := 1; name := str "Ann"; email := str "a@x.com";
     phone := str "5551234567"; role := str ""; department := str "";
     salary := Some (JNum 0); date_of_joining := str "";
     status := str "Inactive" |}.

(** [numbered 1] after its name was set to the empty string. *)
Definition nameless : employee :=
  {| id := 1; name := str ""; email := str "a@x.com";
     phone := str "5551234567"; role := str ""; department := str "";
     salary := Some (JNum 0); date_of_joining := str "";
     status := str "Active" |}.

Definition only_status : object := [(lit "status", JStr (lit "Inactive"))].
Definition short_phone : object := [(lit "phone", JStr (lit "123"))].
Definition empty_name : object := [(lit "name", JStr [])].
Definition id_and_null_name : object :=
  [(lit "id", JNum 7); (lit "name", JNull)].




End Sample.

(** * Properties *)

(** ** Strings *)

Lemma str_eqb_eq (a b : jsstring) : str_eqb a b = true <-> a = b.
Proof.
  revert b; induction a as [|x a IH]; intros [|y b]; simpl;
    try (split; [discriminate | congruence]); try tauto.
  rewrite andb_true_iff, N.eqb_eq, IH. split.
  - intros [-> ->]; reflexivity.
  - intros H; injection H; auto.
Qed.

Lemma str_eqb_refl (a : jsstring) : str_eqb a a = true.
Proof. apply str_eqb_eq; reflexivity. Qed.

Lemma str_eqb_nil (a : jsstring) : str_eqb a [] = true <-> a = [].
Proof. apply str_eqb_eq. Qed.

Lemma str_eqb_nil_false (a : jsstring) : str_eqb a [] = false <-> a <> [].
Proof.
  destruct a; simpl; split; congruence.
Qed.

Lemma white_space_not_digit (c : N) :
  is_white_space c = true -> is_digit c = false.
Proof.
  unfold is_white_space, is_digit. intros H.
  apply andb_false_iff.
  repeat (apply orb_true_iff in H; destruct H as [H|H]);
    try (apply andb_true_iff in H; destruct H as [H1 H2];
         apply N.leb_le in H1, H2);
    try apply N.eqb_eq in H;
    try (left; apply N.leb_gt; lia);
    try (right; apply N.leb_gt; lia).
Qed.

Lemma digits_trimStart (s : jsstring) :
  filter is_digit (trimStart s) = filter is_digit s.
Proof.
  induction s as [|c s IH]; simpl; [reflexivity|].
  destruct (is_white_space c) eqn:W; [|reflexivity].
  rewrite (white_space_not_digit _ W); exact IH.
Qed.

Lemma filter_rev_comm (A : Type) (f : A -> bool) (l : list A) :
  filter f (rev l) = rev (filter f l).
Proof.
  induction l as [|x l IH]; simpl; [reflexivity|].
  rewrite filter_app, IH; simpl.
  destruct (f x); simpl; [reflexivity | apply app_nil_r].
Qed.

Lemma digits_trim (s : jsstring) :
  replace_non_digits (trim s) = replace_non_digits s.
Proof.
  unfold replace_non_digits, trim, trimEnd.
  rewrite filter_rev_comm, digits_trimStart, <- filter_rev_comm, rev_involutive.
  apply digits_trimStart.
Qed.

Lemma filter_idem (A : Type) (f : A -> bool) (l : list A) :
  filter f (filter f l) = filter f l.
Proof.
  induction l as [|x l IH]; simpl; [reflexivity|].
  destruct (f x) eqn:E; simpl; [rewrite E, IH|]; auto.
Qed.

Lemma normalize_digits (x : jsstring) :
  Server.normalize x = replace_non_digits x.
Proof. apply digits_trim. Qed.

Lemma trimStart_keeps (c : N) (s : jsstring) :
  is_white_space c = false -> trimStart (c :: s) = c :: s.
Proof. intros H; simpl; rewrite H; reflexivity. Qed.

Lemma trimStart_nil_iff (s : jsstring) :
  trimStart s = [] <-> forallb is_white_space s = true.
Proof.
  induction s as [|c s IH]; simpl; [tauto|].
  destruct (is_white_space c); simpl; [exact IH|].
  split; discriminate.
Qed.

Lemma trim_nil_iff (s : jsstring) :
  trim s = [] <-> forallb is_white_space s = true.
Proof.
  unfold trim, trimEnd. split.
  - intros H.
    assert (H1 : trimStart (rev (trimStart s)) = []).
    { destruct (trimStart (rev (trimStart s))) as [|a l]; [reflexivity|].
      simpl in H. destruct (rev l); discriminate. }
    apply trimStart_nil_iff in H1.
    destruct (trimStart s) as [|c t] eqn:E.
    + apply trimStart_nil_iff; exact E.
    + exfalso. rewrite forallb_forall in H1.
      assert (W : is_white_space c = true)
        by (apply H1, in_rev; rewrite rev_involutive; left; reflexivity).
      clear H H1. induction s as [|d s IH]; simpl in E; [discriminate|].
      destruct (is_white_space d) eqn:D; [auto|].
      injection E as -> _. congruence.
  - intros H. apply trimStart_nil_iff in H. rewrite H. reflexivity.
Qed.

(** ** Identifier assignment *)

Lemma Math_max_ge (xs : list Z) (x : Z) : (x <= Server.Math_max x xs)%Z.
Proof.
  unfold Server.Math_max. revert x.
  induction xs as [|y xs IH]; intros x; simpl; [lia|].
  specialize (IH (Z.max x y)). lia.
Qed.

Lemma Math_max_upper (xs : list Z) (x y : Z) :
  In y (x :: xs) -> (y <= Server.Math_max x xs)%Z.
Proof.
  revert x. induction xs as [|z xs IH]; intros x [<-|H].
  - apply Math_max_ge.
  - destruct H.
  - apply Math_max_ge.
  - change (Server.Math_max x (z :: xs)) with (Server.Math_max (Z.max x z) xs).
    destruct H as [Hz|H].
    + pose proof (Math_max_ge xs (Z.max x z)). lia.
    + apply IH. right. exact H.
Qed.

Lemma Math_max_in (xs : list Z) (x : Z) : In (Server.Math_max x xs) (x :: xs).
Proof.
  revert x. induction xs as [|z xs IH]; intros x; [left; reflexivity|].
  change (Server.Math_max x (z :: xs)) with (Server.Math_max (Z.max x z) xs).
  destruct (IH (Z.max x z)) as [H|H].
  - rewrite <- H. destruct (Z.max_spec x z) as [[_ ->]|[_ ->]].
    + right; left; reflexivity.
    + left; reflexivity.
  - right; right; exact H.
Qed.

(** An exact integer is a double: rounding leaves it as it is. *)
Lemma nearest_double_exact (z : Z) : exact z = true -> nearest_double z = z.
Proof.
  unfold exact. intros H. apply Z.leb_le in H.
  unfold nearest_double. cbv zeta.
  destruct (Z.leb_spec (Z.log2 (Z.abs z) - 52) 0) as [L|L]; [reflexivity|].
  assert (E : Z.abs z = (2 ^ 53)%Z).
  { assert (P : (0 < Z.abs z)%Z)
      by (destruct (Z.abs z) eqn:E'; simpl in *; lia).
    pose proof (Z.log2_spec (Z.abs z) P) as S.
    assert ((2 ^ 53 <= 2 ^ Z.log2 (Z.abs z))%Z)
      by (apply Z.pow_le_mono_r; lia).
    lia. }
  rewrite E. change (Z.log2 (2 ^ 53)) with 53%Z.
  destruct z; try discriminate; simpl in E; injection E as ->;
    vm_compute; reflexivity.
Qed.

Lemma safe_bounds (n : Z) :
  safe n = true <-> (- 2 ^ 53 < n < 2 ^ 53)%Z.
Proof. unfold safe. rewrite Z.ltb_lt. lia. Qed.

Lemma safe_exact (n : Z) : safe n = true -> exact n = true.
Proof.
  intros H. apply safe_bounds in H. unfold exact. apply Z.leb_le. lia.
Qed.

Lemma safe_next_exact (n : Z) : safe n = true -> exact (n + 1) = true.
Proof.
  intros H. apply safe_bounds in H. unfold exact. apply Z.leb_le. lia.
Qed.

Lemma safe_ids_In (es : list employee) (e : employee) :
  safe_ids es = true -> In e es -> safe (id e) = true.
Proof.
  unfold safe_ids. rewrite forallb_forall. intros H He. apply (H e He).
Qed.

(** With safe ids the next id is the largest id plus one. *)
Lemma getNextId_max (es : list employee) :
  safe_ids es = true -> es <> [] ->
  exists e, In e es /\ (forall e', In e' es -> (id e' <= id e)%Z)
            /\ Server.getNextId es = (id e + 1)%Z.
Proof.
  intros Hs Hne. unfold Server.getNextId.
  destruct (map id es) as [|x xs] eqn:E.
  - destruct es; [congruence | discriminate].
  - pose proof (Math_max_in xs x) as Hin. rewrite <- E in Hin.
    apply in_map_iff in Hin. destruct Hin as (e & He & Hin).
    exists e. split; [exact Hin|]. split.
    + intros e' He'. rewrite He. apply Math_max_upper.
      rewrite <- E. apply in_map. exact He'.
    + rewrite <- He. apply nearest_double_exact, safe_next_exact.
      apply (safe_ids_In es e Hs Hin).
Qed.

(** With safe ids the next id is above every id of the collection. *)
Lemma getNextId_above (es : list employee) (e : employee) :
  safe_ids es = true -> In e es -> (id e < Server.getNextId es)%Z.
Proof.
  intros Hs H.
  destruct (getNextId_max es Hs) as (m & _ & Hm & ->).
  - intros ->. destruct H.
  - specialize (Hm e H). lia.
Qed.

(** The next id is exact whenever the ids are. *)
Lemma getNextId_exact (es : list employee) :
  forallb (fun e => exact (id e)) es = true ->
  exact (Server.getNextId es) = true.
Proof.
  intros H. unfold Server.getNextId.
  destruct (map id es) as [|x xs] eqn:E; [reflexivity|].
  pose proof (Math_max_in xs x) as Hin. rewrite <- E in Hin.
  apply in_map_iff in Hin. destruct Hin as (e & He & Hin).
  rewrite forallb_forall in H. specialize (H e Hin).
  rewrite <- He. unfold exact in H. apply Z.leb_le in H.
  destruct (Z.eq_dec (id e) (2 ^ 53)) as [->|Hn].
  - vm_compute. reflexivity.
  - rewrite nearest_double_exact; unfold exact; apply Z.leb_le; lia.
Qed.

(** ** Filtering by id *)

Lemma filter_length_le (A : Type) (p : A -> bool) (l : list A) :
  (List.length (filter p l) <= List.length l)%nat.
Proof.
  induction l as [|x l IH]; simpl; [lia|]. destruct (p x); simpl; lia.
Qed.

Lemma filter_all (A : Type) (p : A -> bool) (l : list A) :
  (forall x, In x l -> p x = true) -> filter p l = l.
Proof.
  induction l as [|x l IH]; simpl; intros H; [reflexivity|].
  rewrite (H x) by (left; reflexivity). f_equal. apply IH. auto.
Qed.

Lemma filter_length_same (A : Type) (p : A -> bool) (l : list A) :
  List.length (filter p l) = List.length l <-> (forall x, In x l -> p x = true).
Proof.
  split.
  - induction l as [|x l IH]; simpl; intros H y Hy; [destruct Hy|].
    pose proof (filter_length_le A p l) as Hle.
    destruct (p x) eqn:E; simpl in H; [|lia].
    destruct Hy as [<-|Hy]; [exact E|]. apply IH; [lia | exact Hy].
  - intros H. rewrite filter_all; auto.
Qed.

Lemma other_id_true (id_ : Z) (e : employee) :
  other_id id_ e = true <-> id e <> id_.
Proof.
  unfold other_id. rewrite negb_true_iff, Z.eqb_neq. tauto.
Qed.

Lemma delete_present (es : list employee) (id_ : Z) :
  (exists e, In e es /\ id e = id_) ->
  Server.delete es id_
  = Outcome (Response 204 Empty_body) (Some (filter (other_id id_) es)).
Proof.
  intros (e & Hin & He). unfold Server.delete.
  fold (other_id id_).
  destruct (Nat.eqb _ _) eqn:E; [|reflexivity].
  apply Nat.eqb_eq in E.
  pose proof (proj1 (filter_length_same _ _ _) E e Hin) as H.
  apply other_id_true in H. contradiction.
Qed.

Lemma delete_absent (es : list employee) (id_ : Z) :
  (forall e, In e es -> id e <> id_) ->
  Server.delete es id_
  = Outcome (Response 404 (Error_body Server.not_found)) None.
Proof.
  intros H. unfold Server.delete. fold (other_id id_).
  rewrite filter_all; [rewrite Nat.eqb_refl; reflexivity|].
  intros e He. apply other_id_true. auto.
Qed.


(** ** Required fields and the phone check *)

Lemma blank_string (s : jsstring) :
  Server.blank (Some (JStr s)) = true <-> trim s = [].
Proof.
  unfold Server.blank. simpl. rewrite orb_true_iff, negb_true_iff.
  rewrite negb_false_iff, !str_eqb_nil. split.
  - intros [->|H]; [reflexivity | exact H].
  - auto.
Qed.

Lemma blank_string_false (s : jsstring) :
  Server.blank (Some (JStr s)) = false <-> trim s <> [].
Proof.
  rewrite <- blank_string. destruct (Server.blank _); split; congruence.
Qed.

Lemma blank_undefined : Server.blank None = true.
Proof. reflexivity. Qed.

(** [String(x || "")] of a string is the string. *)
Lemma or_else_string (s : jsstring) :
  ToString (or_else (Some (JStr s)) (JStr [])) = Some s.
Proof.
  unfold or_else, truthy. destruct s; reflexivity.
Qed.

Lemma phoneDigits_string (data : object) (p : jsstring) :
  get data (lit "phone") = Some (JStr p) ->
  Server.phoneDigits data = replace_non_digits p.
Proof.
  intros H. unfold Server.phoneDigits, Server.phone_given, Server.String_.
  rewrite H, or_else_string. apply normalize_digits.
Qed.

(** [String] does not throw on a string, nor on [data.phone || ""] when
    the phone is one. *)
Lemma string_returns (s : jsstring) : Server.throws (Some (JStr s)) = false.
Proof. reflexivity. Qed.

Lemma phone_given_returns (data : object) (p : jsstring) :
  get data (lit "phone") = Some (JStr p) ->
  Server.throws (Server.phone_given data) = false.
Proof.
  intros H. unfold Server.throws, Server.phone_given, Server.String_.
  rewrite H, or_else_string. reflexivity.
Qed.

Lemma ten_digits_not_blank (p : jsstring) :
  List.length (replace_non_digits p) = 10%nat -> trim p <> [].
Proof.
  intros H E. rewrite <- digits_trim, E in H. discriminate.
Qed.

(** The first-missing loop returns the first blank field and nothing when
    no field is blank. *)
Lemma first_missing_none (data : object) (fields : list string) :
  Server.first_missing data fields = None
  <-> forall f, In f fields -> Server.blank (get data (lit f)) = false.
Proof.
  induction fields as [|f fields IH]; simpl.
  - split; [intros _ f [] | reflexivity].
  - destruct (Server.blank (get data (lit f))) eqn:E.
    + split; [discriminate|]. intros H.
      specialize (H f (or_introl eq_refl)). congruence.
    + rewrite IH. split.
      * intros H g [<-|Hg]; auto.
      * intros H g Hg. apply H. right. exact Hg.
Qed.

Lemma first_missing_some (data : object) (fields : list string) (f : string) :
  Server.first_missing data fields = Some f
  <-> exists before after,
        fields = before ++ f :: after
        /\ Server.blank (get data (lit f)) = true
        /\ forall g, In g before -> Server.blank (get data (lit g)) = false.
Proof.
  revert f. induction fields as [|g fields IH]; intros f; simpl.
  - split; [discriminate|]. intros (b & a & H & _). destruct b; discriminate.
  - destruct (Server.blank (get data (lit g))) eqn:E.
    + split.
      * intros H. injection H as <-. exists [], fields.
        repeat split; auto. intros ? [].
      * intros ([|h b] & a & H & Hf & Hb); simpl in H.
        -- congruence.
        -- injection H as <- _.
           specialize (Hb g (or_introl eq_refl)). congruence.
    + rewrite IH. split.
      * intros (b & a & -> & Hf & Hb). exists (g :: b), a.
        repeat split; auto. intros h [<-|Hh]; auto.
      * intros ([|h b] & a & H & Hf & Hb); simpl in H.
        -- injection H as -> _. congruence.
        -- injection H as _ ->. exists b, a. repeat split; auto.
           intros k Hk. apply Hb. right. exact Hk.
Qed.

(** What [create] does once both checks pass. *)
Lemma create_accepts (es : list employee) (data : object) :
  Server.first_missing data Server.required = None ->
  List.length (Server.phoneDigits data) = 10%nat ->
  Server.create es data
  = let r := {| id := Server.getNextId es;
                name := get data (lit "name");
                email := get data (lit "email");
                phone := Some (JStr (Server.phoneDigits data));
                role := Some (or_else (get data (lit "role")) (JStr []));
                department :=
                  Some (or_else (get data (lit "department")) (JStr []));
                salary := Some (or_else (get data (lit "salary")) (JNum 0));
                date_of_joining :=
                  Some (or_else (get data (lit "date_of_joining")) (JStr []));
                status :=
                  Some (or_else (get data (lit "status"))
                          (JStr (lit "Active"))) |} in
    Outcome (Response 201 (Record_body r)) (Some (es ++ [r])).
Proof.
  intros H1 H2. unfold Server.create. rewrite H1, H2. reflexivity.
Qed.

(** What [create] does when the loop stops at a field. *)
Lemma create_stops (es : list employee) (data : object) (f : string) :
  Server.first_missing data Server.required = Some f ->
  Server.create es data
  = if Server.throws (get data (lit f))
    then Outcome (Response 500 Error_page) None
    else Outcome (Response 400 (Error_body (Server.is_required f))) None.
Proof.
  intros H. unfold Server.create. rewrite H. reflexivity.
Qed.

Lemma create_rejects (es : list employee) (data : object) :
  (forall f, Server.first_missing data Server.required = Some f ->
             Server.throws (get data (lit f)) = false) ->
  (exists f, In f Server.required
             /\ Server.blank (get data (lit f)) = true)
  \/ List.length (Server.phoneDigits data) <> 10%nat ->
  exists msg,
    Server.create es data = Outcome (Response 400 (Error_body msg)) None
    /\ (forall f, Server.first_missing data Server.required = Some f ->
                  msg = Server.is_required f)
    /\ (Server.first_missing data Server.required = None ->
        msg = Server.phone_error).
Proof.
  intros Ht H.
  destruct (Server.first_missing data Server.required) as [f|] eqn:E.
  - exists (Server.is_required f).
    rewrite (create_stops es data f E), (Ht f eq_refl).
    repeat split; [congruence | discriminate].
  - unfold Server.create. rewrite E.
    destruct H as [(f & Hin & Hb)|H].
    + rewrite first_missing_none in E. rewrite (E f Hin) in Hb. discriminate.
    + apply Nat.eqb_neq in H. rewrite H. simpl.
      exists Server.phone_error. repeat split; discriminate.
Qed.

(** A request served against the document leaves it as it was unless the
    handler saved. *)
Lemma serve_unsaved (h : list employee -> outcome) (f : file)
      (es : list employee) (r : response) :
  collection (Server.loadEmployees f) = Some es ->
  h es = Outcome r None ->
  Server.serve h f = Some (r, f).
Proof.
  intros Hd Hh. unfold Server.serve. rewrite Hd, Hh. reflexivity.
Qed.


(** ** Create *)




(** ** Update *)

Lemma findIndex_none (es : list employee) (id_ : Z) :
  (forall e, In e es -> id e <> id_) ->
  Server.findIndex (fun e => Z.eqb (id e) id_) es = None.
Proof.
  induction es as [|x es IH]; intros H; simpl; [reflexivity|].
  destruct (Z.eqb_spec (id x) id_) as [E|_].
  - exfalso. apply (H x); [left; reflexivity | exact E].
  - rewrite IH; [reflexivity|]. intros e He. apply H. right. exact He.
Qed.

(** The index found is that of the first record with the id. *)
Lemma findIndex_some (es : list employee) (id_ : Z) :
  (exists e, In e es /\ id e = id_) ->
  exists index emp,
    Server.findIndex (fun e => Z.eqb (id e) id_) es = Some index
    /\ nth_error es index = Some emp
    /\ id emp = id_
    /\ forall j e, (j < index)%nat -> nth_error es j = Some e -> id e <> id_.
Proof.
  induction es as [|x es IH]; intros (e & Hin & He); [destruct Hin|].
  simpl. destruct (Z.eqb_spec (id x) id_) as [E|NE].
  - exists O, x. repeat split; auto. intros j e' Hj. lia.
  - destruct Hin as [->|Hin]; [contradiction|].
    destruct (IH (ex_intro _ e (conj Hin He))) as (i & emp & Hf & Hn & Hid & Hb).
    exists (S i), emp. rewrite Hf. repeat split; auto.
    intros [|j] e' Hj Hj'; simpl in Hj'.
    + injection Hj' as <-. exact NE.
    + apply (Hb j); [lia | exact Hj'].
Qed.

Lemma assign_nth (es : list employee) (i : nat) (e : employee) :
  (i < List.length es)%nat -> nth_error (Server.assign es i e) i = Some e.
Proof.
  revert i. induction es as [|x es IH]; intros [|i] H; simpl in *;
    try lia; [reflexivity|]. apply IH. lia.
Qed.

Lemma assign_other (es : list employee) (i j : nat) (e : employee) :
  i <> j -> nth_error (Server.assign es i e) j = nth_error es j.
Proof.
  revert i j. induction es as [|x es IH]; intros [|i] [|j] H; simpl;
    try reflexivity; try congruence. apply IH. congruence.
Qed.

Lemma assign_length (es : list employee) (i : nat) (e : employee) :
  List.length (Server.assign es i e) = List.length es.
Proof.
  revert i. induction es as [|x es IH]; intros [|i]; simpl; auto.
Qed.

Lemma assign_ids (es : list employee) (i : nat) (e emp : employee) :
  nth_error es i = Some emp -> id e = id emp ->
  map id (Server.assign es i e) = map id es.
Proof.
  revert i. induction es as [|x es IH]; intros [|i] H Hid; simpl in *;
    try discriminate.
  - injection H as ->. congruence.
  - f_equal. apply IH; assumption.
Qed.

Lemma assign_In (es : list employee) (i : nat) (e x : employee) :
  In x (Server.assign es i e) -> x = e \/ In x es.
Proof.
  revert i. induction es as [|y es IH]; intros [|i] H; simpl in *; try tauto.
  - destruct H as [<-|H]; auto.
  - destruct H as [<-|H]; auto. destruct (IH i H); auto.
Qed.

Lemma update_missing (es : list employee) (id_ : Z) (data : object) :
  (forall e, In e es -> id e <> id_) ->
  Server.update es id_ data
  = Outcome (Response 404 (Error_body Server.not_found)) None.
Proof.
  intros H. unfold Server.update. rewrite (findIndex_none es id_ H).
  reflexivity.
Qed.

Lemma update_bad_phone (es : list employee) (id_ : Z) (data : object) :
  (exists e, In e es /\ id e = id_) ->
  get data (lit "phone") <> None ->
  Server.throws (Server.phone_given data) = false ->
  List.length (Server.phoneDigits data) <> 10%nat ->
  Server.update es id_ data
  = Outcome (Response 400 (Error_body Server.phone_error)) None.
Proof.
  intros Hex Hp Ht Hlen.
  destruct (findIndex_some es id_ Hex) as (i & emp & Hf & Hn & _).
  unfold Server.update. rewrite Hf, Hn, Ht.
  destruct (get data (lit "phone")); [|congruence].
  apply Nat.eqb_neq in Hlen. rewrite Hlen. reflexivity.
Qed.

Lemma update_throws (es : list employee) (id_ : Z) (data : object) :
  (exists e, In e es /\ id e = id_) ->
  get data (lit "phone") <> None ->
  Server.throws (Server.phone_given data) = true ->
  Server.update es id_ data = Outcome (Response 500 Error_page) None.
Proof.
  intros Hex Hp Ht.
  destruct (findIndex_some es id_ Hex) as (i & emp & Hf & Hn & _).
  unfold Server.update. rewrite Hf, Hn, Ht.
  destruct (get data (lit "phone")); [reflexivity | congruence].
Qed.

Lemma update_merges (es : list employee) (id_ : Z) (data : object)
      (i : nat) (emp : employee) :
  Server.findIndex (fun e => Z.eqb (id e) id_) es = Some i ->
  nth_error es i = Some emp ->
  get data (lit "phone") = None
  \/ (Server.throws (Server.phone_given data) = false
      /\ List.length (Server.phoneDigits data) = 10%nat) ->
  let updatedPhone :=
    match get data (lit "phone") with
    | None => phone emp
    | Some _ => Some (JStr (Server.phoneDigits data))
    end in
  Server.update es id_ data
  = Outcome (Response 200 (Record_body (Server.merged emp data updatedPhone)))
            (Some (Server.assign es i (Server.merged emp data updatedPhone))).
Proof.
  intros Hf Hn Hp. unfold Server.update. rewrite Hf, Hn.
  destruct (get data (lit "phone")) as [v|] eqn:E; [|reflexivity].
  destruct Hp as [Hp|[Ht Hp]]; [discriminate|].
  rewrite Ht, Hp. reflexivity.
Qed.

Lemma coalesce_value (a b : value) (v : json) :
  a = Some v -> v <> JNull -> Server.coalesce a b = Some v.
Proof. intros -> H. destruct v; try reflexivity. congruence. Qed.

Lemma coalesce_nullish (a b : value) :
  a = None \/ a = Some JNull -> Server.coalesce a b = b.
Proof. intros [->| ->]; reflexivity. Qed.

(** C2 (as amended).  For every collection and every id present in it,
    Update(id, partial_input) returns the merged record and stores it in
    the place of the first record with that id, the records before it
    having other ids and every other record staying where it was: each of
    name, email, role, department, salary, date_of_joining and status that
    is present in partial_input with a value other than null takes the new
    value, each that is absent or null keeps the record's prior value, and
    the id is the record's own whatever the input says; if phone is present
    it is re-validated and normalized, and a phone (of exact numbers, where
    it holds numbers) that does not yield exactly ten digits blocks the
    whole update with 400, as a phone that String() cannot convert blocks
    it with 500; if id is absent from the collection, Update answers 404. *)
Theorem update_merge_semantics :
  forall (es : list employee) (id_ : Z) (data : object),
    ((forall e, In e es -> id e <> id_) ->
     Server.update es id_ data
     = Outcome (Response 404 (Error_body Server.not_found)) None)
    /\ ((exists e, In e es /\ id e = id_) ->
        exists index emp,
          nth_error es index = Some emp /\ id emp = id_
          /\ (forall j e, (j < index)%nat -> nth_error es j = Some e ->
                          id e <> id_)
          /\ (get data (lit "phone") <> None ->
              Server.throws (Server.phone_given data) = true ->
              Server.update es id_ data
              = Outcome (Response 500 Error_page) None)
          /\ (get data (lit "phone") <> None ->
              Server.throws (Server.phone_given data) = false ->
              well_formed_value (get data (lit "phone")) = true ->
              List.length (Server.phoneDigits data) <> 10%nat ->
              Server.update es id_ data
              = Outcome (Response 400 (Error_body Server.phone_error)) None)
          /\ (get data (lit "phone") = None
              \/ (Server.throws (Server.phone_given data) = false
                  /\ List.length (Server.phoneDigits data) = 10%nat) ->
              exists r,
                Server.update es id_ data
                = Outcome (Response 200 (Record_body r))
                          (Some (Server.assign es index r))
                /\ nth_error (Server.assign es index r) index = Some r
                /\ (forall j, j <> index ->
                      nth_error (Server.assign es index r) j = nth_error es j)
                /\ id r = id_
                /\ (forall k proj, In (k, proj) merged_fields ->
                      (forall v, get data (lit k) = Some v -> v <> JNull ->
                                 proj r = Some v)
                      /\ (get data (lit k) = None
                          \/ get data (lit k) = Some JNull ->
                          proj r = proj emp))
                /\ (get data (lit "phone") = None -> phone r = phone emp)
                /\ (forall p, get data (lit "phone") = Some (JStr p) ->
                      phone r = Some (JStr (replace_non_digits p))))).
Proof.
  intros es id_ data. split; [apply update_missing|].
  intros Hex.
  destruct (findIndex_some es id_ Hex) as (i & emp & Hf & Hn & Hid & Hfirst).
  exists i, emp. split; [exact Hn|]. split; [exact Hid|].
  split; [exact Hfirst|]. split; [|split].
  - intros Hp Ht. apply update_throws; assumption.
  - intros Hp Ht _ Hlen. apply update_bad_phone; assumption.
  - intros Hp. pose proof (update_merges es id_ data i emp Hf Hn Hp) as Hu.
    cbv zeta in Hu. eexists. split; [exact Hu|].
    assert (Hi : (i < List.length es)%nat)
      by (apply nth_error_Some; congruence).
    split; [apply assign_nth; exact Hi|].
    split; [intros j Hj; apply assign_other; congruence|].
    split; [exact Hid|]. split; [|split].
    + intros k proj Hin.
      repeat (destruct Hin as [Hin|Hin];
              [injection Hin as <- <-; split;
               [intros v Hv Hnn; apply coalesce_value; assumption
               |intros Hv; apply coalesce_nullish; assumption]|]).
      destruct Hin.
    + intros E. simpl. rewrite E. reflexivity.
    + intros p E. simpl. rewrite E.
      rewrite (phoneDigits_string data p E). reflexivity.
Qed.

Lemma update_merge_semantics_witness :
  Server.update [Sample.numbered 1] 2 Sample.only_status
  = Outcome (Response 404 (Error_body Server.not_found)) None
  /\ exists r,
       Server.update [Sample.numbered 1] 1 Sample.only_status
       = Outcome (Response 200 (Record_body r)) (Some [r])
       /\ status r = str "Inactive"
       /\ phone r = phone (Sample.numbered 1).
Proof.
  split.
  - apply (proj1 (update_merge_semantics [Sample.numbered 1] 2
                    Sample.only_status)).
    intros e [<-|[]]. discriminate.
  - destruct (proj2 (update_merge_semantics [Sample.numbered 1] 1
                       Sample.only_status))
      as (i & emp & Hn & Hid & _ & _ & _ & H).
    { exists (Sample.numbered 1). split; [left|]; reflexivity. }
    destruct i as [|i]; [|destruct i; discriminate].
    injection Hn as <-.
    destruct (H (or_introl eq_refl)) as (r & Hu & _ & _ & _ & Hm & Hp & _).
    exists r. split; [exact Hu|]. split.
    + apply (proj1 (Hm "status"%string status
                      (or_intror (or_intror (or_intror (or_intror
                        (or_intror (or_intror (or_introl eq_refl)))))))))
        with (v := JStr (lit "Inactive")); [reflexivity | discriminate].
    + apply Hp. reflexivity.
Defined.

(** C2 as stated fails: a payload that carries an id and a null name is
    answered with the record as it was, so neither field present in the
    payload took the new value. *)
Lemma update_keeps_id_and_null_name :
  get Sample.id_and_null_name (lit "id") = Some (JNum 7)
  /\ get Sample.id_and_null_name (lit "name") = Some JNull
  /\ Server.update [Sample.numbered 1] 1 Sample.id_and_null_name
     = Outcome (Response 200 (Record_body (Sample.numbered 1)))
               (Some [Sample.numbered 1]).
Proof.
  repeat split.
Qed.

(** ** Next id *)

(** C3 (as amended).  For every collection whose ids are safe integers
    (below 2^53 in absolute value), the next id is 1 if the collection is
    empty and the largest id plus one otherwise, in both servers, which
    compute the same next id on every collection; so for the collection
    with ids 1 and 3 it is 4, and once the record with the highest id is
    deleted the next record created is given that id again. *)
Theorem getNextId_max_plus_one :
  forall (es : list employee) (r e1 e3 : employee) (data : object),
    Server.getNextId [] = 1%Z
    /\ (safe_ids es = true -> es <> [] ->
        exists e, In e es /\ (forall e', In e' es -> (id e' <= id e)%Z)
                  /\ Server.getNextId es = (id e + 1)%Z)
    /\ Mcp.getNextId es = Server.getNextId es
    /\ (id e1 = 1%Z -> id e3 = 3%Z -> Server.getNextId [e1; e3] = 4%Z)
    /\ (safe_ids es = true ->
        id r = Server.getNextId es ->
        Server.first_missing data Server.required = None ->
        List.length (Server.phoneDigits data) = 10%nat ->
        (forall e, In e es -> (id e < id r)%Z)
        /\ saved (Server.delete (es ++ [r]) (id r)) = Some es
        /\ exists r',
             sent (Server.create es data) = Response 201 (Record_body r')
             /\ id r' = id r).
Proof.
  intros es r e1 e3 data.
  split; [reflexivity|]. split; [apply getNextId_max|].
  split; [reflexivity|]. split.
  - intros H1 H3. unfold Server.getNextId. simpl. rewrite H1, H3. reflexivity.
  - intros Hs Hr Hreq Hlen.
    assert (Hlt : forall e, In e es -> (id e < id r)%Z)
      by (intros e He; rewrite Hr; apply getNextId_above; assumption).
    split; [exact Hlt|]. split.
    + rewrite delete_present.
      * simpl. f_equal. rewrite filter_app. simpl.
        replace (other_id (id r) r) with false
          by (unfold other_id; rewrite Z.eqb_refl; reflexivity).
        rewrite app_nil_r. apply filter_all.
        intros e He. apply other_id_true. specialize (Hlt e He). lia.
      * exists r. split; [apply in_or_app; right; left|]; reflexivity.
    + rewrite (create_accepts es data Hreq Hlen). cbv zeta.
      eexists. split; [reflexivity|]. simpl. congruence.
Qed.

Lemma getNextId_max_plus_one_witness :
  Server.getNextId [Sample.numbered 1; Sample.numbered 3] = 4%Z
  /\ saved (Server.delete ([Sample.numbered 1; Sample.numbered 2]
                           ++ [Sample.numbered 3]) 3)
     = Some [Sample.numbered 1; Sample.numbered 2]
  /\ exists r',
       sent (Server.create [Sample.numbered 1; Sample.numbered 2] Sample.ann)
       = Response 201 (Record_body r')
       /\ id r' = 3%Z.
Proof.
  pose proof (getNextId_max_plus_one
                [Sample.numbered 1; Sample.numbered 2] (Sample.numbered 3)
                (Sample.numbered 1) (Sample.numbered 3) Sample.ann)
    as (_ & _ & _ & H4 & Hre).
  split; [apply H4; reflexivity|].
  destruct Hre as (_ & Hd & Hc); try reflexivity.
  split; [exact Hd | exact Hc].
Defined.

(** C3 as stated fails: the addition is one of doubles, and 2^53 + 1 is no
    double.  For the collection whose one record has the id 2^53 the next
    id is 2^53 again, not the largest id plus one, in both servers, and the
    record Create appends has the id of the record that is there. *)
Lemma getNextId_repeats_largest_id :
  Server.getNextId [Sample.numbered (2 ^ 53)] = (2 ^ 53)%Z
  /\ Mcp.getNextId [Sample.numbered (2 ^ 53)] = (2 ^ 53)%Z
  /\ Server.getNextId [Sample.numbered (2 ^ 53)]
     <> (id (Sample.numbered (2 ^ 53)) + 1)%Z
  /\ exists r,
       Server.create [Sample.numbered (2 ^ 53)] Sample.ann
       = Outcome (Response 201 (Record_body r))
                 (Some [Sample.numbered (2 ^ 53); r])
       /\ id r = id (Sample.numbered (2 ^ 53)).
Proof.
  split; [vm_compute; reflexivity|]. split; [vm_compute; reflexivity|].
  split; [vm_compute; discriminate|].
  eexists. split; [vm_compute; reflexivity|]. vm_compute. reflexivity.
Qed.

(** ** Delete *)



(** The delete tool runs its handler on an id its schema accepts. *)
Lemma delete_tool_runs (zod_int : Z -> bool) (es : list employee)
      (args : object) (n : Z) :
  get args (lit "id") = Some (JNum n) ->
  zod_int n = true -> (0 < n)%Z ->
  Mcp.delete_employee zod_int es args = Mcp.delete_handler es n.
Proof.
  intros Ha Hz Hn. unfold Mcp.delete_employee, Mcp.id_schema.
  rewrite Ha, Hz. apply Z.ltb_lt in Hn. rewrite Hn. reflexivity.
Qed.





(** ** Phone normalization *)

(** C9.  Phone normalization strips every non-digit character and is
    idempotent; and for every phone string whose stripped digit string has a
    length other than ten the phone check fails.  Create saves nothing and
    answers 400 or, where String() cannot convert the name or the email it
    meets first, 500; when it can convert both, Create answers 400, with
    the phone message once the required fields are there.  Update of an
    existing record answers 400 with the phone message, nothing being
    saved. *)
Theorem normalize_idempotent_and_strict :
  forall (x : jsstring) (es : list employee) (id_ : Z) (data : object),
    Server.normalize (Server.normalize x) = Server.normalize x
    /\ Server.normalize x = filter is_digit x
    /\ (get data (lit "phone") = Some (JStr x) ->
        List.length (Server.normalize x) <> 10%nat ->
        (exists r,
            Server.create es data = Outcome r None
            /\ (code r = 400%Z \/ code r = 500%Z))
        /\ (Server.throws (get data (lit "name")) = false ->
            Server.throws (get data (lit "email")) = false ->
            exists msg,
              Server.create es data
              = Outcome (Response 400 (Error_body msg)) None
              /\ (Server.first_missing data Server.required = None ->
                  msg = Server.phone_error))
        /\ ((exists e, In e es /\ id e = id_) ->
            Server.update es id_ data
            = Outcome (Response 400 (Error_body Server.phone_error)) None)).
Proof.
  intros x es id_ data.
  split; [rewrite !normalize_digits; apply filter_idem|].
  split; [apply normalize_digits|].
  intros Hp Hlen.
  assert (Hd : List.length (Server.phoneDigits data) <> 10%nat).
  { rewrite (phoneDigits_string data x Hp), <- normalize_digits. exact Hlen. }
  split; [|split].
  - destruct (Server.first_missing data Server.required) as [f|] eqn:E.
    + rewrite (create_stops es data f E).
      destruct (Server.throws _); eexists; split; try reflexivity; auto.
    + unfold Server.create. rewrite E.
      apply Nat.eqb_neq in Hd. rewrite Hd.
      eexists. split; [reflexivity | left; reflexivity].
  - intros Hn Hm.
    destruct (create_rejects es data) as (msg & Hc & _ & Hmsg).
    + intros f E. apply first_missing_some in E.
      destruct E as (b & a & E & _).
      assert (Hin : In f Server.required) by (rewrite E; apply in_elt).
      destruct Hin as [<-|[<-|[<-|[]]]]; [exact Hn | exact Hm|].
      rewrite Hp. reflexivity.
    + right. exact Hd.
    + exists msg. auto.
  - intros Hex. apply update_bad_phone;
      [exact Hex | congruence | apply (phone_given_returns data x Hp)
      | exact Hd].
Qed.

Lemma normalize_idempotent_and_strict_witness :
  Server.update [Sample.numbered 1] 1 Sample.short_phone
  = Outcome (Response 400 (Error_body Server.phone_error)) None.
Proof.
  apply (proj2 (proj2 (normalize_idempotent_and_strict
                         (lit "123") [Sample.numbered 1] 1
                         Sample.short_phone))).
  - reflexivity.
  - discriminate.
  - exists (Sample.numbered 1). split; [left|]; reflexivity.
Defined.

(** ** Validation failures *)

(** C5 (as amended).  For every Create input that fails validation (a
    required field among name, email, phone that is absent, falsy, or blank
    once trimmed; or a phone, of exact numbers where it holds numbers, not
    yielding exactly ten digits), Create answers 400 with a message naming
    the first failing field, the fields before it in the order name, email,
    phone having passed, or the phone message when no required field is
    missing; unless String() cannot convert the first field that does not
    pass, where Create answers 500.  For every Update of an existing record whose input
    carries such a phone not yielding exactly ten digits, Update answers
    400 with the phone message.  In all these cases nothing is saved and
    the backing document is left as it was. *)
Theorem validation_failure_rejected :
  forall (es : list employee) (id_ : Z) (data : object),
    ((forall f, Server.first_missing data Server.required = Some f ->
                Server.throws (get data (lit f)) = false) ->
     well_formed_value (get data (lit "phone")) = true ->
     (exists f, In f Server.required
                /\ Server.blank (get data (lit f)) = true)
     \/ List.length (Server.phoneDigits data) <> 10%nat ->
     exists msg,
       Server.create es data = Outcome (Response 400 (Error_body msg)) None
       /\ (forall f, Server.first_missing data Server.required = Some f ->
             msg = Server.is_required f
             /\ exists before after,
                  Server.required = before ++ f :: after
                  /\ Server.blank (get data (lit f)) = true
                  /\ forall g, In g before ->
                               Server.blank (get data (lit g)) = false)
       /\ (Server.first_missing data Server.required = None ->
           msg = Server.phone_error)
       /\ (forall doc, collection (Server.loadEmployees doc) = Some es ->
             Server.serve (fun l => Server.create l data) doc
             = Some (Response 400 (Error_body msg), doc)))
    /\ (forall f, Server.first_missing data Server.required = Some f ->
          Server.throws (get data (lit f)) = true ->
          Server.create es data = Outcome (Response 500 Error_page) None
          /\ (forall doc, collection (Server.loadEmployees doc) = Some es ->
                Server.serve (fun l => Server.create l data) doc
                = Some (Response 500 Error_page, doc)))
    /\ ((exists e, In e es /\ id e = id_) ->
        get data (lit "phone") <> None ->
        Server.throws (Server.phone_given data) = false ->
        well_formed_value (get data (lit "phone")) = true ->
        List.length (Server.phoneDigits data) <> 10%nat ->
        Server.update es id_ data
        = Outcome (Response 400 (Error_body Server.phone_error)) None
        /\ (forall doc, collection (Server.loadEmployees doc) = Some es ->
              Server.serve (fun l => Server.update l id_ data) doc
              = Some (Response 400 (Error_body Server.phone_error), doc)))
    /\ Server.blank None = true
    /\ (forall s, forallb is_white_space s = true ->
                  Server.blank (Some (JStr s)) = true).
Proof.
  intros es id_ data. split; [|split; [|split; [|split]]].
  - intros Ht _ H.
    destruct (create_rejects es data Ht H) as (msg & Hc & Hf & Hp).
    exists msg. split; [exact Hc|]. split; [|split; [exact Hp|]].
    + intros f E. split; [apply Hf; exact E|].
      apply first_missing_some in E. exact E.
    + intros doc Hd. apply (serve_unsaved _ doc es _ Hd). exact Hc.
  - intros f E Ht.
    assert (Hc : Server.create es data
                 = Outcome (Response 500 Error_page) None)
      by (rewrite (create_stops es data f E), Ht; reflexivity).
    split; [exact Hc|].
    intros doc Hd. apply (serve_unsaved _ doc es _ Hd). exact Hc.
  - intros Hex Hp Ht _ Hlen.
    pose proof (update_bad_phone es id_ data Hex Hp Ht Hlen) as Hu.
    split; [exact Hu|].
    intros doc Hd. apply (serve_unsaved _ doc es _ Hd). exact Hu.
  - reflexivity.
  - intros s Hs. apply blank_string, trim_nil_iff, Hs.
Qed.

Lemma validation_failure_rejected_witness :
  (exists msg,
      Server.create [] [(lit "name", JStr (lit "Ann"))]
      = Outcome (Response 400 (Error_body msg)) None
      /\ msg = Server.is_required "email")
  /\ Server.serve (fun l => Server.update l 1 Sample.short_phone)
       (Server.saveEmployees (encode [Sample.numbered 1]))
     = Some (Response 400 (Error_body Server.phone_error),
             Server.saveEmployees (encode [Sample.numbered 1])).
Proof.
  pose proof (validation_failure_rejected [] 1 [(lit "name", JStr (lit "Ann"))])
    as (Hc & _).
  pose proof (validation_failure_rejected [Sample.numbered 1] 1
                Sample.short_phone) as (_ & _ & Hu & _).
  split.
  - destruct Hc as (msg & Hm & Hf & _).
    { intros f E. injection E as <-. reflexivity. }
    { reflexivity. }
    { left. exists "email"%string. split; [right; left|]; reflexivity. }
    exists msg. split; [exact Hm|]. apply (Hf "email"%string). reflexivity.
  - apply Hu.
    + exists (Sample.numbered 1). split; [left|]; reflexivity.
    + discriminate.
    + reflexivity.
    + reflexivity.
    + discriminate.
    + vm_compute. reflexivity.
Defined.

(** C5 as stated fails for Update: an input from which the required name
    is absent is answered 200 and saved; and an input whose phone yields
    three digits, sent for an id that is not there, is answered 404. *)
Lemma update_without_required_fields :
  get Sample.only_status (lit "name") = None
  /\ Server.update [Sample.numbered 1] 1 Sample.only_status
     = Outcome (Response 200 (Record_body Sample.inactive))
               (Some [Sample.inactive])
  /\ List.length (Server.phoneDigits Sample.short_phone) = 3%nat
  /\ Server.update [] 1 Sample.short_phone
     = Outcome (Response 404 (Error_body Server.not_found)) None.
Proof.
  repeat split.
Qed.

(** ** The invariants of the data model *)

(** Filtering a collection keeps its ids distinct. *)
Lemma unique_ids_filter (keep : employee -> bool) (es : list employee) :
  NoDup (map id es) -> NoDup (map id (filter keep es)).
Proof.
  intros Hnd. induction es as [|e es IH]; [constructor|].
  simpl in Hnd. inversion Hnd as [|? ? Hnot Hrest]; subst.
  simpl. destruct (keep e); [|auto].
  simpl. constructor; [|auto].
  intros Hin. apply Hnot. apply in_map_iff in Hin.
  destruct Hin as (y & Hy & Hin). apply filter_In in Hin.
  rewrite <- Hy. apply in_map. tauto.
Qed.

Lemma ten_digits_normalized (s : jsstring) :
  List.length (replace_non_digits s) = 10%nat ->
  ten_digits (Some (JStr (replace_non_digits s))) = true.
Proof.
  intros H. simpl. rewrite H. simpl.
  apply forallb_forall. intros c Hc. apply filter_In in Hc. tauto.
Qed.

Lemma phoneDigits_filtered (data : object) :
  exists text, Server.phoneDigits data = replace_non_digits text.
Proof.
  unfold Server.phoneDigits.
  destruct (Server.String_ _) as [text|].
  - exists text. apply normalize_digits.
  - exists []. reflexivity.
Qed.

(** Exactly ten digits kept by the handlers are a ten-digit phone. *)
Lemma phoneDigits_ten (data : object) :
  List.length (Server.phoneDigits data) = 10%nat ->
  ten_digits (Some (JStr (Server.phoneDigits data))) = true.
Proof.
  destruct (phoneDigits_filtered data) as (text & ->).
  apply ten_digits_normalized.
Qed.

(** A request that is not answered 201 saves nothing. *)
Lemma create_saved (es es' : list employee) (data : object) :
  saved (Server.create es data) = Some es' ->
  Server.first_missing data Server.required = None
  /\ List.length (Server.phoneDigits data) = 10%nat.
Proof.
  unfold Server.create.
  destruct (Server.first_missing data Server.required) as [f|].
  - destruct (Server.throws _); discriminate.
  - destruct (Nat.eqb _ 10) eqn:Hlen; [|discriminate].
    intros _. split; [reflexivity | apply Nat.eqb_eq, Hlen].
Qed.

(** Delete keeps all three invariants. *)
Lemma delete_preserves_invariant (es es' : list employee) (id_ : Z) :
  invariant es -> saved (Server.delete es id_) = Some es' -> invariant es'.
Proof.
  intros [Hnd Hv] H. unfold Server.delete in H.
  destruct (Nat.eqb _ _); [discriminate|]. injection H as <-. split.
  - apply unique_ids_filter. exact Hnd.
  - rewrite Forall_forall in *. intros e He. apply filter_In in He.
    apply Hv. tauto.
Qed.

(** Create keeps all three when the ids are safe integers and name and
    email are strings. *)
Lemma create_preserves_invariant (es es' : list employee) (data : object)
      (n m : jsstring) :
  invariant es -> safe_ids es = true ->
  get data (lit "name") = Some (JStr n) ->
  get data (lit "email") = Some (JStr m) ->
  saved (Server.create es data) = Some es' -> invariant es'.
Proof.
  intros [Hnd Hv] Hs Hn Hm H.
  destruct (create_saved es es' data H) as [Hreq Hlen].
  rewrite (create_accepts es data Hreq Hlen) in H. cbv zeta in H.
  simpl in H. injection H as <-.
  rewrite first_missing_none in Hreq. split.
  - rewrite map_app. simpl.
    apply (Permutation_NoDup
             (l := Server.getNextId es :: map id es)).
    + apply Permutation_cons_append.
    + constructor; [|exact Hnd]. intros Hin. apply in_map_iff in Hin.
      destruct Hin as (e & He & Hin).
      pose proof (getNextId_above es e Hs Hin). lia.
  - apply Forall_app. split; [exact Hv|]. constructor; [|constructor].
    assert (Hb : forall s f, In f Server.required ->
                 get data (lit f) = Some (JStr s) ->
                 nonempty_string (Some (JStr s)) = true).
    { intros s f Hf Hg. specialize (Hreq f Hf). rewrite Hg in Hreq.
      apply blank_string_false in Hreq. apply negb_true_iff, str_eqb_nil_false.
      intros ->. apply Hreq. reflexivity. }
    unfold valid_record. cbn [name email phone]. rewrite Hn, Hm.
    rewrite (Hb n "name"%string), (Hb m "email"%string); auto;
      try (simpl; tauto).
    apply (phoneDigits_ten data Hlen).
Qed.

(** Update keeps the ids distinct and every phone ten digits. *)
Lemma update_preserves_ids_and_phones (es es' : list employee) (id_ : Z)
      (data : object) :
  NoDup (map id es) ->
  Forall (fun e => ten_digits (phone e) = true) es ->
  saved (Server.update es id_ data) = Some es' ->
  NoDup (map id es')
  /\ Forall (fun e => ten_digits (phone e) = true) es'.
Proof.
  intros Hnd Hv H. unfold Server.update in H.
  destruct (Server.findIndex _ es) as [i|]; [|discriminate].
  destruct (nth_error es i) as [emp|] eqn:Hn; [|discriminate].
  assert (Hemp : ten_digits (phone emp) = true).
  { rewrite Forall_forall in Hv. apply Hv. eapply nth_error_In, Hn. }
  assert (K : forall ph, ten_digits ph = true ->
              NoDup (map id (Server.assign es i (Server.merged emp data ph)))
              /\ Forall (fun e => ten_digits (phone e) = true)
                   (Server.assign es i (Server.merged emp data ph))).
  { intros ph Hph. split.
    - rewrite (assign_ids es i (Server.merged emp data ph) emp Hn eq_refl).
      exact Hnd.
    - rewrite Forall_forall in *. intros x Hx.
      apply assign_In in Hx. destruct Hx as [->|Hx]; [exact Hph | auto]. }
  destruct (get data (lit "phone")).
  - destruct (Server.throws _); [discriminate|].
    destruct (Nat.eqb _ 10) eqn:Hlen; [|discriminate].
    simpl in H. injection H as <-. apply K.
    apply Nat.eqb_eq in Hlen. apply (phoneDigits_ten data Hlen).
  - injection H as <-. apply K. exact Hemp.
Qed.

(** C4 at its failing input.  The collection holding the one valid record
    with id 1 satisfies the three invariants; PUT for id 1 with a body
    whose only field is an empty name is answered 200 and saves a
    collection whose record has an empty name, which does not satisfy
    them. *)
Theorem update_accepts_empty_name :
  invariant [Sample.numbered 1]
  /\ Server.update [Sample.numbered 1] 1 Sample.empty_name
     = Outcome (Response 200 (Record_body Sample.nameless))
               (Some [Sample.nameless])
  /\ valid_record Sample.nameless = false
  /\ ~ invariant [Sample.nameless].
Proof.
  split; [|split; [|split]].
  - split.
    + constructor; [intros [] | constructor].
    + constructor; [reflexivity | constructor].
  - reflexivity.
  - reflexivity.
  - intros [_ H]. inversion H as [|? ? Hv _]. discriminate.
Qed.

(** ** The create_employee tool *)

Lemma digits_exactly_spec (n : nat) (s : jsstring) :
  Mcp.digits_exactly n s = true
  <-> List.length s = n /\ forallb is_digit s = true.
Proof.
  revert s. induction n as [|n IH]; intros [|c s]; simpl;
    try (split; [discriminate | intros [H _]; discriminate]).
  - tauto.
  - rewrite !andb_true_iff, IH. split.
    + intros (Hc & Hl & Hs). auto.
    + intros (Hl & Hc & Hs). auto.
Qed.

Lemma phone_schema_spec (v : value) :
  Mcp.phone_schema v = true
  <-> exists p, v = Some (JStr p) /\ List.length p = 10%nat
                /\ forallb is_digit p = true.
Proof.
  split.
  - destruct v as [[| | |p| |]|]; try discriminate. intros H.
    apply digits_exactly_spec in H. exists p. tauto.
  - intros (p & -> & H). apply digits_exactly_spec. exact H.
Qed.

(** C10.  The create_employee tool does not normalize the phone: its
    schema accepts a phone if and only if it is a string of exactly ten
    digit characters, an input whose other fields pass is accepted if and
    only if its phone is such a string, an input the schema refuses never
    reaches the handler, and the handler stores the phone as given; so the
    request for Ann with the phone 555-123-4567, which the HTTP Create
    accepts and stores as 5551234567, is refused by the tool. *)
Theorem tool_create_keeps_phone_verbatim :
  forall (zod_email : jsstring -> bool) (es : list employee) (args : object),
    (forall v, Mcp.phone_schema v = true
               <-> exists p, v = Some (JStr p) /\ List.length p = 10%nat
                             /\ forallb is_digit p = true)
    /\ (Mcp.name_schema (get args (lit "name")) = true ->
        Mcp.email_schema zod_email (get args (lit "email")) = true ->
        Mcp.optional_string (get args (lit "role")) = true ->
        Mcp.optional_string (get args (lit "department")) = true ->
        Mcp.optional_number (get args (lit "salary")) = true ->
        Mcp.optional_string (get args (lit "date_of_joining")) = true ->
        Mcp.optional_string (get args (lit "status")) = true ->
        (Mcp.create_schema zod_email args = true
         <-> exists p, get args (lit "phone") = Some (JStr p)
                       /\ List.length p = 10%nat
                       /\ forallb is_digit p = true))
    /\ (Mcp.create_schema zod_email args = false ->
        Mcp.create_employee zod_email es args
        = Mcp.Reply Mcp.Invalid_arguments None)
    /\ (Mcp.create_schema zod_email args = true ->
        Mcp.phone_schema (get args (lit "phone")) = true
        /\ exists r,
             Mcp.create_employee zod_email es args
             = Mcp.Reply (Mcp.Text (lit "Employee created:" ++ [10%N]
                                    ++ JSON.stringify (to_json r)))
                         (Some (es ++ [r]))
             /\ phone r = get args (lit "phone"))
    /\ Mcp.create_employee zod_email es Sample.ann
       = Mcp.Reply Mcp.Invalid_arguments None
    /\ exists r,
         Server.create es Sample.ann
         = Outcome (Response 201 (Record_body r)) (Some (es ++ [r]))
         /\ phone r = str "5551234567".
Proof.
  intros zod_email es args.
  split; [apply phone_schema_spec|]. split; [|split; [|split; [|split]]].
  - intros Hn He Hr Hd Hs Hj Ht. unfold Mcp.create_schema.
    rewrite Hn, He, Hr, Hd, Hs, Hj, Ht, !andb_true_r. simpl.
    apply phone_schema_spec.
  - intros H. unfold Mcp.create_employee. rewrite H. reflexivity.
  - intros H. unfold Mcp.create_employee. rewrite H.
    split.
    + unfold Mcp.create_schema in H. rewrite !andb_true_iff in H. tauto.
    + eexists. split; reflexivity.
  - unfold Mcp.create_employee, Mcp.create_schema.
    replace (Mcp.phone_schema (get Sample.ann (lit "phone"))) with false
      by reflexivity.
    rewrite andb_false_r. reflexivity.
  - eexists. split; reflexivity.
Qed.

Lemma tool_create_keeps_phone_verbatim_witness :
  exists r,
    Mcp.create_employee (fun _ => true) []
      [(lit "name", JStr (lit "Ann")); (lit "email", JStr (lit "a@x.com"));
       (lit "phone", JStr (lit "5551234567"))]
    = Mcp.Reply (Mcp.Text (lit "Employee created:" ++ [10%N]
                           ++ JSON.stringify (to_json r)))
                (Some ([] ++ [r]))
    /\ phone r = str "5551234567".
Proof.
  destruct (tool_create_keeps_phone_verbatim (fun _ => true) []
              [(lit "name", JStr (lit "Ann"));
               (lit "email", JStr (lit "a@x.com"));
               (lit "phone", JStr (lit "5551234567"))])
    as (_ & Hiff & _ & Hacc & _).
  destruct Hacc as (_ & r & Hr & Hp).
  - apply Hiff; try reflexivity.
    exists (lit "5551234567"). repeat split.
  - exists r. split; [exact Hr | exact Hp].
Defined.

(** ** Loading the document *)

(** C8.  Loading gives the empty sequence whenever the backing document is
    absent, cannot be read, holds only whitespace or does not parse; for
    every state of the document it returns either the empty sequence or
    the value the text parses to, never a failure; the two servers load
    alike. *)
Theorem loadEmployees_never_fails :
  forall f : file,
    (f = Missing \/ f = Unreadable
     \/ (exists raw, f = Content raw
                     /\ (forallb is_white_space raw = true
                         \/ JSON.parse raw = None)) ->
     Server.loadEmployees f = JArr [])
    /\ (Server.loadEmployees f = JArr []
        \/ exists raw v, f = Content raw /\ JSON.parse raw = Some v
                         /\ Server.loadEmployees f = v)
    /\ Mcp.loadEmployees f = Server.loadEmployees f.
Proof.
  intros f. split; [|split; [|reflexivity]].
  - intros [->|[->|(raw & -> & H)]]; try reflexivity. simpl.
    destruct H as [H|H].
    + apply trim_nil_iff in H. rewrite H. reflexivity.
    + rewrite H. destruct (str_eqb (trim raw) []); reflexivity.
  - destruct f as [| |raw]; try (left; reflexivity). simpl.
    destruct (str_eqb (trim raw) []); [left; reflexivity|].
    destruct (JSON.parse raw) as [v|] eqn:E; [|left; reflexivity].
    right. exists raw, v. auto.
Qed.

Lemma loadEmployees_never_fails_witness :
  Server.loadEmployees Missing = JArr []
  /\ Server.loadEmployees (Content (lit "   ")) = JArr []
  /\ Server.loadEmployees (Content (lit "[{oops")) = JArr [].
Proof.
  split; [|split].
  - apply (proj1 (loadEmployees_never_fails Missing)). left. reflexivity.
  - apply (proj1 (loadEmployees_never_fails (Content (lit "   ")))).
    right. right. exists (lit "   "). split; [|left]; reflexivity.
  - apply (proj1 (loadEmployees_never_fails (Content (lit "[{oops")))).
    right. right. exists (lit "[{oops"). split; [|right]; reflexivity.
Defined.

(** ** Numbers in JSON text *)

Lemma code_digit_code (d : DecimalFacts.digits) :
  JSON.code_digit (digit_code d) = Some d.
Proof. destruct d; reflexivity. Qed.

(** What follows a number in the text the program writes is no digit and
    starts no fraction and no exponent. *)
Lemma follows_ends (rest : jsstring) :
  JSON.follows rest = true ->
  JSON.take_digits rest = ([], rest)
  /\ JSON.parse_fraction rest = Some ([], rest)
  /\ JSON.parse_exponent rest = Some (None, rest).
Proof.
  destruct rest as [|c rest]; [repeat split|]. simpl. intros Hf.
  apply orb_true_iff in Hf.
  destruct Hf as [Hf|Hf]; apply N.eqb_eq in Hf; subst; repeat split.
Qed.

Lemma take_digits_codes (ds : list DecimalFacts.digits) (rest : jsstring) :
  JSON.take_digits rest = ([], rest) ->
  JSON.take_digits (map digit_code ds ++ rest) = (ds, rest).
Proof.
  intros Hf. induction ds as [|d ds IH]; simpl; [exact Hf|].
  rewrite code_digit_code, IH. reflexivity.
Qed.

(** The decimal digits of a positive number do not start with a zero. *)
Lemma to_uint_head (p : positive) :
  exists d ds, DecimalFacts.to_list (Pos.to_uint p) = d :: ds
               /\ d <> DecimalFacts.d0.
Proof.
  pose proof (DecimalN.Unsigned.to_of (N.to_uint (Npos p))) as H.
  rewrite DecimalN.Unsigned.of_to in H. simpl in H.
  pose proof (DecimalPos.Unsigned.to_uint_nonzero p) as Hz.
  pose proof (DecimalFacts.nzhead_nonzero (Pos.to_uint p)) as Hnz.
  remember (Pos.to_uint p) as u eqn:Hu. clear Hu.
  unfold Decimal.unorm in H.
  destruct (Decimal.nzhead u) as [|w|w|w|w|w|w|w|w|w|w] eqn:E.
  - contradiction.
  - exfalso. apply (Hnz w). reflexivity.
  - rewrite H. exists DecimalFacts.d1, (DecimalFacts.to_list w).
    split; [reflexivity | discriminate].
  - rewrite H. exists DecimalFacts.d2, (DecimalFacts.to_list w).
    split; [reflexivity | discriminate].
  - rewrite H. exists DecimalFacts.d3, (DecimalFacts.to_list w).
    split; [reflexivity | discriminate].
  - rewrite H. exists DecimalFacts.d4, (DecimalFacts.to_list w).
    split; [reflexivity | discriminate].
  - rewrite H. exists DecimalFacts.d5, (DecimalFacts.to_list w).
    split; [reflexivity | discriminate].
  - rewrite H. exists DecimalFacts.d6, (DecimalFacts.to_list w).
    split; [reflexivity | discriminate].
  - rewrite H. exists DecimalFacts.d7, (DecimalFacts.to_list w).
    split; [reflexivity | discriminate].
  - rewrite H. exists DecimalFacts.d8, (DecimalFacts.to_list w).
    split; [reflexivity | discriminate].
  - rewrite H. exists DecimalFacts.d9, (DecimalFacts.to_list w).
    split; [reflexivity | discriminate].
Qed.

Lemma parse_int_digits (n : N) (rest : jsstring) :
  JSON.take_digits rest = ([], rest) ->
  JSON.parse_int (digits_of_N n ++ rest) = Some (n, rest).
Proof.
  intros Hf. destruct n as [|p]; [reflexivity|].
  unfold digits_of_N. simpl N.to_uint.
  destruct (to_uint_head p) as (d & ds & E & Hd).
  pose proof (take_digits_codes (d :: ds) rest Hf) as Ht.
  rewrite E. simpl map in *. simpl app in *. unfold JSON.parse_int.
  rewrite Ht.
  replace (N.eqb (digit_code d) 48) with false
    by (destruct d; try reflexivity; congruence).
  replace (is_digit (digit_code d)) with true by (destruct d; reflexivity).
  rewrite <- E, DecimalFacts.of_list_to_list.
  change (Pos.to_uint p) with (N.to_uint (Npos p)).
  rewrite DecimalN.Unsigned.of_to. reflexivity.
Qed.

Lemma digits_of_N_head (n : N) :
  exists c r, digits_of_N n = c :: r /\ is_digit c = true.
Proof.
  destruct n as [|p].
  - exists 48%N, []. split; reflexivity.
  - unfold digits_of_N. simpl N.to_uint.
    destruct (to_uint_head p) as (d & ds & E & _). rewrite E. simpl.
    eexists; eexists; split; [reflexivity|]. destruct d; reflexivity.
Qed.

(** The digits of an exact number are read back as the number. *)
(** A literal of digits alone is read as the integer it denotes. *)
Lemma literal_value_integer (negative : bool) (n : N) :
  exact (Z.of_N n) = true ->
  JSON.literal_value negative n [] None
  = if negative then Z.opp (Z.of_N n) else Z.of_N n.
Proof.
  intros H. unfold JSON.literal_value. cbv zeta.
  change (Z.of_nat (List.length (@nil DecimalFacts.digits))) with 0%Z.
  change (Z.of_N (N.of_uint (DecimalFacts.of_list []))) with 0%Z.
  change (0 - 0)%Z with 0%Z. change (Z.max 0 (- 0)) with 0%Z.
  change (Z.max 0 0) with 0%Z. change (10 ^ 0)%Z with 1%Z.
  rewrite !Z.mul_1_r, Z.add_0_r, Z.mod_1_r, Z.div_1_r, H. reflexivity.
Qed.

Lemma parse_number_digits (z : Z) (rest : jsstring) :
  exact z = true ->
  JSON.take_digits rest = ([], rest) ->
  JSON.parse_fraction rest = Some ([], rest) ->
  JSON.parse_exponent rest = Some (None, rest) ->
  JSON.parse_number (Number_toString z ++ rest) = Some (z, rest).
Proof.
  intros Hz Hd Hfr Hex.
  destruct z as [|p|p]; unfold Number_toString.
  - unfold JSON.parse_number. cbn [digits_of_N app].
    change (digits_of_N 0) with [48%N]. cbn [app]. simpl N.eqb. cbv zeta.
    cbn [JSON.parse_int]. simpl N.eqb. cbv iota.
    rewrite Hfr, Hex, literal_value_integer by exact Hz. reflexivity.
  - destruct (digits_of_N_head (Npos p)) as (c & r & E & Hc).
    pose proof (parse_int_digits (Npos p) rest Hd) as Hp.
    rewrite E in *. simpl app in *. unfold JSON.parse_number. cbv zeta.
    replace (N.eqb c 45) with false
      by (symmetry; apply N.eqb_neq; intros ->; discriminate).
    rewrite Hp, Hfr, Hex, literal_value_integer by exact Hz. reflexivity.
  - simpl app. unfold JSON.parse_number. cbv zeta. simpl N.eqb. cbv iota.
    rewrite (parse_int_digits (Npos p) rest Hd), Hfr, Hex.
    rewrite literal_value_integer by exact Hz. reflexivity.
Qed.

Lemma parse_number_toString (z : Z) (rest : jsstring) :
  exact z = true -> JSON.follows rest = true ->
  JSON.parse_number (Number_toString z ++ rest) = Some (z, rest).
Proof.
  intros Hz Hf. destruct (follows_ends rest Hf) as (A & B & C).
  apply parse_number_digits; assumption.
Qed.

(** A written number is finite. *)
Lemma exact_finite (z : Z) :
  exact z = true -> Z.eqb (Z.abs z) Infinity = false.
Proof.
  unfold exact. intros H. apply Z.leb_le in H. apply Z.eqb_neq.
  assert (2 ^ 53 < Infinity)%Z by (vm_compute; reflexivity). lia.
Qed.

(** ** Strings in JSON text *)

Lemma unhex_hex_digit (n : N) :
  (n < 16)%N -> JSON.unhex (JSON.hex_digit n) = Some n.
Proof.
  intros H. destruct n as [|p]; [reflexivity|].
  do 4 (destruct p as [p|p|]; try reflexivity); lia.
Qed.

Lemma hex_digits_value (c : N) :
  (c / 4096 * 4096 + (c / 256) mod 16 * 256 + (c / 16) mod 16 * 16
   + c mod 16 = c)%N.
Proof.
  replace (c / 4096)%N with (c / 16 / 16 / 16)%N
    by (rewrite !N.Div0.div_div; reflexivity).
  replace (c / 256)%N with (c / 16 / 16)%N
    by (rewrite !N.Div0.div_div; reflexivity).
  pose proof (N.div_mod c 16).
  pose proof (N.div_mod (c / 16) 16).
  pose proof (N.div_mod (c / 16 / 16) 16).
  generalize dependent (c mod 16)%N.
  generalize dependent ((c / 16) mod 16)%N.
  generalize dependent ((c / 16 / 16) mod 16)%N.
  generalize dependent (c / 16 / 16 / 16)%N.
  generalize dependent (c / 16 / 16)%N.
  generalize dependent (c / 16)%N. intros. lia.
Qed.

Lemma unhex4_escape (c : N) :
  is_code_unit c = true ->
  JSON.unhex4 (JSON.hex_digit (c / 4096)) (JSON.hex_digit ((c / 256) mod 16))
    (JSON.hex_digit ((c / 16) mod 16)) (JSON.hex_digit (c mod 16))
  = Some c.
Proof.
  unfold is_code_unit. intros H. apply N.ltb_lt in H.
  unfold JSON.unhex4.
  rewrite !unhex_hex_digit;
    try (apply N.mod_lt; discriminate);
    try (apply N.Div0.div_lt_upper_bound; exact H).
  f_equal. apply hex_digits_value.
Qed.

Lemma parse_units_unicode (c : N) (t : jsstring) :
  is_code_unit c = true ->
  JSON.parse_units (JSON.unicode_escape c ++ t)
  = JSON.cons_unit c (JSON.parse_units t).
Proof.
  intros H. unfold JSON.unicode_escape.
  change (JSON.parse_units
            ([92; 117; JSON.hex_digit (c / 4096);
              JSON.hex_digit ((c / 256) mod 16);
              JSON.hex_digit ((c / 16) mod 16);
              JSON.hex_digit (c mod 16)]%N ++ t))
    with (match JSON.unhex4 (JSON.hex_digit (c / 4096))
                  (JSON.hex_digit ((c / 256) mod 16))
                  (JSON.hex_digit ((c / 16) mod 16))
                  (JSON.hex_digit (c mod 16)) with
          | Some u => JSON.cons_unit u (JSON.parse_units t)
          | None => None
          end).
  rewrite (unhex4_escape c H). reflexivity.
Qed.

Lemma parse_units_plain (c : N) (t : jsstring) :
  c <> 34%N -> c <> 92%N -> (32 <= c)%N ->
  JSON.parse_units (c :: t) = JSON.cons_unit c (JSON.parse_units t).
Proof.
  intros H1 H2 H3. simpl.
  apply N.eqb_neq in H1, H2. rewrite H1, H2.
  replace (N.ltb c 32) with false by (symmetry; apply N.ltb_ge; exact H3).
  reflexivity.
Qed.

Lemma parse_units_escape (c : N) (t : jsstring) :
  is_code_unit c = true ->
  JSON.parse_units (JSON.escape_unit c ++ t)
  = JSON.cons_unit c (JSON.parse_units t).
Proof.
  intros H. unfold JSON.escape_unit.
  repeat match goal with
         | |- context [N.eqb c ?k] =>
             destruct (N.eqb_spec c k) as [->|?]; [reflexivity|]
         end.
  destruct (N.ltb_spec c 32).
  - apply parse_units_unicode. exact H.
  - apply parse_units_plain; assumption.
Qed.

Lemma surrogate_plain (c : N) :
  JSON.is_high_surrogate c = true \/ JSON.is_low_surrogate c = true ->
  c <> 34%N /\ c <> 92%N /\ (32 <= c)%N.
Proof.
  unfold JSON.is_high_surrogate, JSON.is_low_surrogate.
  intros [H|H]; apply andb_true_iff in H; destruct H as [H1 H2];
    apply N.leb_le in H1, H2; lia.
Qed.

(** Reading back a quoted string gives the string. *)
Lemma parse_units_quote (s rest : jsstring) :
  forallb is_code_unit s = true ->
  JSON.parse_units (JSON.quote_units s ++ 34%N :: rest) = Some (s, rest).
Proof.
  remember (List.length s) as n eqn:Hn. revert s Hn.
  induction n as [n IH] using lt_wf_ind. intros s Hn Hs.
  destruct s as [|c s1]; [reflexivity|].
  simpl in Hs. apply andb_true_iff in Hs. destruct Hs as [Hc Hs1].
  assert (IH1 : JSON.parse_units (JSON.quote_units s1 ++ 34%N :: rest)
                = Some (s1, rest)).
  { apply (IH (List.length s1)); [subst n; simpl; lia | reflexivity | exact Hs1]. }
  cbn [JSON.quote_units].
  destruct (JSON.is_high_surrogate c) eqn:Hh.
  - destruct s1 as [|d s2].
    + rewrite parse_units_unicode by exact Hc. reflexivity.
    + destruct (JSON.is_low_surrogate d) eqn:Hl.
      * simpl in Hs1. apply andb_true_iff in Hs1. destruct Hs1 as [Hd Hs2].
        destruct (surrogate_plain c (or_introl Hh)) as (A1 & A2 & A3).
        destruct (surrogate_plain d (or_intror Hl)) as (B1 & B2 & B3).
        cbn [app]. rewrite parse_units_plain, parse_units_plain by assumption.
        rewrite (IH (List.length s2)); [reflexivity | | reflexivity | exact Hs2].
        subst n. simpl. lia.
      * rewrite <- app_assoc, parse_units_unicode, IH1 by exact Hc.
        reflexivity.
  - destruct (JSON.is_low_surrogate c).
    + rewrite <- app_assoc, parse_units_unicode, IH1 by exact Hc.
      reflexivity.
    + rewrite <- app_assoc, parse_units_escape, IH1 by exact Hc.
      reflexivity.
Qed.

(** ** Values in JSON text *)

Lemma skip_ws_app (ws s : jsstring) :
  forallb JSON.is_json_ws ws = true -> JSON.skip_ws (ws ++ s) = JSON.skip_ws s.
Proof.
  induction ws as [|c ws IH]; simpl; [reflexivity|]. intros H.
  apply andb_true_iff in H. destruct H as [Hc Hws]. rewrite Hc. auto.
Qed.

Lemma skip_ws_head (c : N) (s : jsstring) :
  JSON.is_json_ws c = false -> JSON.skip_ws (c :: s) = c :: s.
Proof. intros H. simpl. rewrite H. reflexivity. Qed.

Lemma spaces_ws (n : nat) : forallb JSON.is_json_ws (JSON.spaces n) = true.
Proof. induction n as [|n IH]; simpl; auto. Qed.

Lemma indent_ws (n : nat) :
  forallb JSON.is_json_ws (10%N :: JSON.spaces n) = true.
Proof. simpl. apply spaces_ws. Qed.

Lemma parse_value_ws (fuel : nat) (ws s : jsstring) :
  forallb JSON.is_json_ws ws = true ->
  JSON.parse_value fuel (ws ++ s) = JSON.parse_value fuel s.
Proof.
  intros H. destruct fuel as [|f]; [reflexivity|].
  simpl. rewrite (skip_ws_app ws s H). reflexivity.
Qed.

Lemma parse_members_ws (fuel : nat) (ws s : jsstring) (acc : object) :
  forallb JSON.is_json_ws ws = true ->
  JSON.parse_members fuel (ws ++ s) acc = JSON.parse_members fuel s acc.
Proof.
  intros H. destruct fuel as [|f]; [reflexivity|].
  simpl. rewrite (skip_ws_app ws s H). reflexivity.
Qed.

Lemma digit_bounds (c : N) : is_digit c = true -> (48 <= c <= 57)%N.
Proof.
  unfold is_digit. intros H. apply andb_true_iff in H.
  destruct H as [H1 H2]. apply N.leb_le in H1, H2. lia.
Qed.

Lemma Number_toString_head (z : Z) :
  exists c r, Number_toString z = c :: r
              /\ (c = 45%N \/ is_digit c = true).
Proof.
  destruct z as [|p|p]; unfold Number_toString.
  - destruct (digits_of_N_head 0) as (c & r & E & H). eauto.
  - destruct (digits_of_N_head (Npos p)) as (c & r & E & H). eauto.
  - eauto.
Qed.

(** Every serialized value starts with a character that is neither
    whitespace nor a closing bracket. *)
Lemma serialize_head (d : nat) (v : json) :
  exists c r, JSON.SerializeJSONProperty d v = c :: r
              /\ JSON.is_json_ws c = false /\ is_white_space c = false
              /\ c <> 93%N /\ c <> 125%N.
Proof.
  destruct v as [|[|]|z|s|[|x l]|[|kv m]];
    try (eexists; eexists; split; [reflexivity|];
         repeat split; discriminate).
  cbn [JSON.SerializeJSONProperty].
  destruct (Z.eqb (Z.abs z) Infinity);
    [eexists; eexists; split; [reflexivity|]; repeat split; discriminate|].
  destruct (Number_toString_head z) as (c & r & E & [->|H]).
  - exists 45%N, r. repeat split; try assumption; discriminate.
  - exists c, r. apply digit_bounds in H. split; [exact E|].
    unfold JSON.is_json_ws, is_white_space.
    repeat split; try lia;
      repeat (apply orb_false_iff; split);
      try (apply N.eqb_neq; lia);
      apply andb_false_iff;
      first [left; apply N.leb_gt; lia | right; apply N.leb_gt; lia].
Qed.

Lemma parse_value_number (f : nat) (c : N) (t : jsstring) :
  c = 45%N \/ is_digit c = true ->
  JSON.parse_value (S f) (c :: t)
  = match JSON.parse_number (c :: t) with
    | Some (n, rest) => Some (JNum n, rest)
    | None => None
    end.
Proof.
  intros [->|H]; [reflexivity|]. apply digit_bounds in H.
  assert (W : JSON.is_json_ws c = false).
  { unfold JSON.is_json_ws. repeat (apply orb_false_iff; split);
      apply N.eqb_neq; lia. }
  cbn [JSON.parse_value]. rewrite (skip_ws_head c t W).
  repeat match goal with
         | |- context [N.eqb c ?k] =>
             replace (N.eqb c k) with false
               by (symmetry; apply N.eqb_neq; lia)
         end.
  reflexivity.
Qed.

Lemma parse_value_array (f : nat) (s1 t : jsstring) (c : N) :
  JSON.skip_ws s1 = c :: t -> c <> 93%N ->
  JSON.parse_value (S f) (91%N :: s1) = JSON.parse_elements f s1 [].
Proof.
  intros Hs Hc. cbn [JSON.parse_value]. rewrite (skip_ws_head 91 s1 eq_refl).
  simpl N.eqb. cbv iota. rewrite Hs.
  apply N.eqb_neq in Hc. rewrite Hc. reflexivity.
Qed.

Lemma parse_value_object (f : nat) (s1 t : jsstring) (c : N) :
  JSON.skip_ws s1 = c :: t -> c <> 125%N ->
  JSON.parse_value (S f) (123%N :: s1) = JSON.parse_members f s1 [].
Proof.
  intros Hs Hc. cbn [JSON.parse_value]. rewrite (skip_ws_head 123 s1 eq_refl).
  simpl N.eqb. cbv iota. rewrite Hs.
  apply N.eqb_neq in Hc. rewrite Hc. reflexivity.
Qed.

Lemma join_cons2 (sep a b : jsstring) (l : list jsstring) (t : jsstring) :
  join sep (a :: b :: l) ++ t = a ++ sep ++ (join sep (b :: l) ++ t).
Proof.
  change (join sep (a :: b :: l)) with (a ++ sep ++ join sep (b :: l)).
  rewrite <- !app_assoc. reflexivity.
Qed.

Lemma skip_ws_indent (n : nat) (c : N) (t : jsstring) :
  JSON.is_json_ws c = false ->
  JSON.skip_ws (10%N :: JSON.spaces n ++ c :: t) = c :: t.
Proof.
  intros H. change (JSON.skip_ws ((10%N :: JSON.spaces n) ++ c :: t) = c :: t).
  rewrite skip_ws_app by apply indent_ws. apply skip_ws_head. exact H.
Qed.

(** The elements of an array, each on its line. *)
Lemma parse_elements_text (i d : nat) (l : list json) :
  Forall JSON.reads_back l -> l <> [] ->
  forall (acc : list json) (f : nat) (rest : jsstring),
    (list_sum (map (fun x => S (JSON.size x)) l) <= f)%nat ->
    JSON.parse_elements f
      (10%N :: JSON.spaces i
       ++ join (44%N :: 10%N :: JSON.spaces i)
            (map (JSON.SerializeJSONProperty i) l)
       ++ 10%N :: JSON.spaces d ++ 93%N :: rest) acc
    = Some (JArr (acc ++ l), rest).
Proof.
  induction l as [|x l IH]; [congruence|].
  intros HP _ acc f rest Hf.
  inversion HP as [|? ? Hx Hl]; subst.
  destruct f as [|f]; [simpl in Hf; lia|].
  simpl in Hf. cbn [JSON.parse_elements].
  change (10%N :: JSON.spaces i ++ ?t) with ((10%N :: JSON.spaces i) ++ t).
  rewrite parse_value_ws by apply indent_ws.
  destruct l as [|y l].
  - cbn [map join].
    rewrite (Hx i (10%N :: JSON.spaces d ++ 93%N :: rest) f eq_refl) by lia.
    rewrite skip_ws_indent by reflexivity. reflexivity.
  - cbn [map]. rewrite join_cons2.
    rewrite (Hx i ((44%N :: 10%N :: JSON.spaces i) ++ _) f eq_refl) by lia.
    cbn [app]. rewrite skip_ws_head by reflexivity. simpl N.eqb. cbv iota.
    change (JSON.SerializeJSONProperty i y :: map (JSON.SerializeJSONProperty i) l)
      with (map (JSON.SerializeJSONProperty i) (y :: l)).
    rewrite (IH Hl) by (try discriminate; simpl; simpl in Hf; lia).
    rewrite <- app_assoc. reflexivity.
Qed.

Lemma existsb_str_eqb (k : jsstring) (ks : list jsstring) :
  existsb (str_eqb k) ks = true <-> In k ks.
Proof.
  rewrite existsb_exists. split.
  - intros (x & Hx & E). apply str_eqb_eq in E. subst. exact Hx.
  - intros H. exists k. split; [exact H | apply str_eqb_refl].
Qed.

Lemma nodup_keys_NoDup (ks : list jsstring) :
  nodup_keys ks = true <-> NoDup ks.
Proof.
  induction ks as [|k ks IH]; simpl.
  - split; [constructor | reflexivity].
  - rewrite andb_true_iff, negb_true_iff, IH. split.
    + intros [H1 H2]. constructor; [|exact H2].
      intros Hin. apply existsb_str_eqb in Hin. congruence.
    + intros H. inversion H as [|? ? Hnot Hnd]; subst. split; [|exact Hnd].
      destruct (existsb (str_eqb k) ks) eqn:E; [|reflexivity].
      apply existsb_str_eqb in E. contradiction.
Qed.

Lemma set_fresh (acc : object) (k : jsstring) (v : json) :
  key k = true -> ~ In k (map fst acc) -> set acc k v = acc ++ [(k, v)].
Proof.
  intros Hk. unfold key in Hk. apply andb_true_iff in Hk.
  destruct Hk as [_ Hk]. apply negb_true_iff in Hk.
  unfold set. rewrite Hk.
  induction acc as [|[k' v'] acc IH]; simpl; intros H; [reflexivity|].
  destruct (str_eqb k k') eqn:E.
  - apply str_eqb_eq in E. subst. tauto.
  - rewrite IH by tauto. reflexivity.
Qed.

Lemma key_units (k : jsstring) :
  key k = true -> forallb is_code_unit k = true.
Proof.
  unfold key. intros H. apply andb_true_iff in H. tauto.
Qed.

Lemma member_text (k body t : jsstring) :
  (JSON.QuoteJSONString k ++ 58%N :: 32%N :: body) ++ t
  = 34%N :: JSON.quote_units k ++ 34%N :: 58%N :: 32%N :: (body ++ t).
Proof.
  unfold JSON.QuoteJSONString. cbn [app]. rewrite <- !app_assoc. reflexivity.
Qed.

(** One member of an object: the key, the colon, the value, and then a
    comma or the closing brace. *)
Lemma parse_members_step (f i : nat) (k : jsstring) (v : json)
      (t : jsstring) (acc : object) :
  forallb is_code_unit k = true -> JSON.reads_back v ->
  (JSON.size v <= f)%nat -> JSON.follows t = true ->
  JSON.parse_members (S f)
    (34%N :: JSON.quote_units k
     ++ 34%N :: 58%N :: 32%N :: (JSON.SerializeJSONProperty i v ++ t)) acc
  = match JSON.skip_ws t with
    | e :: s5 =>
        if N.eqb e 44 then JSON.parse_members f s5 (set acc k v)
        else if N.eqb e 125 then Some (JObj (set acc k v), s5)
        else None
    | [] => None
    end.
Proof.
  intros Hk Hv Hf Ht. cbn [JSON.parse_members].
  rewrite skip_ws_head by reflexivity. simpl N.eqb. cbv iota.
  rewrite (parse_units_quote k _ Hk).
  rewrite skip_ws_head by reflexivity. simpl N.eqb. cbv iota.
  change (32%N :: JSON.SerializeJSONProperty i v ++ t)
    with ([32%N] ++ JSON.SerializeJSONProperty i v ++ t).
  rewrite parse_value_ws by reflexivity.
  rewrite (Hv i t f Ht Hf). reflexivity.
Qed.

(** The members of an object, each on its line. *)
Lemma parse_members_text (i d : nat) (m : object) :
  Forall (fun kv => JSON.reads_back (snd kv)) m -> m <> [] ->
  forallb (fun kv => key (fst kv)) m = true ->
  forall (acc : object) (f : nat) (rest : jsstring),
    NoDup (map fst (acc ++ m)) ->
    (list_sum (map (fun kv => S (JSON.size (snd kv))) m) <= f)%nat ->
    JSON.parse_members f
      (10%N :: JSON.spaces i
       ++ join (44%N :: 10%N :: JSON.spaces i)
            (map (fun kv => JSON.QuoteJSONString (fst kv)
                            ++ 58%N :: 32%N
                            :: JSON.SerializeJSONProperty i (snd kv)) m)
       ++ 10%N :: JSON.spaces d ++ 125%N :: rest) acc
    = Some (JObj (acc ++ m), rest).
Proof.
  induction m as [|[k v] m IH]; [congruence|].
  intros HP _ Hk acc f rest Hnd Hf.
  inversion HP as [|? ? Hv Hm]; subst. simpl in Hv.
  simpl in Hk. apply andb_true_iff in Hk. destruct Hk as [Hk Hks].
  destruct f as [|f]; [simpl in Hf; lia|]. simpl in Hf.
  assert (Hfresh : ~ In k (map fst acc)).
  { rewrite map_app in Hnd. simpl in Hnd.
    apply NoDup_remove_2 in Hnd. intros Hin. apply Hnd.
    apply in_or_app. left. exact Hin. }
  change (10%N :: JSON.spaces i ++ ?t) with ((10%N :: JSON.spaces i) ++ t).
  rewrite parse_members_ws by apply indent_ws.
  destruct m as [|kv m].
  - cbn [map join fst snd]. rewrite member_text.
    rewrite parse_members_step by (auto using key_units; lia).
    rewrite skip_ws_indent by reflexivity. simpl N.eqb. cbv iota.
    rewrite set_fresh by assumption. reflexivity.
  - cbn [map]. rewrite join_cons2. cbn [fst snd]. rewrite member_text.
    rewrite parse_members_step by (auto using key_units; lia).
    cbn [app]. rewrite skip_ws_head by reflexivity. simpl N.eqb. cbv iota.
    rewrite set_fresh by assumption.
    match goal with
    | |- context [?a :: map ?g m] => change (a :: map g m) with (map g (kv :: m))
    end.
    rewrite (IH Hm); try discriminate; try exact Hks.
    + rewrite <- app_assoc. reflexivity.
    + rewrite <- app_assoc. exact Hnd.
    + simpl. simpl in Hf. lia.
Qed.

Lemma parse_value_needs_fuel (v : json) (fuel : nat) :
  (JSON.size v <= fuel)%nat -> exists f, fuel = S f.
Proof.
  destruct fuel as [|f]; [|eauto]. destruct v; simpl; lia.
Qed.

Lemma array_text (d : nat) (x : json) (l : list json) (rest : jsstring) :
  JSON.SerializeJSONProperty d (JArr (x :: l)) ++ rest
  = 91%N :: 10%N :: JSON.spaces (d + JSON.gap)
    ++ join (44%N :: 10%N :: JSON.spaces (d + JSON.gap))
         (map (JSON.SerializeJSONProperty (d + JSON.gap)) (x :: l))
    ++ 10%N :: JSON.spaces d ++ 93%N :: rest.
Proof.
  cbn [JSON.SerializeJSONProperty]. cbv zeta. cbn [app].
  rewrite <- !app_assoc. cbn [app]. rewrite <- app_assoc. reflexivity.
Qed.

Lemma object_text (d : nat) (kv : jsstring * json) (m : object)
      (rest : jsstring) :
  JSON.SerializeJSONProperty d (JObj (kv :: m)) ++ rest
  = 123%N :: 10%N :: JSON.spaces (d + JSON.gap)
    ++ join (44%N :: 10%N :: JSON.spaces (d + JSON.gap))
         (map (fun kv => JSON.QuoteJSONString (fst kv)
                         ++ 58%N :: 32%N
                         :: JSON.SerializeJSONProperty (d + JSON.gap) (snd kv))
              (kv :: m))
    ++ 10%N :: JSON.spaces d ++ 125%N :: rest.
Proof.
  cbn [JSON.SerializeJSONProperty]. cbv zeta. cbn [app].
  rewrite <- !app_assoc. cbn [app]. rewrite <- app_assoc. reflexivity.
Qed.

Lemma skip_ws_elements (i : nat) (x : json) (l : list json) (tail : jsstring) :
  exists c t,
    JSON.skip_ws (10%N :: JSON.spaces i
                  ++ join (44%N :: 10%N :: JSON.spaces i)
                       (map (JSON.SerializeJSONProperty i) (x :: l))
                  ++ tail) = c :: t
    /\ c <> 93%N.
Proof.
  destruct (serialize_head i x) as (c & r & E & W & _ & N1 & _).
  destruct l as [|y l].
  - cbn [map join]. rewrite E. cbn [app].
    rewrite skip_ws_indent by exact W. eauto.
  - cbn [map]. rewrite join_cons2, E. cbn [app].
    rewrite skip_ws_indent by exact W. eauto.
Qed.

Lemma skip_ws_members (i : nat) (kv : jsstring * json) (m : object)
      (tail : jsstring) :
  exists t,
    JSON.skip_ws (10%N :: JSON.spaces i
                  ++ join (44%N :: 10%N :: JSON.spaces i)
                       (map (fun kv => JSON.QuoteJSONString (fst kv)
                                       ++ 58%N :: 32%N
                                       :: JSON.SerializeJSONProperty i (snd kv))
                            (kv :: m))
                  ++ tail) = 34%N :: t.
Proof.
  destruct m as [|kv' m].
  - cbn [map join]. rewrite member_text.
    rewrite skip_ws_indent by reflexivity. eauto.
  - cbn [map]. rewrite join_cons2, member_text.
    rewrite skip_ws_indent by reflexivity. eauto.
Qed.

(** Every well-formed value is read back from its text. *)
Lemma serialize_reads_back (v : json) :
  well_formed v = true -> JSON.reads_back v.
Proof.
  induction v as [|b|z|s|l IH|m IH] using json_ind;
    intros Hwf d rest fuel Hr Hf;
    destruct (parse_value_needs_fuel _ _ Hf) as (f & ->).
  - reflexivity.
  - destruct b; reflexivity.
  - destruct (Number_toString_head z) as (c & r & E & Hc).
    cbn [JSON.SerializeJSONProperty]. rewrite (exact_finite z Hwf).
    pose proof (parse_number_toString z rest Hwf Hr) as Hn.
    rewrite E in *. cbn [app] in *.
    rewrite (parse_value_number f c _ Hc), Hn. reflexivity.
  - cbn [JSON.SerializeJSONProperty]. unfold JSON.QuoteJSONString.
    cbn [app JSON.parse_value].
    rewrite skip_ws_head by reflexivity. simpl N.eqb. cbv iota.
    rewrite <- app_assoc. cbn [app].
    rewrite (parse_units_quote s rest Hwf). reflexivity.
  - destruct l as [|x l]; [reflexivity|].
    assert (HP : Forall JSON.reads_back (x :: l)).
    { change (forallb well_formed (x :: l) = true) in Hwf.
      rewrite forallb_forall in Hwf. rewrite Forall_forall in *.
      intros y Hy. apply IH; auto. }
    rewrite array_text.
    destruct (skip_ws_elements (d + JSON.gap) x l
                (10%N :: JSON.spaces d ++ 93%N :: rest)) as (c & t & E & N1).
    rewrite (parse_value_array f _ t c E N1).
    apply (parse_elements_text (d + JSON.gap) d (x :: l) HP);
      [discriminate | simpl in Hf; simpl; lia].
  - destruct m as [|kv m]; [reflexivity|].
    change (nodup_keys (map fst (kv :: m))
            && forallb (fun kv => key (fst kv)
                                  && well_formed (snd kv)) (kv :: m) = true)
      in Hwf.
    apply andb_true_iff in Hwf. destruct Hwf as [Hnd Hall].
    rewrite forallb_forall in Hall.
    assert (HP : Forall (fun kv => JSON.reads_back (snd kv)) (kv :: m)).
    { rewrite Forall_forall in *. intros y Hy. apply IH; [exact Hy|].
      specialize (Hall y Hy). apply andb_true_iff in Hall. tauto. }
    rewrite object_text.
    destruct (skip_ws_members (d + JSON.gap) kv m
                (10%N :: JSON.spaces d ++ 125%N :: rest)) as (t & E).
    rewrite (parse_value_object f _ t 34 E) by discriminate.
    apply (parse_members_text (d + JSON.gap) d (kv :: m) HP).
    + discriminate.
    + apply forallb_forall. intros y Hy. specialize (Hall y Hy).
      apply andb_true_iff in Hall. tauto.
    + apply nodup_keys_NoDup. exact Hnd.
    + simpl in Hf. simpl. lia.
Qed.

(** *** The text is long enough to be its own fuel *)

Lemma join_length (sep : jsstring) (l : list jsstring) :
  l <> [] ->
  (List.length (join sep l) + List.length sep
   = list_sum (map (fun x => List.length x + List.length sep) l))%nat.
Proof.
  induction l as [|x l IH]; [congruence|]. intros _.
  destruct l as [|y l].
  - simpl. lia.
  - specialize (IH ltac:(discriminate)).
    change (join sep (x :: y :: l)) with (x ++ sep ++ join sep (y :: l)).
    rewrite !length_app. unfold list_sum in *. cbn [map fold_right] in *. lia.
Qed.

Lemma list_sum_le (A : Type) (f g : A -> nat) (l : list A) :
  Forall (fun x => (f x <= g x)%nat) l ->
  (list_sum (map f l) <= list_sum (map g l))%nat.
Proof.
  induction 1 as [|x l Hx Hl IH]; simpl; lia.
Qed.

Lemma spaces_length (n : nat) : List.length (JSON.spaces n) = n.
Proof. apply repeat_length. Qed.

Lemma size_le_text (v : json) (d : nat) :
  (JSON.size v <= List.length (JSON.SerializeJSONProperty d v))%nat.
Proof.
  revert d.
  induction v as [|b|z|s|l IH|m IH] using json_ind; intros d.
  - simpl. lia.
  - destruct b; simpl; lia.
  - destruct (serialize_head d (JNum z)) as (c & r & E & _).
    rewrite E. simpl. lia.
  - simpl. lia.
  - destruct l as [|x l]; [simpl; lia|].
    pose proof (array_text d x l []) as E. rewrite app_nil_r in E.
    rewrite E. cbn [List.length JSON.size]. rewrite !length_app.
    cbn [List.length]. rewrite length_app, !spaces_length.
    pose proof (join_length (44%N :: 10%N :: JSON.spaces (d + JSON.gap))
                  (map (JSON.SerializeJSONProperty (d + JSON.gap)) (x :: l)))
      as J.
    rewrite map_map in J. cbn [List.length] in J. rewrite spaces_length in J.
    specialize (J ltac:(discriminate)).
    assert (L : (list_sum (map (fun y => S (JSON.size y)) (x :: l))
                 <= list_sum
                      (map (fun y =>
                              List.length
                                (JSON.SerializeJSONProperty (d + JSON.gap) y)
                              + S (S (d + JSON.gap))) (x :: l)))%nat).
    { apply list_sum_le. rewrite Forall_forall in *. intros y Hy.
      specialize (IH y Hy (d + JSON.gap)%nat). lia. }
    simpl in L, J |- *. lia.
  - destruct m as [|kv m]; [simpl; lia|].
    pose proof (object_text d kv m []) as E. rewrite app_nil_r in E.
    rewrite E. cbn [List.length JSON.size]. rewrite !length_app.
    cbn [List.length]. rewrite length_app, !spaces_length.
    pose proof (join_length (44%N :: 10%N :: JSON.spaces (d + JSON.gap))
                  (map (fun kv => JSON.QuoteJSONString (fst kv)
                                  ++ 58%N :: 32%N
                                  :: JSON.SerializeJSONProperty (d + JSON.gap)
                                       (snd kv)) (kv :: m)))
      as J.
    rewrite map_map in J. cbn [List.length] in J. rewrite spaces_length in J.
    specialize (J ltac:(discriminate)).
    assert (L : (list_sum (map (fun y => S (JSON.size (snd y))) (kv :: m))
                 <= list_sum
                      (map (fun y =>
                              List.length
                                (JSON.QuoteJSONString (fst y)
                                 ++ 58%N :: 32%N
                                 :: JSON.SerializeJSONProperty (d + JSON.gap)
                                      (snd y))
                              + S (S (d + JSON.gap))) (kv :: m)))%nat).
    { apply list_sum_le. rewrite Forall_forall in *. intros y Hy.
      specialize (IH y Hy (d + JSON.gap)%nat).
      rewrite length_app. cbn [List.length]. lia. }
    simpl in L, J |- *. lia.
Qed.

(** Parsing the text of a well-formed value gives the value. *)
Lemma parse_stringify (v : json) :
  well_formed v = true -> JSON.parse (JSON.stringify v) = Some v.
Proof.
  intros Hwf. unfold JSON.parse, JSON.stringify.
  pose proof (serialize_reads_back v Hwf 0 []
                (S (List.length (JSON.SerializeJSONProperty 0 v))) eq_refl)
    as H.
  rewrite app_nil_r in H. rewrite H; [reflexivity|].
  pose proof (size_le_text v 0). lia.
Qed.

Lemma stringify_not_blank (v : json) : trim (JSON.stringify v) <> [].
Proof.
  intros H. apply trim_nil_iff in H. unfold JSON.stringify in H.
  destruct (serialize_head 0 v) as (c & r & E & _ & W & _).
  rewrite E in H. simpl in H. rewrite W in H. discriminate.
Qed.

(** *** The text survives its encoding *)

Lemma stored_nil : stored_verbatim [].
Proof. intros t. reflexivity. Qed.

Lemma stored_app (a b : jsstring) :
  stored_verbatim a -> stored_verbatim b -> stored_verbatim (a ++ b).
Proof.
  intros Ha Hb t. rewrite <- !app_assoc, Ha, Hb. reflexivity.
Qed.

Lemma stored_plain (c : N) (a : jsstring) :
  plain c = true -> stored_verbatim a -> stored_verbatim (c :: a).
Proof.
  unfold plain. intros Hc Ha t. apply andb_true_iff in Hc.
  destruct Hc as [H1 H2]. apply negb_true_iff in H1, H2.
  cbn [app toWellFormed]. rewrite H1, H2, Ha. reflexivity.
Qed.

Lemma stored_all_plain (a : jsstring) :
  forallb plain a = true -> stored_verbatim a.
Proof.
  induction a as [|c a IH]; intros H; [apply stored_nil|].
  simpl in H. apply andb_true_iff in H.
  apply stored_plain; tauto.
Qed.

Lemma stored_pair (c d : N) (a : jsstring) :
  JSON.is_high_surrogate c = true -> JSON.is_low_surrogate d = true ->
  stored_verbatim a -> stored_verbatim (c :: d :: a).
Proof.
  intros Hc Hd Ha t. cbn [app toWellFormed]. rewrite Hc, Hd, Ha. reflexivity.
Qed.

Lemma hex_digit_plain (n : N) : (n < 16)%N -> plain (JSON.hex_digit n) = true.
Proof.
  intros H. destruct n as [|p]; [reflexivity|].
  do 4 (destruct p as [p|p|]; try reflexivity); lia.
Qed.

Lemma unicode_escape_plain (c : N) :
  is_code_unit c = true -> forallb plain (JSON.unicode_escape c) = true.
Proof.
  unfold is_code_unit. intros H. apply N.ltb_lt in H.
  unfold JSON.unicode_escape. cbn [forallb].
  rewrite !hex_digit_plain;
    try (apply N.mod_lt; discriminate);
    try (apply N.Div0.div_lt_upper_bound; exact H).
  reflexivity.
Qed.

Lemma surrogate_code_unit (c : N) :
  JSON.is_high_surrogate c = true \/ JSON.is_low_surrogate c = true ->
  is_code_unit c = true.
Proof.
  unfold JSON.is_high_surrogate, JSON.is_low_surrogate, is_code_unit.
  intros [H|H]; apply andb_true_iff in H; destruct H as [H1 H2];
    apply N.leb_le in H1, H2; apply N.ltb_lt; lia.
Qed.

Lemma escape_unit_plain (c : N) :
  plain c = true -> forallb plain (JSON.escape_unit c) = true.
Proof.
  intros Hp. unfold JSON.escape_unit.
  repeat match goal with
         | |- context [N.eqb c ?k] =>
             destruct (N.eqb_spec c k) as [->|?]; [reflexivity|]
         end.
  destruct (N.ltb_spec c 32).
  - apply unicode_escape_plain. apply N.ltb_lt. lia.
  - simpl. rewrite Hp. reflexivity.
Qed.

(** A quoted string holds no lone surrogate: it escaped them. *)
Lemma stored_quote_units (s : jsstring) : stored_verbatim (JSON.quote_units s).
Proof.
  remember (List.length s) as n eqn:Hn. revert s Hn.
  induction n as [n IH] using lt_wf_ind. intros s Hn.
  destruct s as [|c s1]; [apply stored_nil|].
  assert (IH1 : stored_verbatim (JSON.quote_units s1))
    by (apply (IH (List.length s1)); [subst n; simpl; lia | reflexivity]).
  cbn [JSON.quote_units].
  destruct (JSON.is_high_surrogate c) eqn:Hh.
  - pose proof (surrogate_code_unit c (or_introl Hh)) as Hc.
    destruct s1 as [|d s2].
    + apply stored_all_plain, unicode_escape_plain, Hc.
    + destruct (JSON.is_low_surrogate d) eqn:Hl.
      * apply stored_pair; [exact Hh | exact Hl |].
        apply (IH (List.length s2)); [subst n; simpl; lia | reflexivity].
      * apply stored_app; [|exact IH1].
        apply stored_all_plain, unicode_escape_plain, Hc.
  - destruct (JSON.is_low_surrogate c) eqn:Hl.
    + apply stored_app; [|exact IH1].
      apply stored_all_plain, unicode_escape_plain, surrogate_code_unit.
      right. exact Hl.
    + apply stored_app; [|exact IH1].
      apply stored_all_plain, escape_unit_plain.
      unfold plain. rewrite Hh, Hl. reflexivity.
Qed.

Lemma stored_quote (s : jsstring) : stored_verbatim (JSON.QuoteJSONString s).
Proof.
  unfold JSON.QuoteJSONString. apply stored_plain; [reflexivity|].
  apply stored_app; [apply stored_quote_units|].
  apply stored_all_plain. reflexivity.
Qed.

Lemma stored_spaces (n : nat) : stored_verbatim (JSON.spaces n).
Proof.
  apply stored_all_plain. induction n as [|n IH]; simpl; auto.
Qed.

Lemma stored_join (sep : jsstring) (l : list jsstring) :
  stored_verbatim sep -> Forall stored_verbatim l ->
  stored_verbatim (join sep l).
Proof.
  intros Hsep Hl. induction Hl as [|x l Hx Hl IH]; [apply stored_nil|].
  destruct l as [|y l]; [exact Hx|].
  change (join sep (x :: y :: l)) with (x ++ sep ++ join sep (y :: l)).
  apply stored_app; [exact Hx|]. apply stored_app; [exact Hsep | exact IH].
Qed.

Lemma stored_number (z : Z) : stored_verbatim (Number_toString z).
Proof.
  assert (D : forall n, forallb plain (digits_of_N n) = true).
  { intros n. unfold digits_of_N. apply forallb_forall. intros c Hc.
    apply in_map_iff in Hc. destruct Hc as (d & <- & _).
    destruct d; reflexivity. }
  apply stored_all_plain. destruct z as [|p|p]; unfold Number_toString.
  - apply D.
  - apply D.
  - simpl. apply D.
Qed.

(** The text of a value is stored as it is. *)
Lemma stored_serialize (v : json) (d : nat) :
  stored_verbatim (JSON.SerializeJSONProperty d v).
Proof.
  revert d. induction v as [|b|z|s|l IH|m IH] using json_ind; intros d.
  - apply stored_all_plain. reflexivity.
  - destruct b; apply stored_all_plain; reflexivity.
  - cbn [JSON.SerializeJSONProperty].
    destruct (Z.eqb (Z.abs z) Infinity);
      [apply stored_all_plain; reflexivity | apply stored_number].
  - apply stored_quote.
  - destruct l as [|x l]; [apply stored_all_plain; reflexivity|].
    cbn [JSON.SerializeJSONProperty]. cbv zeta.
    repeat (apply stored_plain; [reflexivity|]).
    apply stored_app; [apply stored_spaces|].
    apply stored_app.
    + apply stored_join.
      * repeat (apply stored_plain; [reflexivity|]). apply stored_spaces.
      * rewrite Forall_forall in *. intros t Ht. apply in_map_iff in Ht.
        destruct Ht as (y & <- & Hy). apply IH. exact Hy.
    + apply stored_plain; [reflexivity|].
      apply stored_app; [apply stored_spaces|].
      apply stored_all_plain. reflexivity.
  - destruct m as [|kv m]; [apply stored_all_plain; reflexivity|].
    cbn [JSON.SerializeJSONProperty]. cbv zeta.
    repeat (apply stored_plain; [reflexivity|]).
    apply stored_app; [apply stored_spaces|].
    apply stored_app.
    + apply stored_join.
      * repeat (apply stored_plain; [reflexivity|]). apply stored_spaces.
      * rewrite Forall_forall in *. intros t Ht. apply in_map_iff in Ht.
        destruct Ht as (y & <- & Hy).
        apply stored_app; [apply stored_quote|].
        repeat (apply stored_plain; [reflexivity|]).
        apply IH. exact Hy.
    + apply stored_plain; [reflexivity|].
      apply stored_app; [apply stored_spaces|].
      apply stored_all_plain. reflexivity.
Qed.

Lemma stored_stringify (v : json) :
  toWellFormed (JSON.stringify v) = JSON.stringify v.
Proof.
  pose proof (stored_serialize v 0 []) as H.
  rewrite app_nil_r in H. cbn [toWellFormed] in H.
  rewrite app_nil_r in H. exact H.
Qed.

Lemma load_save (v : json) :
  well_formed v = true ->
  Server.loadEmployees (Server.saveEmployees v) = v.
Proof.
  intros Hwf. unfold Server.saveEmployees, Server.loadEmployees.
  rewrite stored_stringify.
  pose proof (stringify_not_blank v) as Hb.
  apply str_eqb_nil_false in Hb. rewrite Hb, (parse_stringify v Hwf).
  reflexivity.
Qed.

(** ** Records as JSON objects *)

Lemma get_app (a b : object) (k : jsstring) :
  get (a ++ b) k = match get a k with Some v => Some v | None => get b k end.
Proof.
  induction a as [|[k' v'] a IH]; simpl; [reflexivity|].
  destruct (str_eqb k k'); [reflexivity | exact IH].
Qed.

Lemma get_property (k' k : string) (v : value) :
  get (property k' v) (lit k) = if str_eqb (lit k) (lit k') then v else None.
Proof.
  destruct v as [x|]; simpl; destruct (str_eqb (lit k) (lit k')); reflexivity.
Qed.

Lemma of_json_to_json (e : employee) : of_json (to_json e) = Some e.
Proof.
  destruct e as [i n m p r d s j t]. unfold to_json, of_json.
  cbn [id name email phone role department salary date_of_joining status].
  rewrite !get_app, !get_property. cbn.
  destruct n, m, p, r, d, s, j, t; reflexivity.
Qed.

Lemma decode_encode (es : list employee) : decode (encode es) = Some es.
Proof.
  unfold encode, decode. induction es as [|e es IH]; [reflexivity|].
  cbn [map decode_all]. rewrite of_json_to_json, IH. reflexivity.
Qed.

Lemma well_formed_to_json (e : employee) :
  well_formed_employee e = true -> well_formed (to_json e) = true.
Proof.
  destruct e as [i n m p r d s j t]. unfold well_formed_employee.
  cbn [id name email phone role department salary date_of_joining status].
  rewrite !andb_true_iff.
  intros ((((((((Hi & Hn) & Hm) & Hp) & Hr) & Hd) & Hs) & Hj) & Ht).
  destruct n, m, p, r, d, s, j, t; cbn - [exact] in *;
    rewrite ?Hi, ?Hn, ?Hm, ?Hp, ?Hr, ?Hd, ?Hs, ?Hj, ?Ht; reflexivity.
Qed.

Lemma well_formed_encode (es : list employee) :
  forallb well_formed_employee es = true -> well_formed (encode es) = true.
Proof.
  unfold encode. intros H. cbn [well_formed].
  rewrite forallb_forall in *. intros v Hv. apply in_map_iff in Hv.
  destruct Hv as (e & <- & He). apply well_formed_to_json. auto.
Qed.

(** ** Saving and loading *)

(** *** Collections of records of the data model *)

Lemma record_of_to_json (e : employee) :
  complete e = true -> record_of (to_json e) = Some e.
Proof.
  destruct e as [i n m p r d s j t]. unfold complete.
  cbn [name email phone role department salary date_of_joining status].
  destruct n, m, p, r, d, s, j, t; try discriminate. reflexivity.
Qed.

Lemma record_of_inv (v : json) (e : employee) :
  record_of v = Some e -> v = to_json e /\ complete e = true.
Proof.
  unfold record_of. intros H.
  repeat match type of H with
         | (if ?c then _ else _) = Some _ =>
             lazymatch type of c with
             | bool => destruct c eqn:E; [|discriminate]
             end
         | match ?x with _ => _ end = Some _ =>
             destruct x; try discriminate
         | (let (_, _) := ?x in _) = Some _ => destruct x
         end.
  injection H as <-.
  rewrite !andb_true_iff in E. decompose [and] E. clear E.
  repeat match goal with
         | K : str_eqb _ _ = true |- _ => apply str_eqb_eq in K; subst
         end.
  split; reflexivity.
Qed.

Lemma records_of_encode (es : list employee) :
  forallb complete es = true -> records_of (map to_json es) = Some es.
Proof.
  induction es as [|e es IH]; [reflexivity|]. cbn [forallb map records_of].
  intros H. apply andb_true_iff in H. destruct H as [He Hes].
  rewrite (record_of_to_json e He), (IH Hes). reflexivity.
Qed.

Lemma records_of_inv (l : list json) (es : list employee) :
  records_of l = Some es ->
  l = map to_json es /\ forallb complete es = true.
Proof.
  revert es. induction l as [|v l IH]; intros es H.
  - injection H as <-. split; reflexivity.
  - cbn [records_of] in H.
    destruct (record_of v) as [e|] eqn:Ev; [|discriminate].
    destruct (records_of l) as [es'|]; [|discriminate].
    injection H as <-. destruct (record_of_inv v e Ev) as [-> He].
    destruct (IH es' eq_refl) as [-> Hes].
    cbn [map forallb]. rewrite He, Hes. split; reflexivity.
Qed.

(** The records of a well-formed text are well formed. *)
Lemma well_formed_of_to_json (e : employee) :
  well_formed (to_json e) = true -> well_formed_employee e = true.
Proof.
  assert (P : forall k v,
             forallb (fun kv => key (fst kv) && well_formed (snd kv))
               (property k v) = true -> well_formed_value v = true).
  { intros k [x|]; cbn [property forallb fst snd well_formed_value];
      [|reflexivity].
    rewrite !andb_true_iff. tauto. }
  unfold well_formed_employee, to_json. cbn [well_formed].
  rewrite andb_true_iff. intros [_ H].
  rewrite !forallb_app, !andb_true_iff in H. decompose [and] H. clear H.
  repeat match goal with
         | K : forallb _ (property _ _) = true |- _ => apply P in K
         end.
  repeat (apply andb_true_iff; split); assumption.
Qed.

Lemma well_formed_of_encode (es : list employee) :
  well_formed (encode es) = true -> forallb well_formed_employee es = true.
Proof.
  unfold encode. cbn [well_formed].
  intros H. rewrite forallb_forall in *. intros e He.
  apply well_formed_of_to_json, H, in_map, He.
Qed.

(** A collection is the text of its records, which are complete and well
    formed; and the text of such records is a collection. *)
Lemma collection_inv (v : json) (es : list employee) :
  collection v = Some es ->
  v = encode es /\ forallb complete es = true
  /\ forallb well_formed_employee es = true.
Proof.
  unfold collection. destruct v as [| | | |l|]; try discriminate.
  destruct (well_formed (JArr l)) eqn:W; [|discriminate].
  intros H. destruct (records_of_inv l es H) as [-> Hc].
  split; [reflexivity|]. split; [exact Hc|].
  apply well_formed_of_encode. exact W.
Qed.

Lemma collection_encode (es : list employee) :
  forallb complete es = true -> forallb well_formed_employee es = true ->
  collection (encode es) = Some es.
Proof.
  intros Hc Hw. unfold collection, encode.
  fold (encode es). rewrite (well_formed_encode es Hw).
  apply records_of_encode, Hc.
Qed.

Lemma collection_decode (v : json) (es : list employee) :
  collection v = Some es -> decode v = Some es.
Proof.
  intros H. destruct (collection_inv v es H) as (-> & _).
  apply decode_encode.
Qed.

(** ** Saving and loading *)




(** ** The fuel of the parser *)

Lemma skip_ws_length (s : jsstring) :
  (List.length (JSON.skip_ws s) <= List.length s)%nat.
Proof.
  induction s as [|c s IH]; simpl; [lia|].
  destruct (JSON.is_json_ws c); simpl; lia.
Qed.

Lemma cons_unit_some (c : N) (r : option (jsstring * jsstring))
      (str rest : jsstring) :
  JSON.cons_unit c r = Some (str, rest) ->
  exists str', r = Some (str', rest).
Proof.
  destruct r as [[str' rest']|]; simpl; [|discriminate].
  intros H. injection H as _ <-. eauto.
Qed.

Lemma parse_units_length (s str rest : jsstring) :
  JSON.parse_units s = Some (str, rest) ->
  (List.length rest < List.length s)%nat.
Proof.
  remember (List.length s) as n eqn:Hn. revert s str rest Hn.
  induction n as [n IH] using lt_wf_ind. intros s str rest Hn H.
  assert (K : forall t u str0,
             (List.length t < n)%nat ->
             JSON.cons_unit u (JSON.parse_units t) = Some (str0, rest) ->
             (List.length rest < List.length t)%nat).
  { intros t u str0 Ht Hc. apply cons_unit_some in Hc.
    destruct Hc as (str' & Hc). exact (IH _ Ht t str' rest eq_refl Hc). }
  destruct s as [|c s1]; [discriminate|]. cbn [JSON.parse_units] in H.
  simpl in Hn.
  destruct (N.eqb c 34).
  { injection H as _ <-. simpl. lia. }
  destruct (N.eqb c 92).
  - destruct s1 as [|e s2]; [discriminate|]. simpl in Hn.
    destruct (N.eqb e 117).
    + destruct s2 as [|h1 [|h2 [|h3 [|h4 s3]]]]; try discriminate.
      simpl in Hn. destruct (JSON.unhex4 h1 h2 h3 h4); [|discriminate].
      apply K in H; simpl; lia.
    + destruct (JSON.unescape e); [|discriminate].
      apply K in H; simpl; lia.
  - destruct (N.ltb c 32); [discriminate|].
    apply K in H; simpl; lia.
Qed.

Lemma strip_prefix_length (p s rest : jsstring) :
  JSON.strip_prefix p s = Some rest ->
  (List.length rest + List.length p = List.length s)%nat.
Proof.
  revert s. induction p as [|x p IH]; intros s H; simpl in H.
  - injection H as <-. simpl. lia.
  - destruct s as [|y s]; [discriminate|].
    destruct (N.eqb x y); [|discriminate].
    apply IH in H. simpl. lia.
Qed.

Lemma take_digits_length (s : jsstring) :
  (List.length (snd (JSON.take_digits s)) <= List.length s)%nat.
Proof.
  induction s as [|c s IH]; simpl; [lia|].
  destruct (JSON.code_digit c); [|simpl; lia].
  destruct (JSON.take_digits s) as [ds rest]. simpl in *. lia.
Qed.

Lemma take_digits_shorter (c : N) (s : jsstring) :
  is_digit c = true ->
  (List.length (snd (JSON.take_digits (c :: s))) < List.length (c :: s))%nat.
Proof.
  intros H. apply digit_bounds in H. simpl.
  assert (E : exists d, JSON.code_digit c = Some d).
  { unfold JSON.code_digit.
    repeat match goal with
           | |- context [N.eqb c ?k] =>
               destruct (N.eqb_spec c k); [eauto|]
           end.
    lia. }
  destruct E as (d & ->). pose proof (take_digits_length s).
  destruct (JSON.take_digits s) as [ds rest]. simpl in *. lia.
Qed.

Lemma parse_int_length (s rest : jsstring) (n : N) :
  JSON.parse_int s = Some (n, rest) ->
  (List.length rest < List.length s)%nat.
Proof.
  destruct s as [|c s]; [discriminate|]. unfold JSON.parse_int.
  destruct (N.eqb c 48).
  - intros H. injection H as _ <-. simpl. lia.
  - destruct (is_digit c) eqn:D; [|discriminate].
    pose proof (take_digits_shorter c s D) as L.
    destruct (JSON.take_digits (c :: s)) as [ds r].
    intros H. injection H as _ <-. exact L.
Qed.

Lemma parse_fraction_length (s rest : jsstring)
      (b : list DecimalFacts.digits) :
  JSON.parse_fraction s = Some (b, rest) ->
  (List.length rest <= List.length s)%nat.
Proof.
  destruct s as [|c s]; unfold JSON.parse_fraction.
  - intros H. injection H as _ <-. lia.
  - destruct (N.eqb c 46).
    + pose proof (take_digits_length s) as L.
      destruct (JSON.take_digits s) as [[|d ds] r]; [discriminate|].
      intros H. injection H as _ <-. simpl in *. lia.
    + intros H. injection H as _ <-. lia.
Qed.

Lemma parse_exponent_length (s rest : jsstring) (b : option Z) :
  JSON.parse_exponent s = Some (b, rest) ->
  (List.length rest <= List.length s)%nat.
Proof.
  destruct s as [|c s]; unfold JSON.parse_exponent.
  - intros H. injection H as _ <-. lia.
  - destruct (N.eqb c 101 || N.eqb c 69).
    + assert (L : forall t (negative : bool),
                  (List.length t <= List.length s)%nat ->
                  match JSON.take_digits t with
                  | ([], _) => None
                  | (d :: ds, r) =>
                      let e :=
                        Z.of_N (N.of_uint (DecimalFacts.of_list (d :: ds))) in
                      Some (Some (if negative then Z.opp e else e), r)
                  end = Some (b, rest) ->
                  (List.length rest <= List.length (c :: s))%nat).
      { intros t negative Ht. pose proof (take_digits_length t) as L.
        destruct (JSON.take_digits t) as [[|d ds] r]; [discriminate|].
        intros H. injection H as _ <-. simpl in *. lia. }
      destruct s as [|d t]; [apply (L [] false); lia|].
      destruct (N.eqb d 45); [apply (L t true); simpl; lia|].
      destruct (N.eqb d 43);
        [apply (L t false) | apply (L (d :: t) false)]; simpl; lia.
    + intros H. injection H as _ <-. lia.
Qed.

Lemma parse_number_length (s rest : jsstring) (z : Z) :
  JSON.parse_number s = Some (z, rest) ->
  (List.length rest < List.length s)%nat.
Proof.
  destruct s as [|c s]; [discriminate|]. unfold JSON.parse_number.
  cbv zeta.
  assert (K : forall t (negative : bool),
             (List.length t <= List.length (c :: s))%nat ->
             match JSON.parse_int t with
             | Some (n, s1) =>
                 match JSON.parse_fraction s1 with
                 | Some (fraction, s2) =>
                     match JSON.parse_exponent s2 with
                     | Some (exponent, rest0) =>
                         Some (JSON.literal_value negative n fraction
                                 exponent, rest0)
                     | None => None
                     end
                 | None => None
                 end
             | None => None
             end = Some (z, rest) ->
             (List.length rest < List.length (c :: s))%nat).
  { intros t negative Ht.
    destruct (JSON.parse_int t) as [[n r]|] eqn:E; [|discriminate].
    apply parse_int_length in E.
    destruct (JSON.parse_fraction r) as [[fr r2]|] eqn:F; [|discriminate].
    apply parse_fraction_length in F.
    destruct (JSON.parse_exponent r2) as [[ex r3]|] eqn:X; [|discriminate].
    apply parse_exponent_length in X.
    intros H. injection H as _ <-. lia. }
  destruct (N.eqb c 45).
  - apply (K s true). simpl. lia.
  - apply (K (c :: s) false). lia.
Qed.

Lemma parse_literal_length (p : string) (v w : json) (s rest : jsstring) :
  lit p <> [] ->
  JSON.parse_literal p v s = Some (w, rest) ->
  (List.length rest < List.length s)%nat.
Proof.
  unfold JSON.parse_literal. intros Hp.
  destruct (JSON.strip_prefix (lit p) s) as [r|] eqn:E; [|discriminate].
  intros H. injection H as _ <-. apply strip_prefix_length in E.
  destruct (lit p); [congruence|]. simpl in E. lia.
Qed.

(** A parse that succeeds with some fuel consumes text and succeeds, with the
    same result, with any fuel that is at least the length consumed. *)
Lemma parse_fuel (f : nat) :
  (forall s v rest,
      JSON.parse_value f s = Some (v, rest) ->
      (List.length rest < List.length s)%nat
      /\ forall f', (List.length s - List.length rest <= f')%nat ->
                    JSON.parse_value f' s = Some (v, rest))
  /\ (forall s acc v rest,
         JSON.parse_elements f s acc = Some (v, rest) ->
         (List.length rest < List.length s)%nat
         /\ forall f', (List.length s - List.length rest <= f')%nat ->
                       JSON.parse_elements f' s acc = Some (v, rest))
  /\ (forall s acc v rest,
         JSON.parse_members f s acc = Some (v, rest) ->
         (List.length rest < List.length s)%nat
         /\ forall f', (List.length s - List.length rest <= f')%nat ->
                       JSON.parse_members f' s acc = Some (v, rest)).
Proof.
  induction f as [|f (IHv & IHe & IHm)]; [repeat split; discriminate|].
  split; [|split].
  - intros s v rest H. cbn [JSON.parse_value] in H.
    pose proof (skip_ws_length s) as Ls.
    destruct (JSON.skip_ws s) as [|c s1] eqn:Es; [discriminate|].
    simpl in Ls.
    assert (Done : (List.length rest < List.length (c :: s1))%nat ->
                   (forall f', JSON.parse_value (S f') s = Some (v, rest)) ->
                   (List.length rest < List.length s)%nat
                   /\ forall f', (List.length s - List.length rest <= f')%nat ->
                                 JSON.parse_value f' s = Some (v, rest)).
    { intros L K. simpl in L. split; [lia|].
      intros [|f'] Hf'; [lia | apply K]. }
    destruct (N.eqb c 91) eqn:E1.
    { pose proof (skip_ws_length s1) as Ls1.
      destruct (JSON.skip_ws s1) as [|d s2] eqn:Es1; [discriminate|].
      simpl in Ls1. destruct (N.eqb d 93) eqn:E2.
      - injection H as <- <-. apply Done; [simpl; lia|].
        intros f'. cbn [JSON.parse_value]. rewrite Es, E1, Es1, E2.
        reflexivity.
      - apply IHe in H. destruct H as [L K]. split; [lia|].
        intros [|f'] Hf'; [lia|]. cbn [JSON.parse_value].
        rewrite Es, E1, Es1, E2. apply K. lia. }
    destruct (N.eqb c 123) eqn:E2.
    { pose proof (skip_ws_length s1) as Ls1.
      destruct (JSON.skip_ws s1) as [|d s2] eqn:Es1; [discriminate|].
      simpl in Ls1. destruct (N.eqb d 125) eqn:E3.
      - injection H as <- <-. apply Done; [simpl; lia|].
        intros f'. cbn [JSON.parse_value]. rewrite Es, E1, E2, Es1, E3.
        reflexivity.
      - apply IHm in H. destruct H as [L K]. split; [lia|].
        intros [|f'] Hf'; [lia|]. cbn [JSON.parse_value].
        rewrite Es, E1, E2, Es1, E3. apply K. lia. }
    destruct (N.eqb c 34) eqn:E3.
    { destruct (JSON.parse_units s1) as [[str r]|] eqn:Eu; [|discriminate].
      injection H as <- <-. apply parse_units_length in Eu as L.
      apply Done; [simpl; lia|].
      intros f'. cbn [JSON.parse_value]. rewrite Es, E1, E2, E3, Eu.
      reflexivity. }
    destruct (N.eqb c 110) eqn:E4.
    { apply Done.
      - apply (parse_literal_length "null"%string JNull v (c :: s1) rest);
          [discriminate | exact H].
      - intros f'. cbn [JSON.parse_value]. rewrite Es, E1, E2, E3, E4.
        exact H. }
    destruct (N.eqb c 116) eqn:E5.
    { apply Done.
      - apply (parse_literal_length "true"%string (JBool true) v (c :: s1) rest);
          [discriminate | exact H].
      - intros f'. cbn [JSON.parse_value]. rewrite Es, E1, E2, E3, E4, E5.
        exact H. }
    destruct (N.eqb c 102) eqn:E6.
    { apply Done.
      - apply (parse_literal_length "false"%string (JBool false) v (c :: s1) rest);
          [discriminate | exact H].
      - intros f'. cbn [JSON.parse_value].
        rewrite Es, E1, E2, E3, E4, E5, E6. exact H. }
    destruct (JSON.parse_number (c :: s1)) as [[z r]|] eqn:En; [|discriminate].
    injection H as <- <-. apply parse_number_length in En as L.
    apply Done; [exact L|].
    intros f'. cbn [JSON.parse_value].
    rewrite Es, E1, E2, E3, E4, E5, E6, En. reflexivity.
  - intros s acc v rest H. cbn [JSON.parse_elements] in H.
    destruct (JSON.parse_value f s) as [[v1 s1]|] eqn:Ev; [|discriminate].
    apply IHv in Ev. destruct Ev as [L1 K1].
    pose proof (skip_ws_length s1) as Ls1.
    destruct (JSON.skip_ws s1) as [|c s2] eqn:Es1; [discriminate|].
    simpl in Ls1. destruct (N.eqb c 44) eqn:E1.
    + apply IHe in H. destruct H as [L K]. split; [lia|].
      intros [|f'] Hf'; [lia|]. cbn [JSON.parse_elements].
      rewrite K1 by lia. rewrite Es1, E1. apply K. lia.
    + destruct (N.eqb c 93) eqn:E2; [|discriminate].
      injection H as <- <-. split; [lia|].
      intros [|f'] Hf'; [lia|]. cbn [JSON.parse_elements].
      rewrite K1 by lia. rewrite Es1, E1, E2. reflexivity.
  - intros s acc v rest H. cbn [JSON.parse_members] in H.
    pose proof (skip_ws_length s) as Ls.
    destruct (JSON.skip_ws s) as [|q s1] eqn:Es; [discriminate|].
    simpl in Ls. destruct (N.eqb q 34) eqn:E1; [|discriminate].
    destruct (JSON.parse_units s1) as [[k s2]|] eqn:Eu; [|discriminate].
    apply parse_units_length in Eu as Lu.
    pose proof (skip_ws_length s2) as Ls2.
    destruct (JSON.skip_ws s2) as [|c s3] eqn:Es2; [discriminate|].
    simpl in Ls2. destruct (N.eqb c 58) eqn:E2; [|discriminate].
    destruct (JSON.parse_value f s3) as [[v1 s4]|] eqn:Ev; [|discriminate].
    apply IHv in Ev. destruct Ev as [L1 K1].
    pose proof (skip_ws_length s4) as Ls4.
    destruct (JSON.skip_ws s4) as [|e s5] eqn:Es4; [discriminate|].
    simpl in Ls4. destruct (N.eqb e 44) eqn:E3.
    + apply IHm in H. destruct H as [L K]. split; [lia|].
      intros [|f'] Hf'; [lia|]. cbn [JSON.parse_members].
      rewrite Es, E1, Eu, Es2, E2. rewrite K1 by lia.
      rewrite Es4, E3. apply K. lia.
    + destruct (N.eqb e 125) eqn:E4; [|discriminate].
      injection H as <- <-. split; [lia|].
      intros [|f'] Hf'; [lia|]. cbn [JSON.parse_members].
      rewrite Es, E1, Eu, Es2, E2. rewrite K1 by lia.
      rewrite Es4, E3, E4. reflexivity.
Qed.

(** The fuel [JSON.parse] gives its parser never runs out: whatever any
    amount of fuel can parse, it parses. *)
Lemma parse_fuel_enough (fuel : nat) (text rest : jsstring) (v : json) :
  JSON.parse_value fuel text = Some (v, rest) ->
  JSON.skip_ws rest = [] ->
  JSON.parse text = Some v.
Proof.
  intros H Hr. destruct (parse_fuel fuel) as (Hv & _ & _).
  destruct (Hv text v rest H) as [_ K]. unfold JSON.parse.
  rewrite K by lia. rewrite Hr. reflexivity.
Qed.

(** * Further properties of the code *)

(** ** Reading one record *)

Lemma find_none (es : list employee) (id_ : Z) :
  (forall e, In e es -> id e <> id_) ->
  Routes.find (fun e => Z.eqb (id e) id_) es = None.
Proof.
  induction es as [|x es IH]; intros H; [reflexivity|].
  cbn [Routes.find]. destruct (Z.eqb_spec (id x) id_) as [E|_].
  - exfalso. apply (H x); [left; reflexivity | exact E].
  - apply IH. intros e He. apply H. right. exact He.
Qed.

Lemma find_some (es : list employee) (id_ : Z) (e : employee) :
  Routes.find (fun e => Z.eqb (id e) id_) es = Some e ->
  In e es /\ id e = id_.
Proof.
  induction es as [|x es IH]; [discriminate|]. cbn [Routes.find].
  destruct (Z.eqb_spec (id x) id_) as [E|_].
  - intros H. injection H as <-. split; [left; reflexivity | exact E].
  - intros H. destruct (IH H). split; [right|]; assumption.
Qed.

Lemma find_unique (es : list employee) (e : employee) :
  NoDup (map id es) -> In e es ->
  Routes.find (fun x => Z.eqb (id x) (id e)) es = Some e.
Proof.
  induction es as [|x es IH]; intros Hnd Hin; [destruct Hin|].
  cbn [Routes.find]. simpl in Hnd. inversion Hnd as [|? ? Hnot Hrest]; subst.
  destruct Hin as [->|Hin].
  - rewrite Z.eqb_refl. reflexivity.
  - destruct (Z.eqb_spec (id x) (id e)) as [E|_]; [|auto].
    exfalso. apply Hnot. rewrite E. apply in_map. exact Hin.
Qed.

Lemma find_app_last (es : list employee) (r : employee) (id_ : Z) :
  Routes.find (fun e => Z.eqb (id e) id_) (es ++ [r])
  = match Routes.find (fun e => Z.eqb (id e) id_) es with
    | Some e => Some e
    | None => if Z.eqb (id r) id_ then Some r else None
    end.
Proof.
  induction es as [|x es IH]; [reflexivity|].
  cbn [app Routes.find]. destruct (Z.eqb (id x) id_); [reflexivity | exact IH].
Qed.

Lemma find_filter_other (es : list employee) (id_ id' : Z) :
  id' <> id_ ->
  Routes.find (fun e => Z.eqb (id e) id') (filter (other_id id_) es)
  = Routes.find (fun e => Z.eqb (id e) id') es.
Proof.
  intros Hne. induction es as [|x es IH]; [reflexivity|].
  cbn [filter Routes.find]. unfold other_id at 1.
  destruct (Z.eqb_spec (id x) id_) as [E|NE]; simpl.
  - destruct (Z.eqb_spec (id x) id') as [E'|_]; [congruence | exact IH].
  - destruct (Z.eqb (id x) id'); [reflexivity | exact IH].
Qed.

Lemma find_index_same (es : list employee) (id_ : Z) (i : nat) :
  Server.findIndex (fun e => Z.eqb (id e) id_) es = Some i ->
  Routes.find (fun e => Z.eqb (id e) id_) es = nth_error es i.
Proof.
  revert i. induction es as [|x es IH]; intros i; [discriminate|].
  cbn [Server.findIndex Routes.find].
  destruct (Z.eqb (id x) id_).
  - intros H. injection H as <-. reflexivity.
  - destruct (Server.findIndex _ es) as [j|]; [|discriminate].
    intros H. injection H as <-. simpl. apply IH. reflexivity.
Qed.

Lemma find_assign (es : list employee) (id_ id' : Z) (i : nat)
      (emp r : employee) :
  Server.findIndex (fun e => Z.eqb (id e) id_) es = Some i ->
  nth_error es i = Some emp -> id r = id emp ->
  Routes.find (fun e => Z.eqb (id e) id') (Server.assign es i r)
  = if Z.eqb id' id_ then Some r
    else Routes.find (fun e => Z.eqb (id e) id') es.
Proof.
  revert i. induction es as [|x es IH]; intros i; [discriminate|].
  cbn [Server.findIndex].
  destruct (Z.eqb_spec (id x) id_) as [E|NE].
  - intros H Hn Hr. injection H as <-. simpl in Hn. injection Hn as ->.
    cbn [Server.assign Routes.find]. rewrite Hr, E.
    destruct (Z.eqb_spec id' id_) as [->|N'].
    + rewrite Z.eqb_refl. reflexivity.
    + destruct (Z.eqb_spec id_ id') as [->|_]; [congruence | reflexivity].
  - destruct (Server.findIndex _ es) as [j|] eqn:Ej; [|discriminate].
    intros H Hn Hr. injection H as <-. simpl in Hn.
    cbn [Server.assign Routes.find]. rewrite (IH j eq_refl Hn Hr).
    destruct (Z.eqb_spec id' id_) as [->|N'].
    + destruct (Z.eqb_spec (id x) id_); [contradiction | reflexivity].
    + reflexivity.
Qed.

Lemma get_employee_absent (es : list employee) (id_ : Z) :
  (forall e, In e es -> id e <> id_) ->
  Routes.get_employee es id_ = Response 404 (Error_body Server.not_found).
Proof.
  intros H. unfold Routes.get_employee. rewrite (find_none es id_ H).
  reflexivity.
Qed.

(** X1.  GET by id answers 404 exactly when no record has the id, and
    otherwise answers 200 with a record of the collection that has the id:
    the first one, which is the record an Update of that id would rewrite,
    and, when ids are distinct, the only one. *)
Theorem get_employee_finds :
  forall (es : list employee) (id_ : Z),
    ((forall e, In e es -> id e <> id_) <->
     Routes.get_employee es id_
     = Response 404 (Error_body Server.not_found))
    /\ (forall e, Routes.get_employee es id_ = Response 200 (Record_body e) ->
                  In e es /\ id e = id_)
    /\ (forall i, Server.findIndex (fun e => Z.eqb (id e) id_) es = Some i ->
                  exists emp, nth_error es i = Some emp
                              /\ Routes.get_employee es id_
                                 = Response 200 (Record_body emp))
    /\ (forall e, NoDup (map id es) -> In e es -> id e = id_ ->
                  Routes.get_employee es id_ = Response 200 (Record_body e)).
Proof.
  intros es id_. unfold Routes.get_employee. repeat split.
  - intros H. rewrite (find_none es id_ H). reflexivity.
  - destruct (Routes.find _ es) as [e|] eqn:E; [discriminate|].
    intros _ e He Hid.
    destruct (findIndex_some es id_ (ex_intro _ e (conj He Hid)))
      as (i & emp & Hf & Hn & _).
    rewrite (find_index_same es id_ i Hf), Hn in E. discriminate.
  - destruct (Routes.find _ es) as [x|] eqn:E; [|discriminate].
    injection H as <-. apply (find_some es id_ x E).
  - destruct (Routes.find _ es) as [x|] eqn:E; [|discriminate].
    injection H as <-. apply (find_some es id_ x E).
  - intros i Hf. rewrite (find_index_same es id_ i Hf).
    destruct (nth_error es i) as [emp|] eqn:Hn.
    + exists emp. split; reflexivity.
    + exfalso.
      assert (Hex : exists e, In e es /\ id e = id_).
      { clear Hn. revert i Hf. induction es as [|x es IH]; intros i Hf;
          [discriminate|]. cbn [Server.findIndex] in Hf.
        destruct (Z.eqb_spec (id x) id_) as [Ex|_].
        - exists x. split; [left; reflexivity | exact Ex].
        - destruct (Server.findIndex _ es) as [j|]; [|discriminate].
          destruct (IH j eq_refl) as (e & He & Hid).
          exists e. split; [right|]; assumption. }
      destruct (findIndex_some es id_ Hex) as (i' & emp & Hf' & Hn' & _).
      rewrite Hf in Hf'. injection Hf' as <-. congruence.
  - intros e Hnd Hin <-. rewrite (find_unique es e Hnd Hin). reflexivity.
Qed.

Lemma get_employee_finds_witness :
  Routes.get_employee [Sample.numbered 1; Sample.numbered 3] 3
  = Response 200 (Record_body (Sample.numbered 3))
  /\ Routes.get_employee [Sample.numbered 1; Sample.numbered 3] 2
     = Response 404 (Error_body Server.not_found).
Proof.
  pose proof (get_employee_finds [Sample.numbered 1; Sample.numbered 3] 3)
    as (_ & _ & _ & H3).
  pose proof (get_employee_finds [Sample.numbered 1; Sample.numbered 3] 2)
    as (H2 & _).
  split.
  - apply H3; [|right; left; reflexivity | reflexivity].
    repeat constructor; simpl; intuition discriminate.
  - apply H2. intros e [<-|[<-|[]]]; discriminate.
Defined.

(** ** Reading after writing *)

Lemma create_created (es es' : list employee) (data : object) (r : employee) :
  Server.create es data = Outcome (Response 201 (Record_body r)) (Some es') ->
  es' = es ++ [r] /\ id r = Server.getNextId es.
Proof.
  unfold Server.create.
  destruct (Server.first_missing data Server.required);
    [destruct (Server.throws _); discriminate|].
  destruct (negb _); [discriminate|].
  intros H. injection H as <- <-. split; reflexivity.
Qed.

Lemma get_after_append (es : list employee) (r : employee) (id_ : Z) :
  safe_ids es = true ->
  id r = Server.getNextId es ->
  Routes.get_employee (es ++ [r]) id_
  = if Z.eqb id_ (id r) then Response 200 (Record_body r)
    else Routes.get_employee es id_.
Proof.
  intros Hs Hr. unfold Routes.get_employee. rewrite find_app_last.
  destruct (Routes.find _ es) as [e|] eqn:E.
  - apply find_some in E. destruct E as [Hin <-].
    pose proof (getNextId_above es e Hs Hin).
    destruct (Z.eqb_spec (id e) (id r)); [lia | reflexivity].
  - rewrite (Z.eqb_sym id_ (id r)).
    destruct (Z.eqb (id r) id_); reflexivity.
Qed.

(** X2.  On a collection whose ids are safe integers, after a Create that
    answered 201, reading the returned id gives back exactly the created
    record, that id answered 404 before, and reading any other id gives
    what it gave before. *)
Theorem create_then_get :
  forall (es es' : list employee) (data : object) (r : employee),
    safe_ids es = true ->
    Server.create es data
    = Outcome (Response 201 (Record_body r)) (Some es') ->
    Routes.get_employee es' (id r) = Response 200 (Record_body r)
    /\ Routes.get_employee es (id r)
       = Response 404 (Error_body Server.not_found)
    /\ forall id_, id_ <> id r ->
         Routes.get_employee es' id_ = Routes.get_employee es id_.
Proof.
  intros es es' data r Hs H. apply create_created in H.
  destruct H as [-> Hr].
  split; [|split].
  - rewrite (get_after_append es r (id r) Hs Hr), Z.eqb_refl. reflexivity.
  - apply get_employee_absent.
    intros e He. pose proof (getNextId_above es e Hs He). lia.
  - intros id_ Hne. rewrite (get_after_append es r id_ Hs Hr).
    destruct (Z.eqb_spec id_ (id r)); [contradiction | reflexivity].
Qed.

Lemma create_then_get_witness :
  Routes.get_employee [Sample.ann_record] 1
  = Response 200 (Record_body Sample.ann_record).
Proof.
  apply (proj1 (create_then_get [] [Sample.ann_record] Sample.ann
                  Sample.ann_record eq_refl eq_refl)).
Defined.

Lemma update_updated (es es' : list employee) (id_ : Z) (data : object)
      (r : employee) :
  Server.update es id_ data
  = Outcome (Response 200 (Record_body r)) (Some es') ->
  exists i emp,
    Server.findIndex (fun e => Z.eqb (id e) id_) es = Some i
    /\ nth_error es i = Some emp /\ id r = id emp
    /\ es' = Server.assign es i r.
Proof.
  unfold Server.update.
  destruct (Server.findIndex _ es) as [i|] eqn:Ef; [|discriminate].
  destruct (nth_error es i) as [emp|] eqn:En; [|discriminate].
  intros H. exists i, emp.
  split; [reflexivity|]. split; [exact En|].
  destruct (get data (lit "phone")).
  - destruct (Server.throws _); [discriminate|].
    destruct (negb _); [discriminate|].
    injection H as <- <-. split; reflexivity.
  - injection H as <- <-. split; reflexivity.
Qed.

(** X3.  After an Update that answered 200, reading the id gives back the
    merged record, reading any other id gives what it gave before, and the
    collection has as many records, with the same ids in the same places. *)
Theorem update_then_get :
  forall (es es' : list employee) (id_ : Z) (data : object) (r : employee),
    Server.update es id_ data
    = Outcome (Response 200 (Record_body r)) (Some es') ->
    Routes.get_employee es' id_ = Response 200 (Record_body r)
    /\ (forall id', id' <> id_ ->
          Routes.get_employee es' id' = Routes.get_employee es id')
    /\ map id es' = map id es.
Proof.
  intros es es' id_ data r H.
  destruct (update_updated es es' id_ data r H)
    as (i & emp & Hf & Hn & Hr & ->).
  unfold Routes.get_employee. split; [|split].
  - rewrite (find_assign es id_ id_ i emp r Hf Hn Hr), Z.eqb_refl.
    reflexivity.
  - intros id' Hne. rewrite (find_assign es id_ id' i emp r Hf Hn Hr).
    destruct (Z.eqb_spec id' id_); [contradiction | reflexivity].
  - apply (assign_ids es i r emp Hn Hr).
Qed.

Lemma update_then_get_witness :
  Routes.get_employee [Sample.inactive] 1
  = Response 200 (Record_body Sample.inactive).
Proof.
  apply (proj1 (update_then_get [Sample.numbered 1] [Sample.inactive] 1
                  Sample.only_status Sample.inactive eq_refl)).
Defined.

(** X4.  After a Delete that answered 204, reading the id answers 404,
    deleting it again answers 404 and saves nothing, and reading any other
    id gives what it gave before. *)
Theorem delete_then_get :
  forall (es es' : list employee) (id_ : Z),
    Server.delete es id_ = Outcome (Response 204 Empty_body) (Some es') ->
    Routes.get_employee es' id_
    = Response 404 (Error_body Server.not_found)
    /\ Server.delete es' id_
       = Outcome (Response 404 (Error_body Server.not_found)) None
    /\ forall id', id' <> id_ ->
         Routes.get_employee es' id' = Routes.get_employee es id'.
Proof.
  intros es es' id_ H. unfold Server.delete in H.
  destruct (Nat.eqb _ _); [discriminate|]. injection H as <-.
  assert (Hno : forall e, In e (filter (other_id id_) es) -> id e <> id_).
  { intros e He. apply filter_In in He. apply other_id_true. tauto. }
  split; [|split].
  - apply get_employee_absent. exact Hno.
  - apply delete_absent. exact Hno.
  - intros id' Hne. unfold Routes.get_employee.
    rewrite (find_filter_other es id_ id' Hne). reflexivity.
Qed.

Lemma delete_then_get_witness :
  Routes.get_employee [Sample.numbered 2] 1
  = Response 404 (Error_body Server.not_found).
Proof.
  apply (proj1 (delete_then_get [Sample.numbered 1; Sample.numbered 2]
                  [Sample.numbered 2] 1 eq_refl)).
Defined.

(** X5.  While the ids are safe integers, Creates hand out consecutive
    ids: after a Create that answered 201 with a safe id n on a collection
    of safe ids, the next id is n + 1, so a second Create answers with id
    n + 1. *)
Theorem creates_are_consecutive :
  forall (es es1 es2 : list employee) (d1 d2 : object) (r1 r2 : employee),
    safe_ids es1 = true ->
    Server.create es d1
    = Outcome (Response 201 (Record_body r1)) (Some es1) ->
    Server.create es1 d2
    = Outcome (Response 201 (Record_body r2)) (Some es2) ->
    Server.getNextId es1 = (id r1 + 1)%Z
    /\ id r2 = (id r1 + 1)%Z
    /\ es2 = es ++ [r1; r2].
Proof.
  intros es es1 es2 d1 d2 r1 r2 Hs H1 H2.
  apply create_created in H1. destruct H1 as [-> Hr1].
  apply create_created in H2. destruct H2 as [-> Hr2].
  assert (Hs0 : safe_ids es = true).
  { unfold safe_ids in *. rewrite forallb_app in Hs.
    apply andb_true_iff in Hs. tauto. }
  assert (N : Server.getNextId (es ++ [r1]) = (id r1 + 1)%Z).
  { destruct (getNextId_max (es ++ [r1]) Hs) as (e & He & Hmax & Hn).
    { destruct es; discriminate. }
    rewrite Hn. f_equal.
    assert (id r1 <= id e)%Z
      by (apply Hmax, in_or_app; right; left; reflexivity).
    apply in_app_or in He. destruct He as [He|[<-|[]]]; [|reflexivity].
    pose proof (getNextId_above es e Hs0 He). lia. }
  split; [exact N|]. split; [congruence|].
  rewrite <- app_assoc. reflexivity.
Qed.

Lemma creates_are_consecutive_witness :
  exists r2 es2,
    Server.create [Sample.ann_record] Sample.ann
    = Outcome (Response 201 (Record_body r2)) (Some es2)
    /\ id r2 = 2%Z.
Proof.
  eexists. eexists. split; [reflexivity|].
  apply (creates_are_consecutive [] [Sample.ann_record] _ Sample.ann
           Sample.ann Sample.ann_record _ eq_refl eq_refl eq_refl).
Defined.

(** ** Documents that were not written by the program *)

Lemma get_well_formed (o : object) (k : jsstring) :
  well_formed (JObj o) = true -> well_formed_value (get o k) = true.
Proof.
  cbn [well_formed]. rewrite andb_true_iff. intros [_ H].
  induction o as [|[k' v'] o IH]; [reflexivity|].
  simpl in H. rewrite !andb_true_iff in H. cbn [get].
  destruct (str_eqb k k'); [simpl; tauto | apply IH; tauto].
Qed.

Lemma parse_mark (text : jsstring) : JSON.parse (65279%N :: text) = None.
Proof. reflexivity. Qed.

(** X7.  A document that begins with a byte-order mark loads as the empty
    collection whatever follows the mark, in both servers; a Create served
    on it therefore answers with id 1 and leaves a document that holds the
    new record alone. *)
Theorem byte_order_mark_hides_records :
  forall (text : jsstring) (data : object) (r : employee)
         (es' : list employee),
    Server.loadEmployees (Content (65279%N :: text)) = JArr []
    /\ Mcp.loadEmployees (Content (65279%N :: text)) = JArr []
    /\ (Server.create [] data
        = Outcome (Response 201 (Record_body r)) (Some es') ->
        id r = 1%Z
        /\ Server.serve (fun l => Server.create l data)
             (Content (65279%N :: text))
           = Some (Response 201 (Record_body r),
                   Server.saveEmployees (encode [r]))).
Proof.
  intros text data r es'.
  assert (L : Server.loadEmployees (Content (65279%N :: text)) = JArr []).
  { cbn [Server.loadEmployees]. rewrite parse_mark.
    destruct (str_eqb _ _); reflexivity. }
  split; [exact L|]. split; [exact L|].
  intros H. pose proof (create_created [] es' data r H) as [-> Hid].
  split; [exact Hid|].
  unfold Server.serve. rewrite L.
  cbn [collection well_formed forallb records_of]. rewrite H.
  reflexivity.
Qed.

Lemma byte_order_mark_hides_records_witness :
  Server.serve (fun l => Server.create l Sample.ann)
    (Content (65279%N :: JSON.stringify (encode [Sample.numbered 7])))
  = Some (Response 201 (Record_body Sample.ann_record),
          Server.saveEmployees (encode [Sample.ann_record])).
Proof.
  apply (proj2 (proj2 (byte_order_mark_hides_records
                         (JSON.stringify (encode [Sample.numbered 7]))
                         Sample.ann Sample.ann_record [Sample.ann_record]))).
  reflexivity.
Defined.

(** ** One request after another *)

Lemma or_else_well_formed (v : value) (d : json) :
  well_formed_value v = true -> well_formed d = true ->
  well_formed (or_else v d) = true.
Proof.
  intros Hv Hd. unfold or_else. destruct v as [x|]; [|exact Hd].
  destruct (truthy (Some x)); assumption.
Qed.

Lemma coalesce_well_formed (a b : value) :
  well_formed_value a = true -> well_formed_value b = true ->
  well_formed_value (Server.coalesce a b) = true.
Proof.
  intros Ha Hb. destruct a as [[| | | | |]|]; assumption.
Qed.

Lemma digits_are_units (s : jsstring) :
  forallb is_code_unit (replace_non_digits s) = true.
Proof.
  apply forallb_forall. intros c Hc. apply filter_In in Hc.
  destruct Hc as [_ Hc]. apply digit_bounds in Hc.
  apply N.ltb_lt. lia.
Qed.

Lemma phoneDigits_units (data : object) :
  forallb is_code_unit (Server.phoneDigits data) = true.
Proof.
  destruct (phoneDigits_filtered data) as (text & ->).
  apply digits_are_units.
Qed.

Lemma exact_ids (es : list employee) :
  forallb well_formed_employee es = true ->
  forallb (fun e => exact (id e)) es = true.
Proof.
  intros H. rewrite forallb_forall in *. intros e He.
  specialize (H e He). unfold well_formed_employee in H.
  rewrite !andb_true_iff in H. tauto.
Qed.

Lemma create_well_formed (es es' : list employee) (data : object) :
  forallb well_formed_employee es = true -> well_formed (JObj data) = true ->
  saved (Server.create es data) = Some es' ->
  forallb well_formed_employee es' = true.
Proof.
  intros Hes Hd H. destruct (create_saved es es' data H) as [Hreq Hlen].
  rewrite (create_accepts es data Hreq Hlen) in H. cbv zeta in H.
  simpl in H. injection H as <-. rewrite forallb_app, Hes.
  cbn [forallb]. unfold well_formed_employee.
  cbn [id name email phone role department salary date_of_joining status
       well_formed_value].
  rewrite (getNextId_exact es (exact_ids es Hes)).
  rewrite !(get_well_formed data _ Hd).
  rewrite !or_else_well_formed by (try apply get_well_formed; auto).
  cbn [well_formed]. rewrite phoneDigits_units. reflexivity.
Qed.

(** A field the loop got past is there. *)
Lemma passed_defined (v : value) : Server.blank v = false -> v <> None.
Proof. intros H ->. discriminate. Qed.

Lemma create_complete (es es' : list employee) (data : object) :
  forallb complete es = true ->
  saved (Server.create es data) = Some es' ->
  forallb complete es' = true.
Proof.
  intros Hes H. destruct (create_saved es es' data H) as [Hreq Hlen].
  rewrite (create_accepts es data Hreq Hlen) in H. cbv zeta in H.
  simpl in H. injection H as <-. rewrite forallb_app, Hes.
  rewrite first_missing_none in Hreq.
  pose proof (passed_defined _ (Hreq "name"%string (or_introl eq_refl)))
    as Hn.
  pose proof (passed_defined _ (Hreq "email"%string
                                  (or_intror (or_introl eq_refl)))) as Hm.
  cbn [forallb]. unfold complete.
  cbn [name email phone role department salary date_of_joining status].
  destruct (get data (lit "name")); [|congruence].
  destruct (get data (lit "email")); [|congruence].
  reflexivity.
Qed.

Lemma assign_well_formed (es : list employee) (i : nat) (r : employee) :
  forallb well_formed_employee es = true -> well_formed_employee r = true ->
  forallb well_formed_employee (Server.assign es i r) = true.
Proof.
  intros Hes Hr. apply forallb_forall. intros x Hx.
  apply assign_In in Hx. destruct Hx as [->|Hx]; [exact Hr|].
  rewrite forallb_forall in Hes. auto.
Qed.

Lemma update_well_formed (es es' : list employee) (id_ : Z) (data : object) :
  forallb well_formed_employee es = true -> well_formed (JObj data) = true ->
  saved (Server.update es id_ data) = Some es' ->
  forallb well_formed_employee es' = true.
Proof.
  intros Hes Hd H. unfold Server.update in H.
  destruct (Server.findIndex _ es) as [i|]; [|discriminate].
  destruct (nth_error es i) as [emp|] eqn:En; [|discriminate].
  assert (Hemp : well_formed_employee emp = true).
  { rewrite forallb_forall in Hes. apply Hes. eapply nth_error_In, En. }
  unfold well_formed_employee in Hemp. rewrite !andb_true_iff in Hemp.
  destruct Hemp as ((((((((A0 & A1) & A2) & A3) & A4) & A5) & A6) & A7) & A8).
  assert (K : forall ph, well_formed_value ph = true ->
              well_formed_employee (Server.merged emp data ph) = true).
  { intros ph Hph. unfold well_formed_employee, Server.merged.
    cbn [id name email phone role department salary date_of_joining status].
    rewrite Hph, A0.
    rewrite !coalesce_well_formed by (try apply get_well_formed; auto).
    reflexivity. }
  destruct (get data (lit "phone")).
  - destruct (Server.throws _); [discriminate|].
    destruct (negb _); [discriminate|]. simpl in H. injection H as <-.
    apply assign_well_formed; [exact Hes|]. apply K.
    cbn [well_formed_value well_formed]. apply phoneDigits_units.
  - simpl in H. injection H as <-.
    apply assign_well_formed; [exact Hes|]. apply K. exact A3.
Qed.

Lemma coalesce_defined (a b : value) :
  b <> None -> Server.coalesce a b <> None.
Proof. destruct a as [[| | | | |]|]; simpl; congruence. Qed.

Lemma update_complete (es es' : list employee) (id_ : Z) (data : object) :
  forallb complete es = true ->
  saved (Server.update es id_ data) = Some es' ->
  forallb complete es' = true.
Proof.
  intros Hes H. unfold Server.update in H.
  destruct (Server.findIndex _ es) as [i|]; [|discriminate].
  destruct (nth_error es i) as [emp|] eqn:En; [|discriminate].
  assert (Hemp : complete emp = true).
  { rewrite forallb_forall in Hes. apply Hes. eapply nth_error_In, En. }
  assert (K : forall ph, ph <> None ->
              complete (Server.merged emp data ph) = true).
  { intros ph Hph. unfold complete in *. unfold Server.merged.
    cbn [name email phone role department salary date_of_joining status].
    destruct (name emp) eqn:E1; [|discriminate].
    destruct (email emp) eqn:E2; [|discriminate].
    destruct (phone emp) eqn:E3; [|discriminate].
    destruct (role emp) eqn:E4; [|discriminate].
    destruct (department emp) eqn:E5; [|discriminate].
    destruct (salary emp) eqn:E6; [|discriminate].
    destruct (date_of_joining emp) eqn:E7; [|discriminate].
    destruct (status emp) eqn:E8; [|discriminate].
    repeat match goal with
           | |- context [Server.coalesce ?a (Some ?b)] =>
               let N := fresh "N" in
               pose proof (coalesce_defined a (Some b)
                             ltac:(discriminate)) as N;
               destruct (Server.coalesce a (Some b)); [clear N|congruence]
           end.
    destruct ph; [reflexivity | congruence]. }
  assert (A : forall r, complete r = true ->
              forallb complete (Server.assign es i r) = true).
  { intros r Hr. apply forallb_forall. intros x Hx.
    apply assign_In in Hx. destruct Hx as [->|Hx]; [exact Hr|].
    rewrite forallb_forall in Hes. auto. }
  destruct (get data (lit "phone")).
  - destruct (Server.throws _); [discriminate|].
    destruct (negb _); [discriminate|]. simpl in H. injection H as <-.
    apply A, K. discriminate.
  - simpl in H. injection H as <-. apply A, K.
    unfold complete in Hemp. destruct (name emp), (email emp), (phone emp);
      try discriminate.
Qed.

Lemma delete_well_formed (es es' : list employee) (id_ : Z) :
  forallb well_formed_employee es = true ->
  saved (Server.delete es id_) = Some es' ->
  forallb well_formed_employee es' = true.
Proof.
  intros Hes H. unfold Server.delete in H.
  destruct (Nat.eqb _ _); [discriminate|]. simpl in H. injection H as <-.
  rewrite forallb_forall in *. intros x Hx. apply filter_In in Hx.
  apply Hes. tauto.
Qed.

Lemma delete_complete (es es' : list employee) (id_ : Z) :
  forallb complete es = true ->
  saved (Server.delete es id_) = Some es' ->
  forallb complete es' = true.
Proof.
  intros Hes H. unfold Server.delete in H.
  destruct (Nat.eqb _ _); [discriminate|]. simpl in H. injection H as <-.
  rewrite forallb_forall in *. intros x Hx. apply filter_In in Hx.
  apply Hes. tauto.
Qed.

(** The text of a collection of complete, well-formed records is loaded as
    that collection. *)
Lemma saved_is_loaded (es : list employee) :
  forallb complete es = true -> forallb well_formed_employee es = true ->
  collection (Server.loadEmployees (Server.saveEmployees (encode es)))
  = Some es.
Proof.
  intros Hc Hw. rewrite (load_save (encode es) (well_formed_encode es Hw)).
  apply collection_encode; assumption.
Qed.

(** X8.  Requests compose through the document as they do on collections:
    whenever a Create, an Update or a Delete with a well-formed input saved,
    on a document that holds a collection of records of the data model, the
    document it leaves is the text of the collection it saved and loads as
    exactly that collection, so the next request, reading or writing, runs
    on it. *)
Theorem next_request_sees_saved :
  forall (f : file) (es es' : list employee) (id_ : Z) (data : object)
         (h : list employee -> outcome),
    collection (Server.loadEmployees f) = Some es ->
    well_formed (JObj data) = true ->
    h = (fun l => Server.create l data)
    \/ h = (fun l => Server.update l id_ data)
    \/ h = (fun l => Server.delete l id_) ->
    saved (h es) = Some es' ->
    exists f',
      Server.serve h f = Some (sent (h es), f')
      /\ f' = Server.saveEmployees (encode es')
      /\ collection (Server.loadEmployees f') = Some es'
      /\ (forall id', Routes.answer (fun l => Routes.get_employee l id') f'
                      = Some (Routes.get_employee es' id'))
      /\ Routes.answer Routes.get_employees f' = Some (200%Z, es')
      /\ (forall h', Server.serve h' f'
                     = Some (sent (h' es'),
                             match saved (h' es') with
                             | Some es2 => Server.saveEmployees (encode es2)
                             | None => f'
                             end)).
Proof.
  intros f es es' id_ data h Hd Hdata Hh Hs.
  destruct (collection_inv _ es Hd) as (_ & Hc & Hes).
  assert (Hw : forallb well_formed_employee es' = true).
  { destruct Hh as [->|[->| ->]].
    - apply (create_well_formed es es' data Hes Hdata Hs).
    - apply (update_well_formed es es' id_ data Hes Hdata Hs).
    - apply (delete_well_formed es es' id_ Hes Hs). }
  assert (Hc' : forallb complete es' = true).
  { destruct Hh as [->|[->| ->]].
    - apply (create_complete es es' data Hc Hs).
    - apply (update_complete es es' id_ data Hc Hs).
    - apply (delete_complete es es' id_ Hc Hs). }
  pose proof (saved_is_loaded es' Hc' Hw) as Hload.
  exists (Server.saveEmployees (encode es')).
  split; [unfold Server.serve; rewrite Hd, Hs; reflexivity|].
  split; [reflexivity|]. split; [exact Hload|].
  unfold Routes.answer, Server.serve. rewrite Hload.
  repeat split; reflexivity.
Qed.

Lemma next_request_sees_saved_witness :
  exists f',
    Server.serve (fun l => Server.create l Sample.ann) Missing
    = Some (Response 201 (Record_body Sample.ann_record), f')
    /\ Routes.answer (fun l => Routes.get_employee l 1) f'
       = Some (Response 200 (Record_body Sample.ann_record)).
Proof.
  destruct (next_request_sees_saved Missing [] [Sample.ann_record] 0
              Sample.ann (fun l => Server.create l Sample.ann))
    as (f' & Hs & _ & _ & Hg & _).
  - reflexivity.
  - reflexivity.
  - left. reflexivity.
  - reflexivity.
  - exists f'. split; [exact Hs | apply Hg].
Defined.

(** ** The list_employees tool *)

Lemma stringify_array_head (l : list json) :
  exists t, JSON.stringify (JArr l) = 91%N :: t.
Proof.
  destruct l as [|x l]; [exists [93%N]; reflexivity|].
  unfold JSON.stringify. cbn [JSON.SerializeJSONProperty]. cbv zeta.
  eexists. reflexivity.
Qed.

(** X9.  The list tool never fails on a document the program saved: for the
    empty collection it says that there are no employees, and for any other
    collection it returns a text that is not that sentence and that parses
    back to the collection, records in order.  It says the same sentence for
    a document that is missing, unreadable, blank or unparsable, and it
    throws exactly when the document is the JSON value null. *)
Theorem list_tool_shows_collection :
  forall (es : list employee) (f : file),
    (forallb well_formed_employee es = true ->
     exists text,
       Listing.list_tool (Mcp.saveEmployees (encode es)) = Some text
       /\ (es = [] -> text = Listing.nothing)
       /\ (es <> [] ->
           text <> Listing.nothing
           /\ exists v, JSON.parse text = Some v /\ decode v = Some es))
    /\ (f = Missing \/ f = Unreadable
        \/ (exists raw, f = Content raw
                        /\ (forallb is_white_space raw = true
                            \/ JSON.parse raw = None)) ->
        Listing.list_tool f = Some Listing.nothing)
    /\ (Listing.list_tool f = None <-> Mcp.loadEmployees f = JNull).
Proof.
  intros es f. split; [|split].
  - intros Hw. unfold Listing.list_tool.
    change (Mcp.loadEmployees (Mcp.saveEmployees (encode es)))
      with (Server.loadEmployees (Server.saveEmployees (encode es))).
    rewrite (load_save (encode es) (well_formed_encode es Hw)).
    destruct es as [|e es].
    + exists Listing.nothing. split; [reflexivity|]. split; congruence.
    + exists (JSON.stringify (encode (e :: es))).
      split; [reflexivity|]. split; [discriminate|]. intros _. split.
      * destruct (stringify_array_head (map to_json (e :: es))) as (t & E).
        unfold encode. rewrite E. discriminate.
      * exists (encode (e :: es)). split.
        -- apply parse_stringify, well_formed_encode, Hw.
        -- apply decode_encode.
  - intros H. unfold Listing.list_tool.
    replace (Mcp.loadEmployees f) with (JArr []); [reflexivity|].
    symmetry. destruct H as [->|[->|(raw & -> & H)]]; try reflexivity.
    cbn [Mcp.loadEmployees]. destruct H as [H|H].
    + apply trim_nil_iff in H. rewrite H. reflexivity.
    + rewrite H. destruct (str_eqb (trim raw) []); reflexivity.
  - unfold Listing.list_tool, Listing.list_employees.
    destruct (Mcp.loadEmployees f) as [|b|n|s|l|o];
      try (split; [discriminate | discriminate]);
      try (split; reflexivity).
    destruct (get o (lit "length")) as [[| |[| |]| | |]|];
      split; discriminate.
Qed.

Lemma list_tool_shows_collection_witness :
  Listing.list_tool Missing = Some Listing.nothing
  /\ exists text,
       Listing.list_tool (Mcp.saveEmployees (encode [Sample.numbered 1]))
       = Some text
       /\ text <> Listing.nothing.
Proof.
  pose proof (list_tool_shows_collection [Sample.numbered 1] Missing)
    as (H1 & H2 & _).
  split; [apply H2; left; reflexivity|].
  destruct (H1 eq_refl) as (text & Ht & _ & Hn).
  exists text. split; [exact Ht|]. apply Hn. discriminate.
Defined.

(** ** The create_employee tool and the HTTP Create *)

Lemma all_digits_kept (p : jsstring) :
  forallb is_digit p = true -> replace_non_digits p = p.
Proof.
  intros H. apply filter_all. apply forallb_forall. exact H.
Qed.

(** What the schema of create_employee guarantees of the arguments. *)
Lemma create_schema_fields (zod_email : jsstring -> bool) (args : object) :
  Mcp.create_schema zod_email args = true ->
  (exists n, get args (lit "name") = Some (JStr n) /\ n <> [])
  /\ (exists m, get args (lit "email") = Some (JStr m) /\ zod_email m = true)
  /\ (exists p, get args (lit "phone") = Some (JStr p)
                /\ List.length p = 10%nat /\ forallb is_digit p = true)
  /\ Mcp.optional_number (get args (lit "salary")) = true.
Proof.
  unfold Mcp.create_schema. rewrite !andb_true_iff.
  intros (((((((Hn & He) & Hp) & _) & _) & Hs) & _) & _).
  split; [|split; [|split]].
  - unfold Mcp.name_schema in Hn.
    destruct (get args (lit "name")) as [[| | |n| |]|]; try discriminate.
    exists n. split; [reflexivity|]. destruct n; [discriminate | congruence].
  - unfold Mcp.email_schema in He.
    destruct (get args (lit "email")) as [[| | |m| |]|]; try discriminate.
    exists m. auto.
  - apply phone_schema_spec. exact Hp.
  - exact Hs.
Qed.

Lemma salary_defaults_agree (v : value) :
  Mcp.optional_number v = true ->
  nullish_or v (JNum 0) = or_else v (JNum 0).
Proof.
  destruct v as [[| |n| | |]|]; try discriminate; try reflexivity.
  intros _. unfold or_else, nullish_or, truthy.
  destruct (Z.eqb_spec n 0) as [->|_]; reflexivity.
Qed.

Lemma tool_phone_digits (args : object) (p : jsstring) :
  get args (lit "phone") = Some (JStr p) -> forallb is_digit p = true ->
  Server.phoneDigits args = p.
Proof.
  intros Hp Hd. rewrite (phoneDigits_string args p Hp).
  apply all_digits_kept. exact Hd.
Qed.

(** X10.  On arguments the tool's schema accepts and whose name and email
    are not blank, the tool and the HTTP Create agree: both append the same
    record, the tool's phone being the digits the HTTP path would have
    normalized to and its salary default being the HTTP one. *)
Theorem tool_and_http_create_agree :
  forall (zod_email : jsstring -> bool) (es : list employee) (args : object),
    Mcp.create_schema zod_email args = true ->
    Server.blank (get args (lit "name")) = false ->
    Server.blank (get args (lit "email")) = false ->
    exists r,
      Mcp.written (Mcp.create_employee zod_email es args) = Some (es ++ [r])
      /\ Server.create es args
         = Outcome (Response 201 (Record_body r)) (Some (es ++ [r])).
Proof.
  intros zod_email es args Hs Hn He.
  destruct (create_schema_fields zod_email args Hs)
    as (_ & _ & (p & Hp & Hlen & Hd) & Hsal).
  pose proof (tool_phone_digits args p Hp Hd) as Hpd.
  unfold Mcp.create_employee. rewrite Hs. unfold Mcp.create_handler.
  eexists. split; [reflexivity|].
  rewrite create_accepts.
  - cbv zeta. rewrite Hpd, <- Hp. rewrite (salary_defaults_agree _ Hsal).
    reflexivity.
  - apply first_missing_none. intros f [<-|[<-|[<-|[]]]].
    + exact Hn.
    + exact He.
    + rewrite Hp. apply blank_string_false, ten_digits_not_blank.
      rewrite (all_digits_kept p Hd). exact Hlen.
  - rewrite Hpd. exact Hlen.
Qed.

Lemma tool_and_http_create_agree_witness :
  exists r,
    Mcp.written
      (Mcp.create_employee (fun _ => true) []
         [(lit "name", JStr (lit "Ann")); (lit "email", JStr (lit "a@x.com"));
          (lit "phone", JStr (lit "5551234567"))])
    = Some ([] ++ [r])
    /\ Server.create []
         [(lit "name", JStr (lit "Ann")); (lit "email", JStr (lit "a@x.com"));
          (lit "phone", JStr (lit "5551234567"))]
       = Outcome (Response 201 (Record_body r)) (Some ([] ++ [r])).
Proof.
  apply (tool_and_http_create_agree (fun _ => true) []
           [(lit "name", JStr (lit "Ann")); (lit "email", JStr (lit "a@x.com"));
            (lit "phone", JStr (lit "5551234567"))]); reflexivity.
Defined.

(** X11.  The two create paths part on blank names: a name that is not
    empty but is all whitespace passes the tool's schema, which only asks
    for one character, and is stored by the tool as given, while the HTTP
    Create answers 400 for the same input and stores nothing. *)
Theorem tool_stores_blank_name :
  forall (zod_email : jsstring -> bool) (es : list employee) (args : object)
         (n : jsstring),
    Mcp.create_schema zod_email args = true ->
    get args (lit "name") = Some (JStr n) ->
    forallb is_white_space n = true ->
    (exists r,
        Mcp.written (Mcp.create_employee zod_email es args)
        = Some (es ++ [r])
        /\ name r = Some (JStr n) /\ n <> [] /\ trim n = [])
    /\ Server.create es args
       = Outcome (Response 400 (Error_body (Server.is_required "name"))) None.
Proof.
  intros zod_email es args n Hs Hn Hw.
  destruct (create_schema_fields zod_email args Hs)
    as ((n' & Hn' & Hne) & _).
  assert (n' = n) by congruence. subst n'.
  pose proof (proj2 (trim_nil_iff n) Hw) as Ht. split.
  - unfold Mcp.create_employee. rewrite Hs. unfold Mcp.create_handler.
    eexists. split; [reflexivity|]. cbn [name]. auto.
  - unfold Server.create, Server.required. cbn [Server.first_missing].
    rewrite Hn. rewrite (proj2 (blank_string n) Ht). rewrite Hn.
    reflexivity.
Qed.

Lemma tool_stores_blank_name_witness :
  Server.create []
    [(lit "name", JStr (lit " ")); (lit "email", JStr (lit "a@x.com"));
     (lit "phone", JStr (lit "5551234567"))]
  = Outcome (Response 400 (Error_body (Server.is_required "name"))) None.
Proof.
  apply (proj2 (tool_stores_blank_name (fun _ => true) []
                  [(lit "name", JStr (lit " "));
                   (lit "email", JStr (lit "a@x.com"));
                   (lit "phone", JStr (lit "5551234567"))]
                  (lit " ") eq_refl eq_refl eq_refl)).
Defined.

(** X12.  Provided the email test of the schema refuses the empty string
    and the ids of the collection are safe integers, the create_employee
    tool keeps the invariants of the data model: ids stay distinct, the new
    one being above every other, name and email are non-empty strings and
    the phone is ten digit characters. *)
Theorem tool_create_preserves_invariant :
  forall (zod_email : jsstring -> bool) (es es' : list employee)
         (args : object),
    zod_email [] = false ->
    safe_ids es = true ->
    invariant es ->
    Mcp.written (Mcp.create_employee zod_email es args) = Some es' ->
    invariant es'
    /\ exists r, es' = es ++ [r] /\ valid_record r = true
                 /\ forall e, In e es -> (id e < id r)%Z.
Proof.
  intros zod_email es es' args Hz Hsafe [Hnd Hv] H.
  unfold Mcp.create_employee in H.
  destruct (Mcp.create_schema zod_email args) eqn:Hs; [|discriminate].
  destruct (create_schema_fields zod_email args Hs)
    as ((n & Hn & Hne) & (m & Hm & Hzm) & (p & Hp & Hlen & Hd) & _).
  unfold Mcp.create_handler in H. cbn [Mcp.written] in H.
  injection H as <-.
  assert (Hlt : forall e, In e es -> (id e < Mcp.getNextId es)%Z)
    by (intros e He; apply (getNextId_above es e Hsafe He)).
  assert (Hr : valid_record
                 {| id := Mcp.getNextId es;
                    name := get args (lit "name");
                    email := get args (lit "email");
                    phone := get args (lit "phone");
                    role := Some (or_else (get args (lit "role")) (JStr []));
                    department :=
                      Some (or_else (get args (lit "department")) (JStr []));
                    salary :=
                      Some (nullish_or (get args (lit "salary")) (JNum 0));
                    date_of_joining :=
                      Some (or_else (get args (lit "date_of_joining"))
                              (JStr []));
                    status :=
                      Some (or_else (get args (lit "status"))
                              (JStr (lit "Active"))) |} = true).
  { unfold valid_record. cbn [name email phone]. rewrite Hn, Hm, Hp.
    cbn [nonempty_string ten_digits]. rewrite Hlen, Hd.
    replace (str_eqb n []) with false
      by (symmetry; apply str_eqb_nil_false; exact Hne).
    replace (str_eqb m []) with false; [reflexivity|].
    symmetry. apply str_eqb_nil_false. intros ->. congruence. }
  split; [split|].
  - rewrite map_app. cbn [map id].
    apply (Permutation_NoDup (l := Mcp.getNextId es :: map id es)).
    + apply Permutation_cons_append.
    + constructor; [|exact Hnd]. intros Hin. apply in_map_iff in Hin.
      destruct Hin as (e & He & Hin). specialize (Hlt e Hin). lia.
  - apply Forall_app. split; [exact Hv|]. constructor; [exact Hr|constructor].
  - eexists. split; [reflexivity|]. split; [exact Hr|]. exact Hlt.
Qed.

Lemma tool_create_preserves_invariant_witness :
  exists es',
    Mcp.written
      (Mcp.create_employee (fun s => negb (str_eqb s [])) [Sample.numbered 1]
         [(lit "name", JStr (lit "Ann")); (lit "email", JStr (lit "a@x.com"));
          (lit "phone", JStr (lit "5551234567"))]) = Some es'
    /\ invariant es'.
Proof.
  eexists. split; [reflexivity|].
  apply (tool_create_preserves_invariant (fun s => negb (str_eqb s []))
           [Sample.numbered 1] _
           [(lit "name", JStr (lit "Ann")); (lit "email", JStr (lit "a@x.com"));
            (lit "phone", JStr (lit "5551234567"))]).
  - reflexivity.
  - reflexivity.
  - split.
    + constructor; [intros [] | constructor].
    + constructor; [reflexivity | constructor].
  - reflexivity.
Defined.

(** ** The delete_employee tool *)

(** X13.  The delete tool runs its handler only for an id that is a number
    above zero which the int() test of its schema library accepts, and
    refuses every other argument without writing; for such an id it saves
    exactly what the HTTP Delete saves, and saves nothing exactly when the
    HTTP Delete answers 404.  A record whose id is zero or negative can
    therefore be deleted over HTTP but not through the tool, whatever the
    release of the library. *)
Theorem delete_tool_needs_positive_id :
  forall (zod_int : Z -> bool) (es : list employee) (args : object),
    ((forall n, get args (lit "id") = Some (JNum n) ->
                (n <= 0)%Z \/ zod_int n = false) ->
     Mcp.delete_employee zod_int es args
     = Mcp.Reply Mcp.Invalid_arguments None)
    /\ (forall n, get args (lit "id") = Some (JNum n) -> (0 < n)%Z ->
          zod_int n = true ->
          Mcp.written (Mcp.delete_employee zod_int es args)
          = saved (Server.delete es n)
          /\ Mcp.result (Mcp.delete_employee zod_int es args)
             <> Mcp.Invalid_arguments)
    /\ (forall e, In e es -> (id e <= 0)%Z ->
          Mcp.delete_employee zod_int es [(lit "id", JNum (id e))]
          = Mcp.Reply Mcp.Invalid_arguments None
          /\ exists es', Server.delete es (id e)
                         = Outcome (Response 204 Empty_body) (Some es')
                         /\ ~ In e es').
Proof.
  intros zod_int es args. split; [|split].
  - intros H. unfold Mcp.delete_employee.
    destruct (get args (lit "id")) as [[| |n| | |]|]; try reflexivity.
    cbn [Mcp.id_schema]. destruct (H n eq_refl) as [Hn|Hz].
    + replace (Z.ltb 0 n) with false by (symmetry; apply Z.ltb_ge; exact Hn).
      rewrite andb_false_r. reflexivity.
    + rewrite Hz. reflexivity.
  - intros n Hn Hpos Hz.
    rewrite (delete_tool_runs zod_int es args n Hn Hz Hpos).
    unfold Mcp.delete_handler, Server.delete.
    destruct (Nat.eqb _ _); split; try reflexivity; discriminate.
  - intros e He Hneg. split.
    + unfold Mcp.delete_employee. cbn [get]. rewrite str_eqb_refl.
      cbn [Mcp.id_schema].
      replace (Z.ltb 0 (id e)) with false
        by (symmetry; apply Z.ltb_ge; exact Hneg).
      rewrite andb_false_r. reflexivity.
    + exists (filter (other_id (id e)) es). split.
      * apply delete_present. exists e. auto.
      * intros Hin. apply filter_In in Hin. destruct Hin as [_ Hin].
        apply other_id_true in Hin. congruence.
Qed.

Lemma delete_tool_needs_positive_id_witness :
  Mcp.delete_employee (fun _ => true) [Sample.numbered (-1)]
    [(lit "id", JNum (-1))]
  = Mcp.Reply Mcp.Invalid_arguments None
  /\ Mcp.written (Mcp.delete_employee (fun _ => true) [Sample.numbered 1]
                    [(lit "id", JNum 1)])
     = saved (Server.delete [Sample.numbered 1] 1).
Proof.
  split.
  - apply (proj1 (proj2 (proj2 (delete_tool_needs_positive_id (fun _ => true)
                                  [Sample.numbered (-1)] []))
                    (Sample.numbered (-1)) (or_introl eq_refl)
                    ltac:(simpl; lia))).
  - apply (proj1 (proj2 (delete_tool_needs_positive_id (fun _ => true)
                           [Sample.numbered 1] [(lit "id", JNum 1)]))
             1%Z eq_refl ltac:(lia) eq_refl).
Defined.

(** ** The filters of the page *)

Lemma matches_throws (toLowerCase : jsstring -> jsstring)
      (text dept role_ status_ : jsstring) (emp : employee) :
  Client.matches toLowerCase text dept role_ status_ emp = None
  <-> Client.readable (name emp) = false
      \/ Client.readable (email emp) = false.
Proof.
  unfold Client.matches, Client.lowered, Client.readable.
  destruct (or_else (name emp) (JStr [])), (or_else (email emp) (JStr []));
    split; intros H; try discriminate; auto; destruct H; discriminate.
Qed.

Lemma filter_rows_throws (callback : employee -> option bool)
      (rows : list employee) :
  Client.filter_rows callback rows = None
  <-> exists emp, In emp rows /\ callback emp = None.
Proof.
  induction rows as [|emp rows IH]; cbn [Client.filter_rows].
  - split; [discriminate | intros (e & [] & _)].
  - destruct (callback emp) as [keep|] eqn:E.
    + destruct (Client.filter_rows callback rows) as [kept|].
      * split; [discriminate|]. intros (e & [<-|He] & Hc); [congruence|].
        exfalso. assert (Some kept = None) by (apply IH; eauto).
        discriminate.
      * split; [|reflexivity]. intros _.
        destruct (proj1 IH eq_refl) as (e & He & Hc).
        exists e. split; [right|]; assumption.
    + split; [|reflexivity]. intros _. exists emp. split; [left|]; auto.
Qed.

Lemma filter_rows_kept (callback : employee -> option bool)
      (rows kept : list employee) :
  Client.filter_rows callback rows = Some kept ->
  kept = filter (Client.kept_by callback) rows.
Proof.
  revert kept. induction rows as [|emp rows IH]; intros kept;
    cbn [Client.filter_rows filter].
  - intros H. injection H as <-. reflexivity.
  - unfold Client.kept_by at 1.
    destruct (callback emp) as [keep|]; [|discriminate].
    destruct (Client.filter_rows callback rows) as [k|]; [|discriminate].
    intros H. injection H as <-. rewrite (IH k eq_refl).
    destruct keep; reflexivity.
Qed.

Lemma filter_rows_total (callback : employee -> option bool)
      (rows : list employee) :
  (forall emp, In emp rows -> callback emp <> None) ->
  Client.filter_rows callback rows
  = Some (filter (Client.kept_by callback) rows).
Proof.
  intros H. destruct (Client.filter_rows callback rows) as [kept|] eqn:E.
  - rewrite (filter_rows_kept callback rows kept E). reflexivity.
  - apply filter_rows_throws in E. destruct E as (emp & He & Hc).
    exfalso. exact (H emp He Hc).
Qed.

Lemma filter_rows_again (callback : employee -> option bool)
      (rows kept : list employee) :
  Client.filter_rows callback rows = Some kept ->
  Client.filter_rows callback kept = Some kept.
Proof.
  intros H. pose proof (filter_rows_kept callback rows kept H) as ->.
  rewrite filter_rows_total.
  - rewrite filter_idem. reflexivity.
  - intros emp He Hc. apply filter_In in He. destruct He as [He _].
    assert (Client.filter_rows callback rows = None)
      by (apply filter_rows_throws; eauto).
    congruence.
Qed.

(** X14.  A filter pass throws exactly when some employee has a name or an
    email that is neither a string nor falsy, whatever the filters are,
    even when the search box is empty and every select is on ALL. *)
Theorem filter_pass_throws :
  forall (toLowerCase : jsstring -> jsstring) (triggeredBySearch : bool)
         (fs : Client.filters) (allEmployees : list employee),
    Client.applyFilters toLowerCase triggeredBySearch fs allEmployees = None
    <-> exists emp, In emp allEmployees
                    /\ (Client.readable (name emp) = false
                        \/ Client.readable (email emp) = false).
Proof.
  intros toLowerCase b fs all. unfold Client.applyFilters.
  set (cb := Client.matches toLowerCase _ _ _ _).
  destruct (Client.filter_rows cb all) as [rows|] eqn:E.
  - split; [discriminate|]. intros (emp & He & Hr). exfalso.
    assert (Client.filter_rows cb all = None).
    { apply filter_rows_throws. exists emp. split; [exact He|].
      apply matches_throws. exact Hr. }
    congruence.
  - split; [|reflexivity]. intros _.
    apply filter_rows_throws in E. destruct E as (emp & He & Hc).
    exists emp. split; [exact He|].
    apply (proj1 (matches_throws _ _ _ _ _ _) Hc).
Qed.

Lemma filter_pass_throws_witness :
  Client.applyFilters (fun s => s) false Client.resetFilters
    [{| id := 1; name := Some (JNum 5); email := str "a@x.com";
        phone := str "5551234567"; role := str ""; department := str "";
        salary := Some (JNum 0); date_of_joining := str "";
        status := str "Active" |}] = None.
Proof.
  apply (proj2 (filter_pass_throws (fun s => s) false Client.resetFilters _)).
  eexists. split; [left; reflexivity|]. left. reflexivity.
Defined.

Lemma number_not_blank (n : Z) :
  n <> 0%Z -> Server.blank (Some (JNum n)) = false.
Proof.
  intros Hn. unfold Server.blank. cbn [truthy Server.String_ ToString].
  replace (Z.eqb n 0) with false by (symmetry; apply Z.eqb_neq; exact Hn).
  cbn [negb orb]. apply str_eqb_nil_false. intros H.
  apply trim_nil_iff in H.
  destruct (Z.eqb n Infinity) eqn:E1; [discriminate H|].
  destruct (Z.eqb n (- Infinity)) eqn:E2; [discriminate H|].
  destruct (serialize_head 0 (JNum n)) as (c & r & E & _ & W & _).
  cbn [JSON.SerializeJSONProperty] in E.
  replace (Z.eqb (Z.abs n) Infinity) with false in E.
  - rewrite E in H. simpl in H. rewrite W in H. discriminate.
  - symmetry. apply Z.eqb_neq. apply Z.eqb_neq in E1, E2.
    assert (0 < Infinity)%Z by reflexivity. lia.
Qed.

(** X15.  The HTTP Create does not ask the name to be a string: with any
    number other than zero as the name (and an email and a phone that pass)
    it answers 201 and stores the number; on the collection it saved, every
    filter pass of the page throws, so the page can no longer show its
    table. *)
Theorem numeric_name_breaks_page :
  forall (es : list employee) (data : object) (n : Z)
         (toLowerCase : jsstring -> jsstring) (triggeredBySearch : bool)
         (fs : Client.filters),
    get data (lit "name") = Some (JNum n) -> n <> 0%Z ->
    Server.blank (get data (lit "email")) = false ->
    Server.blank (get data (lit "phone")) = false ->
    List.length (Server.phoneDigits data) = 10%nat ->
    exists r es',
      Server.create es data
      = Outcome (Response 201 (Record_body r)) (Some es')
      /\ name r = Some (JNum n)
      /\ Client.applyFilters toLowerCase triggeredBySearch fs es' = None.
Proof.
  intros es data n tl b fs Hn Hn0 He Hp Hlen.
  assert (Hreq : Server.first_missing data Server.required = None).
  { apply first_missing_none. intros f [<-|[<-|[<-|[]]]]; auto.
    rewrite Hn. apply number_not_blank. exact Hn0. }
  rewrite (create_accepts es data Hreq Hlen). cbv zeta.
  eexists. eexists. split; [reflexivity|]. split; [exact Hn|].
  unfold Client.applyFilters.
  replace (Client.filter_rows _ _) with (@None (list employee));
    [reflexivity|].
  symmetry. apply filter_rows_throws. eexists. split.
  - apply in_or_app. right. left. reflexivity.
  - apply matches_throws. left. cbn [name]. rewrite Hn.
    unfold Client.readable, or_else, truthy.
    replace (Z.eqb n 0) with false by (symmetry; apply Z.eqb_neq; exact Hn0).
    reflexivity.
Qed.

Lemma numeric_name_breaks_page_witness :
  exists r es',
    Server.create []
      [(lit "name", JNum 5); (lit "email", JStr (lit "a@x.com"));
       (lit "phone", JStr (lit "5551234567"))]
    = Outcome (Response 201 (Record_body r)) (Some es')
    /\ name r = Some (JNum 5)
    /\ Client.applyFilters (fun s => s) false Client.resetFilters es' = None.
Proof.
  apply (numeric_name_breaks_page []
           [(lit "name", JNum 5); (lit "email", JStr (lit "a@x.com"));
            (lit "phone", JStr (lit "5551234567"))] 5 (fun s => s) false
           Client.resetFilters); try reflexivity. discriminate.
Defined.

Lemma matches_reset (toLowerCase : jsstring -> jsstring) (emp : employee) :
  Client.readable (name emp) = true -> Client.readable (email emp) = true ->
  Client.matches toLowerCase [] Client.ALL Client.ALL Client.ALL emp
  = Some true.
Proof.
  unfold Client.matches, Client.lowered, Client.readable.
  destruct (or_else (name emp) (JStr [])); try discriminate.
  destruct (or_else (email emp) (JStr [])); try discriminate.
  reflexivity.
Qed.

(** X16.  After the filters are reset, a live filter pass shows every
    employee, in order and without opening the edit form, provided every
    name and email is a string or falsy (and lower-casing the empty text
    gives the empty text). *)
Theorem reset_filters_show_all :
  forall (toLowerCase : jsstring -> jsstring) (allEmployees : list employee),
    toLowerCase [] = [] ->
    (forall emp, In emp allEmployees ->
                 Client.readable (name emp) = true
                 /\ Client.readable (email emp) = true) ->
    Client.applyFilters toLowerCase false Client.resetFilters allEmployees
    = Some (Client.View allEmployees None).
Proof.
  intros tl all Ht Hr. unfold Client.applyFilters, Client.resetFilters.
  cbn [Client.searchInput Client.filterDepartment Client.filterRole
       Client.filterStatus].
  change (trim []) with (@nil N). rewrite Ht.
  rewrite filter_rows_total.
  - rewrite filter_all; [reflexivity|]. intros emp He.
    unfold Client.kept_by. destruct (Hr emp He) as [A B].
    rewrite (matches_reset tl emp A B). reflexivity.
  - intros emp He. destruct (Hr emp He) as [A B].
    rewrite (matches_reset tl emp A B). discriminate.
Qed.

Lemma reset_filters_show_all_witness :
  Client.applyFilters (fun s => s) false Client.resetFilters
    [Sample.numbered 1; Sample.numbered 2]
  = Some (Client.View [Sample.numbered 1; Sample.numbered 2] None).
Proof.
  apply (reset_filters_show_all (fun s => s)
           [Sample.numbered 1; Sample.numbered 2] eq_refl).
  intros emp [<-|[<-|[]]]; split; reflexivity.
Defined.

(** X17.  The rows a filter pass shows are a selection of the employees in
    their order; a second live pass with the same filters over those rows
    shows the same rows; the edit form is opened only by a pass triggered
    by the Search button that shows exactly one row, and then for that
    row's id. *)
Theorem filter_pass_selects :
  forall (toLowerCase : jsstring -> jsstring) (triggeredBySearch : bool)
         (fs : Client.filters) (allEmployees rows : list employee)
         (editing : option Z),
    Client.applyFilters toLowerCase triggeredBySearch fs allEmployees
    = Some (Client.View rows editing) ->
    (exists keep, rows = filter keep allEmployees)
    /\ Client.applyFilters toLowerCase false fs rows
       = Some (Client.View rows None)
    /\ (forall i, editing = Some i <->
                  triggeredBySearch = true
                  /\ exists emp, rows = [emp] /\ id emp = i).
Proof.
  intros tl b fs all rows ed. unfold Client.applyFilters.
  set (cb := Client.matches tl _ _ _ _).
  destruct (Client.filter_rows cb all) as [kept|] eqn:E; [|discriminate].
  intros H. injection H as <- <-. split; [|split].
  - exists (Client.kept_by cb). apply (filter_rows_kept cb all kept E).
  - rewrite (filter_rows_again cb all kept E). reflexivity.
  - intros i. destruct b; cbn [andb].
    + destruct kept as [|e [|e' kept]]; cbn [List.length Nat.eqb].
      * split; [discriminate|]. intros (_ & emp & H & _). discriminate.
      * split.
        -- intros H. injection H as <-. split; [reflexivity|]. eauto.
        -- intros (_ & emp & H & <-). injection H as <-. reflexivity.
      * split; [discriminate|]. intros (_ & emp & H & _). discriminate.
    + split; [discriminate|]. intros (H & _). discriminate.
Qed.

Lemma filter_pass_selects_witness :
  Client.applyFilters (fun s => s) false
    (Client.Filters [] Client.ALL Client.ALL (lit "Active"))
    [Sample.numbered 1]
  = Some (Client.View [Sample.numbered 1] None).
Proof.
  apply (proj1 (proj2 (filter_pass_selects (fun s => s) true
                         (Client.Filters [] Client.ALL Client.ALL
                            (lit "Active"))
                         [Sample.numbered 1; Sample.inactive]
                         [Sample.numbered 1] (Some 1%Z) eq_refl))).
Defined.

Lemma matches_split (toLowerCase : jsstring -> jsstring)
      (text dept role_ status_ : jsstring) (emp : employee) :
  Client.kept_by (Client.matches toLowerCase text dept role_ status_) emp
  = Client.kept_by
      (Client.matches toLowerCase text dept Client.ALL Client.ALL) emp
    && Client.kept_by
         (Client.matches toLowerCase [] Client.ALL role_ status_) emp.
Proof.
  unfold Client.kept_by, Client.matches.
  destruct (Client.lowered toLowerCase (name emp)); [|reflexivity].
  destruct (Client.lowered toLowerCase (email emp)); [|reflexivity].
  cbv zeta. change (str_eqb Client.ALL Client.ALL) with true.
  change (str_eqb [] []) with true. cbn [orb].
  rewrite !andb_true_r. cbn [andb]. rewrite andb_assoc. reflexivity.
Qed.

Lemma filter_filter_and (A : Type) (p q : A -> bool) (l : list A) :
  filter q (filter p l) = filter (fun x => p x && q x) l.
Proof.
  induction l as [|x l IH]; [reflexivity|]. simpl.
  destruct (p x); simpl; [destruct (q x)|]; rewrite ?IH; reflexivity.
Qed.

(** X18.  The filters narrow one another: the rows shown for a search text,
    a department, a role and a status are the rows obtained by first
    filtering on the text and the department alone and then filtering
    those rows on the role and the status alone. *)
Theorem filters_narrow :
  forall (toLowerCase : jsstring -> jsstring)
         (text dept role_ status_ : jsstring)
         (allEmployees first : list employee),
    toLowerCase [] = [] ->
    Client.applyFilters toLowerCase false
      (Client.Filters text dept Client.ALL Client.ALL) allEmployees
    = Some (Client.View first None) ->
    Client.applyFilters toLowerCase false
      (Client.Filters text dept role_ status_) allEmployees
    = Client.applyFilters toLowerCase false
        (Client.Filters [] Client.ALL role_ status_) first.
Proof.
  intros tl text dept role_ status_ all first Ht.
  unfold Client.applyFilters.
  cbn [Client.searchInput Client.filterDepartment Client.filterRole
       Client.filterStatus andb].
  change (trim []) with (@nil N). rewrite Ht.
  set (t := tl (trim text)).
  destruct (Client.filter_rows (Client.matches tl t dept Client.ALL Client.ALL)
              all) as [kept|] eqn:E; [|discriminate].
  intros H. injection H as <-.
  assert (Hall : forall cb' : employee -> option bool,
                 (forall emp, cb' emp = None
                                <-> Client.readable (name emp) = false
                                    \/ Client.readable (email emp) = false) ->
                 forall l, (forall emp, In emp l -> In emp all) ->
                 forall emp, In emp l -> cb' emp <> None).
  { intros cb' Hcb l Hl emp He Hc. apply Hcb in Hc.
    assert (Client.filter_rows (Client.matches tl t dept Client.ALL Client.ALL)
              all = None).
    { apply filter_rows_throws. exists emp. split; [apply Hl, He|].
      apply matches_throws. exact Hc. }
    congruence. }
  pose proof (filter_rows_kept _ all kept E) as ->.
  rewrite (filter_rows_total (Client.matches tl t dept role_ status_) all)
    by (apply (Hall _ (matches_throws tl t dept role_ status_) all); auto).
  rewrite (filter_rows_total
             (Client.matches tl [] Client.ALL role_ status_)).
  - rewrite filter_filter_and.
    rewrite (filter_ext _ _ (matches_split tl t dept role_ status_)).
    reflexivity.
  - apply (Hall _ (matches_throws tl [] Client.ALL role_ status_)).
    intros emp He. apply filter_In in He. tauto.
Qed.

Lemma filters_narrow_witness :
  Client.applyFilters (fun s => s) false
    (Client.Filters (lit "nn") (lit "") (lit "") (lit "Inactive"))
    [Sample.numbered 1; Sample.inactive]
  = Client.applyFilters (fun s => s) false
      (Client.Filters [] Client.ALL (lit "") (lit "Inactive"))
      [Sample.numbered 1; Sample.inactive].
Proof.
  apply (filters_narrow (fun s => s) (lit "nn") (lit "") (lit "")
           (lit "Inactive") [Sample.numbered 1; Sample.inactive]
           [Sample.numbered 1; Sample.inactive] eq_refl).
  reflexivity.
Defined.

(** ** The form of the page *)

Lemma trimStart_app_unit (s : jsstring) (c : N) :
  is_white_space c = false -> trimStart (s ++ [c]) = trimStart s ++ [c].
Proof.
  intros Hc. induction s as [|d s IH]; simpl.
  - rewrite Hc. reflexivity.
  - destruct (is_white_space d); [exact IH | reflexivity].
Qed.

Lemma trimStart_idem (s : jsstring) : trimStart (trimStart s) = trimStart s.
Proof.
  induction s as [|c s IH]; [reflexivity|]. simpl.
  destruct (is_white_space c) eqn:E; [exact IH|]. simpl. rewrite E.
  reflexivity.
Qed.

Lemma trimEnd_cons (c : N) (s : jsstring) :
  is_white_space c = false -> trimEnd (c :: s) = c :: trimEnd s.
Proof.
  intros Hc. unfold trimEnd. simpl rev.
  rewrite (trimStart_app_unit (rev s) c Hc), rev_app_distr. reflexivity.
Qed.

Lemma trimEnd_idem (s : jsstring) : trimEnd (trimEnd s) = trimEnd s.
Proof.
  unfold trimEnd. rewrite rev_involutive, trimStart_idem. reflexivity.
Qed.

(** Trimming twice is trimming once. *)
Lemma trim_idem (s : jsstring) : trim (trim s) = trim s.
Proof.
  unfold trim. destruct (trimStart s) as [|c t] eqn:E; [reflexivity|].
  assert (Hc : is_white_space c = false).
  { clear -E. induction s as [|d s IH]; [discriminate|]. simpl in E.
    destruct (is_white_space d) eqn:D; [auto|]. injection E as -> _.
    exact D. }
  rewrite (trimEnd_cons c t Hc). simpl trimStart. rewrite Hc.
  rewrite (trimEnd_cons c _ Hc), trimEnd_idem. reflexivity.
Qed.

Lemma trimStart_units (s : jsstring) :
  forallb is_code_unit s = true -> forallb is_code_unit (trimStart s) = true.
Proof.
  induction s as [|c s IH]; [reflexivity|]. intros H. simpl.
  destruct (is_white_space c); [|exact H].
  simpl in H. apply andb_true_iff in H. tauto.
Qed.

Lemma rev_units (s : jsstring) :
  forallb is_code_unit s = true -> forallb is_code_unit (rev s) = true.
Proof.
  intros H. apply forallb_forall. intros c Hc. apply in_rev in Hc.
  rewrite forallb_forall in H. auto.
Qed.

Lemma trim_units (s : jsstring) :
  forallb is_code_unit s = true -> forallb is_code_unit (trim s) = true.
Proof.
  intros H. unfold trim, trimEnd.
  apply rev_units, trimStart_units, rev_units, trimStart_units, H.
Qed.

Lemma or_else_text (s : jsstring) :
  or_else (Some (JStr s)) (JStr []) = JStr s.
Proof. destruct s; reflexivity. Qed.

Lemma or_else_number (n : Z) :
  or_else (Some (JNum n)) (JNum 0) = JNum n.
Proof.
  unfold or_else, truthy. destruct (Z.eqb_spec n 0) as [->|_]; reflexivity.
Qed.

Lemma payload_well_formed (fm : Client.form) (salary_ : Z) :
  Client.form_text fm = true -> exact salary_ = true ->
  well_formed (JObj (Client.payload_of fm salary_)) = true.
Proof.
  unfold Client.form_text. rewrite !andb_true_iff.
  intros ((((((A & B) & C) & D) & E) & F) & G) Hs.
  unfold Client.payload_of. rewrite or_else_number.
  cbn [well_formed map fst snd forallb].
  rewrite !trim_units by assumption. rewrite digits_are_units, F, G, Hs.
  reflexivity.
Qed.

(** *** The request body *)

Lemma closes_ends (rest : jsstring) :
  Client.closes rest = true ->
  JSON.take_digits rest = ([], rest)
  /\ JSON.parse_fraction rest = Some ([], rest)
  /\ JSON.parse_exponent rest = Some (None, rest).
Proof.
  destruct rest as [|c rest]; [repeat split|]. simpl. intros Hf.
  rewrite !orb_true_iff in Hf.
  destruct Hf as [[Hf|Hf]|Hf]; apply N.eqb_eq in Hf; subst; repeat split.
Qed.

Lemma parse_number_closed (z : Z) (rest : jsstring) :
  exact z = true -> Client.closes rest = true ->
  JSON.parse_number (Number_toString z ++ rest) = Some (z, rest).
Proof.
  intros Hz Hf. destruct (closes_ends rest Hf) as (A & B & C).
  apply parse_number_digits; assumption.
Qed.

(** The text of a value starts with a character that is neither
    whitespace nor a closing bracket. *)
Lemma body_head (v : json) :
  exists c r, Client.stringify v = c :: r
              /\ JSON.is_json_ws c = false /\ c <> 93%N /\ c <> 125%N.
Proof.
  destruct (serialize_head 0 v) as (c & r & E & W & _ & N1 & N2).
  destruct v as [|[|]|z|s|[|x l]|[|kv m]];
    try (exists c, r; repeat split; assumption);
    eexists; eexists; (split; [reflexivity|]); repeat split; discriminate.
Qed.

Lemma body_elements (l : list json) :
  Forall Client.reads_back l -> l <> [] ->
  forall (acc : list json) (f : nat) (rest : jsstring),
    (list_sum (map (fun x => S (JSON.size x)) l) <= f)%nat ->
    JSON.parse_elements f
      (join [44%N] (map Client.stringify l) ++ 93%N :: rest) acc
    = Some (JArr (acc ++ l), rest).
Proof.
  induction l as [|x l IH]; [congruence|].
  intros HP _ acc f rest Hf.
  inversion HP as [|? ? Hx Hl]; subst.
  destruct f as [|f]; [simpl in Hf; lia|].
  simpl in Hf. cbn [JSON.parse_elements].
  destruct l as [|y l].
  - cbn [map join].
    rewrite (Hx (93%N :: rest) f eq_refl) by lia.
    rewrite skip_ws_head by reflexivity. reflexivity.
  - cbn [map]. rewrite join_cons2.
    rewrite (Hx ([44%N] ++ _) f eq_refl) by lia.
    cbn [app]. rewrite skip_ws_head by reflexivity. simpl N.eqb. cbv iota.
    change (Client.stringify y :: map Client.stringify l)
      with (map Client.stringify (y :: l)).
    rewrite (IH Hl) by (try discriminate; simpl; simpl in Hf; lia).
    rewrite <- app_assoc. reflexivity.
Qed.

Lemma body_member_text (k body t : jsstring) :
  (JSON.QuoteJSONString k ++ 58%N :: body) ++ t
  = 34%N :: JSON.quote_units k ++ 34%N :: 58%N :: (body ++ t).
Proof.
  unfold JSON.QuoteJSONString. cbn [app]. rewrite <- !app_assoc. reflexivity.
Qed.

Lemma body_member (f : nat) (k : jsstring) (v : json)
      (t : jsstring) (acc : object) :
  forallb is_code_unit k = true -> Client.reads_back v ->
  (JSON.size v <= f)%nat -> Client.closes t = true ->
  JSON.parse_members (S f)
    (34%N :: JSON.quote_units k
     ++ 34%N :: 58%N :: (Client.stringify v ++ t)) acc
  = match JSON.skip_ws t with
    | e :: s5 =>
        if N.eqb e 44 then JSON.parse_members f s5 (set acc k v)
        else if N.eqb e 125 then Some (JObj (set acc k v), s5)
        else None
    | [] => None
    end.
Proof.
  intros Hk Hv Hf Ht. cbn [JSON.parse_members].
  rewrite skip_ws_head by reflexivity. simpl N.eqb. cbv iota.
  rewrite (parse_units_quote k _ Hk).
  rewrite skip_ws_head by reflexivity. simpl N.eqb. cbv iota.
  rewrite (Hv t f Ht Hf). reflexivity.
Qed.

Lemma body_members (m : object) :
  Forall (fun kv => Client.reads_back (snd kv)) m -> m <> [] ->
  forallb (fun kv => key (fst kv)) m = true ->
  forall (acc : object) (f : nat) (rest : jsstring),
    NoDup (map fst (acc ++ m)) ->
    (list_sum (map (fun kv => S (JSON.size (snd kv))) m) <= f)%nat ->
    JSON.parse_members f
      (join [44%N]
         (map (fun kv => JSON.QuoteJSONString (fst kv)
                         ++ 58%N :: Client.stringify (snd kv)) m)
       ++ 125%N :: rest) acc
    = Some (JObj (acc ++ m), rest).
Proof.
  induction m as [|[k v] m IH]; [congruence|].
  intros HP _ Hk acc f rest Hnd Hf.
  inversion HP as [|? ? Hv Hm]; subst. simpl in Hv.
  simpl in Hk. apply andb_true_iff in Hk. destruct Hk as [Hk Hks].
  destruct f as [|f]; [simpl in Hf; lia|]. simpl in Hf.
  assert (Hfresh : ~ In k (map fst acc)).
  { rewrite map_app in Hnd. simpl in Hnd.
    apply NoDup_remove_2 in Hnd. intros Hin. apply Hnd.
    apply in_or_app. left. exact Hin. }
  destruct m as [|kv m].
  - cbn [map join fst snd]. rewrite body_member_text.
    rewrite body_member by (auto using key_units; lia).
    rewrite skip_ws_head by reflexivity. simpl N.eqb. cbv iota.
    rewrite set_fresh by assumption. reflexivity.
  - cbn [map]. rewrite join_cons2. cbn [fst snd]. rewrite body_member_text.
    rewrite body_member by (auto using key_units; lia).
    cbn [app]. rewrite skip_ws_head by reflexivity. simpl N.eqb. cbv iota.
    rewrite set_fresh by assumption.
    match goal with
    | |- context [?a :: map ?g m] => change (a :: map g m) with (map g (kv :: m))
    end.
    rewrite (IH Hm); try discriminate; try exact Hks.
    + rewrite <- app_assoc. reflexivity.
    + rewrite <- app_assoc. exact Hnd.
    + simpl. simpl in Hf. lia.
Qed.

Lemma body_array_text (x : json) (l : list json) (rest : jsstring) :
  Client.stringify (JArr (x :: l)) ++ rest
  = 91%N :: join [44%N] (map Client.stringify (x :: l)) ++ 93%N :: rest.
Proof.
  cbn [Client.stringify]. cbn [app]. rewrite <- app_assoc. reflexivity.
Qed.

Lemma body_object_text (kv : jsstring * json) (m : object)
      (rest : jsstring) :
  Client.stringify (JObj (kv :: m)) ++ rest
  = 123%N
    :: join [44%N]
         (map (fun kv => JSON.QuoteJSONString (fst kv)
                         ++ 58%N :: Client.stringify (snd kv)) (kv :: m))
    ++ 125%N :: rest.
Proof.
  cbn [Client.stringify]. cbn [app]. rewrite <- app_assoc. reflexivity.
Qed.

(** Every well-formed value is read back from the text the page sends. *)
Lemma body_reads_back (v : json) :
  well_formed v = true -> Client.reads_back v.
Proof.
  induction v as [|b|z|s|l IH|m IH] using json_ind;
    intros Hwf rest fuel Hr Hf;
    destruct (parse_value_needs_fuel _ _ Hf) as (f & ->).
  - reflexivity.
  - destruct b; reflexivity.
  - destruct (Number_toString_head z) as (c & r & E & Hc).
    cbn [Client.stringify]. cbn [well_formed] in Hwf.
    rewrite (exact_finite z Hwf).
    pose proof (parse_number_closed z rest Hwf Hr) as Hn.
    rewrite E in *. cbn [app] in *.
    rewrite (parse_value_number f c _ Hc), Hn. reflexivity.
  - cbn [Client.stringify]. unfold JSON.QuoteJSONString.
    cbn [app JSON.parse_value].
    rewrite skip_ws_head by reflexivity. simpl N.eqb. cbv iota.
    rewrite <- app_assoc. cbn [app].
    rewrite (parse_units_quote s rest Hwf). reflexivity.
  - destruct l as [|x l]; [reflexivity|].
    assert (HP : Forall Client.reads_back (x :: l)).
    { change (forallb well_formed (x :: l) = true) in Hwf.
      rewrite forallb_forall in Hwf. rewrite Forall_forall in *.
      intros y Hy. apply IH; auto. }
    rewrite body_array_text.
    destruct (body_head x) as (c & t & E & W & N1 & _).
    assert (Es : JSON.skip_ws
                   (join [44%N] (map Client.stringify (x :: l))
                    ++ 93%N :: rest)
                 = c :: (t ++ match l with
                              | [] => 93%N :: rest
                              | _ => [44%N]
                                     ++ (join [44%N] (map Client.stringify l)
                                         ++ 93%N :: rest)
                              end)).
    { destruct l as [|y l].
      - cbn [map join]. rewrite E. cbn [app]. apply skip_ws_head, W.
      - cbn [map]. rewrite join_cons2, E. cbn [app].
        apply skip_ws_head, W. }
    rewrite (parse_value_array f _ _ c Es N1).
    apply (body_elements (x :: l) HP);
      [discriminate | simpl in Hf; simpl; lia].
  - destruct m as [|kv m]; [reflexivity|].
    change (nodup_keys (map fst (kv :: m))
            && forallb (fun kv => key (fst kv) && well_formed (snd kv))
                 (kv :: m) = true)
      in Hwf.
    apply andb_true_iff in Hwf. destruct Hwf as [Hnd Hall].
    rewrite forallb_forall in Hall.
    assert (HP : Forall (fun kv => Client.reads_back (snd kv)) (kv :: m)).
    { rewrite Forall_forall in *. intros y Hy. apply IH; [exact Hy|].
      specialize (Hall y Hy). apply andb_true_iff in Hall. tauto. }
    rewrite body_object_text.
    assert (Es : exists t,
               JSON.skip_ws
                 (join [44%N]
                    (map (fun kv => JSON.QuoteJSONString (fst kv)
                                    ++ 58%N :: Client.stringify (snd kv))
                         (kv :: m))
                  ++ 125%N :: rest) = 34%N :: t).
    { destruct m as [|kv' m].
      - cbn [map join]. rewrite body_member_text.
        rewrite skip_ws_head by reflexivity. eauto.
      - cbn [map]. rewrite join_cons2, body_member_text.
        rewrite skip_ws_head by reflexivity. eauto. }
    destruct Es as (t & Es).
    rewrite (parse_value_object f _ t 34 Es) by discriminate.
    apply (body_members (kv :: m) HP).
    + discriminate.
    + apply forallb_forall. intros y Hy. specialize (Hall y Hy).
      apply andb_true_iff in Hall. tauto.
    + apply nodup_keys_NoDup. exact Hnd.
    + simpl in Hf. simpl. lia.
Qed.

(** The text of the body is sent as it is. *)
Lemma stored_body (v : json) : stored_verbatim (Client.stringify v).
Proof.
  induction v as [|b|z|s|l IH|m IH] using json_ind.
  - apply stored_all_plain. reflexivity.
  - destruct b; apply stored_all_plain; reflexivity.
  - cbn [Client.stringify]. destruct (Z.eqb (Z.abs z) Infinity).
    + apply stored_all_plain. reflexivity.
    + apply stored_number.
  - apply stored_quote.
  - destruct l as [|x l]; [apply stored_all_plain; reflexivity|].
    cbn [Client.stringify].
    apply stored_plain; [reflexivity|].
    apply stored_app.
    + apply stored_join.
      * apply stored_all_plain. reflexivity.
      * rewrite Forall_forall in *. intros t Ht. apply in_map_iff in Ht.
        destruct Ht as (y & <- & Hy). apply IH. exact Hy.
    + apply stored_all_plain. reflexivity.
  - destruct m as [|kv m]; [apply stored_all_plain; reflexivity|].
    cbn [Client.stringify].
    apply stored_plain; [reflexivity|].
    apply stored_app.
    + apply stored_join.
      * apply stored_all_plain. reflexivity.
      * rewrite Forall_forall in *. intros t Ht. apply in_map_iff in Ht.
        destruct Ht as (y & <- & Hy).
        apply stored_app; [apply stored_quote|].
        apply stored_plain; [reflexivity|].
        apply IH. exact Hy.
    + apply stored_all_plain. reflexivity.
Qed.

(** A well-formed body arrives as the object it was built from. *)
Lemma body_received (payload : object) :
  well_formed (JObj payload) = true ->
  Client.received payload = Some payload.
Proof.
  intros Hwf. unfold Client.received, Client.body_of.
  pose proof (stored_body (JObj payload) []) as Hs.
  rewrite app_nil_r in Hs. cbn [toWellFormed] in Hs.
  rewrite app_nil_r in Hs. rewrite Hs.
  pose proof (body_reads_back (JObj payload) Hwf []
                (JSON.size (JObj payload)) eq_refl (le_n _)) as Hp.
  rewrite app_nil_r in Hp.
  rewrite (parse_fuel_enough _ _ _ _ Hp eq_refl). reflexivity.
Qed.

(** The body the form sends arrives as the payload it built. *)
Lemma payload_received (fm : Client.form) (salary_ : Z) :
  Client.form_text fm = true -> exact salary_ = true ->
  Client.received (Client.payload_of fm salary_)
  = Some (Client.payload_of fm salary_).
Proof.
  intros H Hs. apply body_received, payload_well_formed; assumption.
Qed.

(** What the submit handler has read and checked when it sends a
    request. *)
Lemma submit_sends (Number_ : jsstring -> option Z) (fm : Client.form)
      (a : Client.action) :
  Client.submit Number_ fm = Some a ->
  (forall message, a <> Client.Alert message) ->
  exists salary_,
    Number_ (Client.salary_value fm) = Some salary_
    /\ exact salary_ = true
    /\ List.length (replace_non_digits (Client.phone_value fm)) = 10%nat
    /\ trim (Client.name_value fm) <> []
    /\ trim (Client.email_value fm) <> []
    /\ a = if negb (Client.isEditing fm)
           then Client.Post (Client.payload_of fm salary_)
           else Client.Put (Client.employeeId fm)
                  (Client.payload_of fm salary_).
Proof.
  unfold Client.submit. rewrite digits_trim.
  destruct (Nat.eqb _ 10) eqn:L; cbn [negb].
  2:{ intros H Ha. injection H as <-. exfalso. exact (Ha _ eq_refl). }
  apply Nat.eqb_eq in L.
  destruct (Number_ (Client.salary_value fm)) as [n|]; [|discriminate].
  destruct (exact n) eqn:Hn; [|discriminate].
  change (get (Client.payload_of fm n) (lit "name"))
    with (Some (JStr (trim (Client.name_value fm)))).
  change (get (Client.payload_of fm n) (lit "email"))
    with (Some (JStr (trim (Client.email_value fm)))).
  cbn [truthy].
  destruct (trim (Client.name_value fm)) as [|c t] eqn:En.
  { intros H Ha. injection H as <-. exfalso. exact (Ha _ eq_refl). }
  destruct (trim (Client.email_value fm)) as [|d u] eqn:Ee.
  { intros H Ha. cbn in H. injection H as <-. exfalso. exact (Ha _ eq_refl). }
  cbn [str_eqb negb orb].
  destruct (negb (truthy _)).
  { intros H Ha. injection H as <-. exfalso. exact (Ha _ eq_refl). }
  intros H _. exists n. repeat split; try assumption; try discriminate.
  destruct (negb (Client.isEditing fm)); injection H as <-; reflexivity.
Qed.

Lemma submit_post (Number_ : jsstring -> option Z) (fm : Client.form)
      (payload : object) :
  Client.submit Number_ fm = Some (Client.Post payload) ->
  exists salary_,
    Number_ (Client.salary_value fm) = Some salary_
    /\ exact salary_ = true
    /\ List.length (replace_non_digits (Client.phone_value fm)) = 10%nat
    /\ trim (Client.name_value fm) <> []
    /\ trim (Client.email_value fm) <> []
    /\ payload = Client.payload_of fm salary_.
Proof.
  intros H.
  destruct (submit_sends Number_ fm _ H ltac:(discriminate))
    as (n & A & B & C & D & E & F).
  exists n. repeat split; try assumption.
  destruct (negb (Client.isEditing fm)); [|discriminate].
  injection F as ->. reflexivity.
Qed.

Lemma submit_put (Number_ : jsstring -> option Z) (fm : Client.form)
      (i : Z) (payload : object) :
  Client.submit Number_ fm = Some (Client.Put i payload) ->
  exists salary_,
    Number_ (Client.salary_value fm) = Some salary_
    /\ exact salary_ = true
    /\ List.length (replace_non_digits (Client.phone_value fm)) = 10%nat
    /\ trim (Client.name_value fm) <> []
    /\ trim (Client.email_value fm) <> []
    /\ payload = Client.payload_of fm salary_
    /\ i = Client.employeeId fm.
Proof.
  intros H.
  destruct (submit_sends Number_ fm _ H ltac:(discriminate))
    as (n & A & B & C & D & E & F).
  exists n. repeat split; try assumption;
    destruct (negb (Client.isEditing fm)); try discriminate;
    injection F as -> ->; reflexivity.
Qed.

Lemma payload_phone (fm : Client.form) (salary_ : Z) :
  Server.phoneDigits (Client.payload_of fm salary_)
  = replace_non_digits (Client.phone_value fm).
Proof.
  rewrite (phoneDigits_string _ (replace_non_digits (trim (Client.phone_value fm))))
    by reflexivity.
  unfold replace_non_digits at 1. rewrite filter_idem.
  apply digits_trim.
Qed.

Lemma payload_not_missing (fm : Client.form) (salary_ : Z) :
  List.length (replace_non_digits (Client.phone_value fm)) = 10%nat ->
  trim (Client.name_value fm) <> [] -> trim (Client.email_value fm) <> [] ->
  Server.first_missing (Client.payload_of fm salary_) Server.required = None.
Proof.
  intros L Hn He. apply first_missing_none.
  intros f [<-|[<-|[<-|[]]]].
  - change (get (Client.payload_of fm salary_) (lit "name"))
      with (Some (JStr (trim (Client.name_value fm)))).
    apply blank_string_false. rewrite trim_idem. exact Hn.
  - change (get (Client.payload_of fm salary_) (lit "email"))
      with (Some (JStr (trim (Client.email_value fm)))).
    apply blank_string_false. rewrite trim_idem. exact He.
  - change (get (Client.payload_of fm salary_) (lit "phone"))
      with (Some (JStr (replace_non_digits (trim (Client.phone_value fm))))).
    apply blank_string_false, ten_digits_not_blank.
    unfold replace_non_digits at 1. rewrite filter_idem.
    fold (replace_non_digits (trim (Client.phone_value fm))).
    rewrite digits_trim. exact L.
Qed.

Lemma nonempty_trimmed (s : jsstring) :
  trim s <> [] -> nonempty_string (Some (JStr (trim s))) = true.
Proof.
  intros H. simpl. apply negb_true_iff, str_eqb_nil_false. exact H.
Qed.

(** X19.  Whenever the submit handler posts (the salary field reading as an
    integer a double holds exactly), the request either has a body above
    the 100kb the server's JSON reader takes, and is answered 413 with
    nothing saved, or the HTTP Create answers 201: the form never sends a
    new employee that the handler refuses.  The record stored carries the
    trimmed name, email, role and department, the stripped phone digits,
    the salary read from the form, the date as entered and the status as
    selected (Active when none is), and satisfies the record invariants of
    the data model. *)
Theorem form_post_is_accepted :
  forall (Number_ : jsstring -> option Z) (fm : Client.form)
         (es : list employee) (payload : object),
    Client.form_text fm = true ->
    Client.submit Number_ fm = Some (Client.Post payload) ->
    (Client.too_large payload = true ->
     Client.handled es (Client.Post payload)
     = Some (Outcome (Response 413 Error_page) None))
    /\ (Client.too_large payload = false ->
        exists salary_ r,
          Number_ (Client.salary_value fm) = Some salary_
          /\ Client.handled es (Client.Post payload)
             = Some (Outcome (Response 201 (Record_body r))
                             (Some (es ++ [r])))
          /\ r = {| id := Server.getNextId es;
                    name := Some (JStr (trim (Client.name_value fm)));
                    email := Some (JStr (trim (Client.email_value fm)));
                    phone :=
                      Some (JStr (replace_non_digits (Client.phone_value fm)));
                    role := Some (JStr (trim (Client.role_value fm)));
                    department :=
                      Some (JStr (trim (Client.department_value fm)));
                    salary := Some (JNum salary_);
                    date_of_joining :=
                      Some (JStr (Client.date_of_joining_value fm));
                    status :=
                      Some (if str_eqb (Client.status_value fm) []
                            then JStr (lit "Active")
                            else JStr (Client.status_value fm)) |}
          /\ valid_record r = true).
Proof.
  intros Number_ fm es payload Ht Hs.
  destruct (submit_post Number_ fm payload Hs)
    as (n & HN & Hx & L & Hn & He & ->).
  split; intros Hsize; cbn [Client.handled]; rewrite Hsize; [reflexivity|].
  exists n. rewrite (payload_received fm n Ht Hx).
  rewrite (create_accepts es _ (payload_not_missing fm n L Hn He))
    by (rewrite payload_phone; exact L).
  cbv zeta. rewrite payload_phone.
  eexists. split; [exact HN|]. split; [reflexivity|]. split.
  - change (get (Client.payload_of fm n) (lit "name"))
      with (Some (JStr (trim (Client.name_value fm)))).
    change (get (Client.payload_of fm n) (lit "email"))
      with (Some (JStr (trim (Client.email_value fm)))).
    change (get (Client.payload_of fm n) (lit "role"))
      with (Some (JStr (trim (Client.role_value fm)))).
    change (get (Client.payload_of fm n) (lit "department"))
      with (Some (JStr (trim (Client.department_value fm)))).
    change (get (Client.payload_of fm n) (lit "salary"))
      with (Some (or_else (Some (JNum n)) (JNum 0))).
    change (get (Client.payload_of fm n) (lit "date_of_joining"))
      with (Some (JStr (Client.date_of_joining_value fm))).
    change (get (Client.payload_of fm n) (lit "status"))
      with (Some (JStr (Client.status_value fm))).
    rewrite !or_else_text, !or_else_number. f_equal. f_equal.
    unfold or_else, truthy.
    destruct (Client.status_value fm); reflexivity.
  - unfold valid_record. cbn [name email phone].
    change (get (Client.payload_of fm n) (lit "name"))
      with (Some (JStr (trim (Client.name_value fm)))).
    change (get (Client.payload_of fm n) (lit "email"))
      with (Some (JStr (trim (Client.email_value fm)))).
    rewrite (nonempty_trimmed _ Hn), (nonempty_trimmed _ He).
    apply (ten_digits_normalized _ L).
Qed.

Lemma form_post_is_accepted_witness :
  exists salary_ r,
    Some 0%Z = Some salary_
    /\ Client.handled []
         (Client.Post
            (Client.payload_of
               (Client.Form (lit " Ann ") (lit "a@x.com")
                  (lit "555-123-4567") [] [] [] [] [] false 0) 0))
       = Some (Outcome (Response 201 (Record_body r)) (Some ([] ++ [r])))
    /\ r = Sample.ann_record.
Proof.
  destruct (proj2 (form_post_is_accepted (fun _ => Some 0%Z)
                     (Client.Form (lit " Ann ") (lit "a@x.com")
                        (lit "555-123-4567") [] [] [] [] [] false 0)
                     [] _ eq_refl eq_refl) eq_refl)
    as (n & r & Hn & Hh & Hr & _).
  exists n, r. split; [exact Hn|]. split; [exact Hh|]. rewrite Hr.
  injection Hn as <-. reflexivity.
Defined.

(** X20.  When the form is in edit mode (the salary field reading as an
    integer a double holds exactly) and the record it edits is still in the
    collection, the request either has a body above the 100kb the server's
    JSON reader takes, and is answered 413 with nothing saved, or the HTTP
    Update answers 200 and nothing of the old record but its id survives:
    the stored record carries the trimmed name, email, role and department,
    the stripped phone digits, the salary read from the form, the date as
    entered and the status as selected, the empty status included (Create
    would have written Active).  The record satisfies the record
    invariants, and so does the saved collection when the loaded one
    did. *)
Theorem form_put_replaces_fields :
  forall (Number_ : jsstring -> option Z) (fm : Client.form)
         (es : list employee) (i : Z) (payload : object),
    Client.form_text fm = true ->
    Client.submit Number_ fm = Some (Client.Put i payload) ->
    (exists e, In e es /\ id e = i) ->
    (Client.too_large payload = true ->
     Client.handled es (Client.Put i payload)
     = Some (Outcome (Response 413 Error_page) None))
    /\ (Client.too_large payload = false ->
        exists salary_ r es',
          Number_ (Client.salary_value fm) = Some salary_
          /\ Client.handled es (Client.Put i payload)
             = Some (Outcome (Response 200 (Record_body r)) (Some es'))
          /\ r = {| id := Client.employeeId fm;
                    name := Some (JStr (trim (Client.name_value fm)));
                    email := Some (JStr (trim (Client.email_value fm)));
                    phone :=
                      Some (JStr (replace_non_digits (Client.phone_value fm)));
                    role := Some (JStr (trim (Client.role_value fm)));
                    department :=
                      Some (JStr (trim (Client.department_value fm)));
                    salary := Some (JNum salary_);
                    date_of_joining :=
                      Some (JStr (Client.date_of_joining_value fm));
                    status := Some (JStr (Client.status_value fm)) |}
          /\ valid_record r = true
          /\ (invariant es -> invariant es')).
Proof.
  intros Number_ fm es i payload Ht Hs Hex.
  destruct (submit_put Number_ fm i payload Hs)
    as (n & HN & Hx & L & Hn & He & -> & ->).
  split; intros Hsize; cbn [Client.handled]; rewrite Hsize; [reflexivity|].
  exists n.
  destruct (findIndex_some es _ Hex) as (i0 & emp & Hf & Hnth & Hid & _).
  rewrite (payload_received fm n Ht Hx).
  rewrite (update_merges es _ (Client.payload_of fm n) i0 emp Hf Hnth)
    by (right; split;
        [apply (phone_given_returns _
                  (replace_non_digits (trim (Client.phone_value fm))));
         reflexivity
        | rewrite payload_phone; exact L]).
  cbv zeta.
  change (get (Client.payload_of fm n) (lit "phone"))
    with (Some (JStr (replace_non_digits (trim (Client.phone_value fm))))).
  cbv iota beta. rewrite payload_phone.
  assert (Er : Server.merged emp (Client.payload_of fm n)
                 (Some (JStr (replace_non_digits (Client.phone_value fm))))
               = {| id := Client.employeeId fm;
                    name := Some (JStr (trim (Client.name_value fm)));
                    email := Some (JStr (trim (Client.email_value fm)));
                    phone :=
                      Some (JStr (replace_non_digits (Client.phone_value fm)));
                    role := Some (JStr (trim (Client.role_value fm)));
                    department :=
                      Some (JStr (trim (Client.department_value fm)));
                    salary := Some (JNum n);
                    date_of_joining :=
                      Some (JStr (Client.date_of_joining_value fm));
                    status := Some (JStr (Client.status_value fm)) |}).
  { unfold Server.merged. rewrite Hid.
    change (get (Client.payload_of fm n) (lit "salary"))
      with (Some (or_else (Some (JNum n)) (JNum 0))).
    rewrite or_else_number. reflexivity. }
  rewrite Er.
  assert (Hv : valid_record
                 {| id := Client.employeeId fm;
                    name := Some (JStr (trim (Client.name_value fm)));
                    email := Some (JStr (trim (Client.email_value fm)));
                    phone :=
                      Some (JStr (replace_non_digits (Client.phone_value fm)));
                    role := Some (JStr (trim (Client.role_value fm)));
                    department :=
                      Some (JStr (trim (Client.department_value fm)));
                    salary := Some (JNum n);
                    date_of_joining :=
                      Some (JStr (Client.date_of_joining_value fm));
                    status := Some (JStr (Client.status_value fm)) |} = true).
  { unfold valid_record. cbn [name email phone].
    rewrite (nonempty_trimmed _ Hn), (nonempty_trimmed _ He).
    apply (ten_digits_normalized _ L). }
  eexists. eexists. split; [exact HN|]. split; [reflexivity|].
  split; [reflexivity|]. split; [exact Hv|].
  intros [Hnd Hall]. split.
  - erewrite assign_ids; [exact Hnd | exact Hnth | symmetry; exact Hid].
  - rewrite Forall_forall in *. intros x Hx'.
    apply assign_In in Hx'. destruct Hx' as [->|Hx']; [exact Hv | auto].
Qed.

Lemma form_put_replaces_fields_witness :
  exists salary_ r es',
    Some 0%Z = Some salary_
    /\ Client.handled [Sample.inactive]
         (Client.Put 1
            (Client.payload_of
               (Client.Form (lit " Ann ") (lit "a@x.com")
                  (lit "555-123-4567") [] [] [] [] [] true 1) 0))
       = Some (Outcome (Response 200 (Record_body r)) (Some es'))
    /\ status r = Some (JStr []).
Proof.
  destruct (proj2 (form_put_replaces_fields (fun _ => Some 0%Z)
                     (Client.Form (lit " Ann ") (lit "a@x.com")
                        (lit "555-123-4567") [] [] [] [] [] true 1)
                     [Sample.inactive] _ _ eq_refl eq_refl
                     (ex_intro _ Sample.inactive
                        (conj (or_introl eq_refl) eq_refl))) eq_refl)
    as (n & r & es' & Hn & Hh & Hr & _).
  exists n, r, es'. split; [exact Hn|]. split; [exact Hh|]. rewrite Hr.
  reflexivity.
Defined.
